(** * CSPRNG-Exploration: a shallow embedding of the generators, the
    statistical analyzer and the benchmark orchestrator.

    The Go sources are translated function by function.  Each Go file
    (several of them are drafts that declare the same type names) gets a
    module of its own, named after the file, or [part_00n] where the file
    name is not known.  The library primitives the sources call
    (crypto/sha256, crypto/hmac, encoding/binary, math) are embedded from
    their documented behaviour so that every definition can be evaluated.
    Console output and the CSV writers are left out. *)

From Stdlib Require Import ZArith List Lia Bool Strings.Byte String Ascii.
From Stdlib Require Import DecimalString Permutation.
From Stdlib Require Import PrimFloat Uint63 Reals Lra.
From stdpp Require Import gmap strings.
Import ListNotations.

Local Open Scope Z_scope.

(** ** Machine integers and byte slices *)

Module Go.

(** [uint64] arithmetic wraps modulo 2^64. *)
Definition wrap_uint64 (x : Z) : Z := x mod 2 ^ 64.

(** [int] and [int64] are 64-bit two's complement. *)
Definition wrap_int64 (x : Z) : Z := (x + 2 ^ 63) mod 2 ^ 64 - 2 ^ 63.

Definition max_int64 : Z := 2 ^ 63 - 1.
Definition min_int64 : Z := - 2 ^ 63.

Definition Z_of_byte (b : byte) : Z := Z.of_N (Byte.to_N b).

Definition byte_of_Z (z : Z) : byte :=
  match Byte.of_N (Z.to_N (z mod 256)) with
  | Some b => b
  | None => x00
  end.

(** [len(s)] as a Go [int]. *)
Definition len {A} (s : list A) : Z := Z.of_nat (List.length s).

(** [make([]byte, n)]: [n] zero bytes. *)
Definition make_bytes (n : Z) : list byte := repeat x00 (Z.to_nat n).

(** [copy(dst[off:], src)]: overwrites [min(len(dst)-off, len(src))]
    bytes of [dst] starting at [off]; the length of [dst] is unchanged. *)
Definition copy_at (dst : list byte) (off : nat) (src : list byte)
  : list byte :=
  let k := Nat.min (List.length dst - off) (List.length src) in
  firstn off dst ++ firstn k src ++ skipn (off + k) dst.

(** [binary.BigEndian.PutUint64(b, v)] on a fresh 8-byte slice. *)
Definition PutUint64 (v : Z) : list byte :=
  map (fun i => byte_of_Z (Z.shiftr v (8 * i))) [7; 6; 5; 4; 3; 2; 1; 0].

(** [binary.BigEndian.PutUint32]. *)
Definition PutUint32 (v : Z) : list byte :=
  map (fun i => byte_of_Z (Z.shiftr v (8 * i))) [3; 2; 1; 0].

(** [[]byte(s)] for a string literal. *)
Definition bytes_of_string (s : string) : list byte := list_byte_of_string s.

(** The verb [%d] of [fmt.Sprintf] and [strconv.FormatInt(v, 10)]. *)
Definition FormatInt (v : Z) : list byte :=
  bytes_of_string (NilZero.string_of_int (Z.to_int v)).

End Go.

(** ** crypto/sha256 and crypto/hmac

    Embedded after the generic block function of the Go standard library
    (FIPS 180-4) and the HMAC construction of RFC 2104. *)

Module sha256.

Definition BlockSize : Z := 64.

Definition u32 (x : Z) : Z := x mod 2 ^ 32.

(** [bits.RotateLeft32(x, -n)] *)
Definition rotr (n x : Z) : Z :=
  Z.lor (Z.shiftr x n) (u32 (Z.shiftl x (32 - n))).

Definition not32 (x : Z) : Z := Z.lxor x 0xffffffff.

(** The first 64 primes, found by trial division. *)
Definition is_prime (p : Z) : bool :=
  forallb (fun d => negb (p mod d =? 0))
          (map Z.of_nat (seq 2 (Z.to_nat p - 2))).

Definition primes : list Z :=
  Eval vm_compute in List.filter is_prime (map Z.of_nat (seq 2 310)).

(** The integer cube root, by bisection between [lo] and [hi]. *)
Fixpoint cube_root (fuel : nat) (lo hi n : Z) : Z :=
  match fuel with
  | O => lo
  | S fuel' =>
      let mid := (lo + hi) / 2 in
      if mid * mid * mid <=? n then cube_root fuel' mid hi n
      else cube_root fuel' lo mid n
  end.

(** The round constants [_K]: the first 32 bits of the fractional parts of
    the cube roots of the first 64 primes (FIPS 180-4, section 4.2.2). *)
Definition _K : list Z :=
  Eval vm_compute in
    map (fun p => u32 (cube_root 40 0 (2 ^ 36) (p * 2 ^ 96))) primes.

(** The chaining value [dig.h], eight 32-bit words. *)
Record digest : Type := mkDigest
  { h0 : Z; h1 : Z; h2 : Z; h3 : Z; h4 : Z; h5 : Z; h6 : Z; h7 : Z }.

(** The initial value: the first 32 bits of the fractional parts of the
    square roots of the first 8 primes (section 5.3.3). *)
Definition init_word (i : nat) : Z :=
  u32 (Z.sqrt (nth i primes 0 * 2 ^ 64)).

Definition init : digest :=
  Eval vm_compute in
    mkDigest (init_word 0) (init_word 1) (init_word 2) (init_word 3)
             (init_word 4) (init_word 5) (init_word 6) (init_word 7).

(** [w[i] = uint32(p[j])<<24 | uint32(p[j+1])<<16 | ...] for the first
    sixteen words of a chunk. *)
Fixpoint load_words (n : nat) (p : list byte) : list Z :=
  match n with
  | O => []
  | S n' =>
      match p with
      | a :: b :: c :: d :: rest =>
          Z.lor (Z.lor (Z.lor (Z.shiftl (Go.Z_of_byte a) 24)
                              (Z.shiftl (Go.Z_of_byte b) 16))
                       (Z.shiftl (Go.Z_of_byte c) 8))
                (Go.Z_of_byte d)
          :: load_words n' rest
      | _ => 0 :: load_words n' []
      end
  end.

(** The schedule is kept newest-first: with [w[i-1]] at the head,
    [w[i-2]], [w[i-7]], [w[i-15]] and [w[i-16]] sit at offsets 1, 6, 14
    and 15. *)
Fixpoint extend (n : nat) (rev_w : list Z) : list Z :=
  match n with
  | O => rev_w
  | S n' =>
      let v1 := nth 1 rev_w 0 in
      let t1 := Z.lxor (Z.lxor (rotr 17 v1) (rotr 19 v1)) (Z.shiftr v1 10) in
      let v2 := nth 14 rev_w 0 in
      let t2 := Z.lxor (Z.lxor (rotr 7 v2) (rotr 18 v2)) (Z.shiftr v2 3) in
      extend n' (u32 (t1 + nth 6 rev_w 0 + t2 + nth 15 rev_w 0) :: rev_w)
  end.

Definition schedule (chunk : list byte) : list Z :=
  rev (extend 48 (rev (load_words 16 chunk))).

Definition round (s : digest) (kw : Z * Z) : digest :=
  let '(mkDigest a b c d e f g h) := s in
  let t1 := h + Z.lxor (Z.lxor (rotr 6 e) (rotr 11 e)) (rotr 25 e)
              + Z.lxor (Z.land e f) (Z.land (not32 e) g)
              + fst kw + snd kw in
  let t2 := Z.lxor (Z.lxor (rotr 2 a) (rotr 13 a)) (rotr 22 a)
            + Z.lxor (Z.lxor (Z.land a b) (Z.land a c)) (Z.land b c) in
  mkDigest (u32 (t1 + t2)) a b c (u32 (d + t1)) e f g.

(** One iteration of the outer loop of [blockGeneric]. *)
Definition block (dig : digest) (chunk : list byte) : digest :=
  let s := fold_left round (combine _K (schedule chunk)) dig in
  mkDigest (u32 (h0 dig + h0 s)) (u32 (h1 dig + h1 s))
           (u32 (h2 dig + h2 s)) (u32 (h3 dig + h3 s))
           (u32 (h4 dig + h4 s)) (u32 (h5 dig + h5 s))
           (u32 (h6 dig + h6 s)) (u32 (h7 dig + h7 s)).

(** [for len(p) >= chunk { ...; p = p[chunk:] }] *)
Fixpoint blocks (n : nat) (dig : digest) (p : list byte) : digest :=
  match n with
  | O => dig
  | S n' => blocks n' (block dig (firstn 64 p)) (skipn 64 p)
  end.

(** [checkSum]: the byte 0x80, zeros up to 56 modulo 64, then the
    message length in bits as a big-endian [uint64]. *)
Definition pad (data : list byte) : list byte :=
  let l := Go.len data in
  let zeros := (55 - l) mod 64 in
  data ++ x80 :: repeat x00 (Z.to_nat zeros)
       ++ Go.PutUint64 (Go.wrap_uint64 (Z.shiftl l 3)).

Definition serialize (d : digest) : list byte :=
  Go.PutUint32 (h0 d) ++ Go.PutUint32 (h1 d) ++ Go.PutUint32 (h2 d)
  ++ Go.PutUint32 (h3 d) ++ Go.PutUint32 (h4 d) ++ Go.PutUint32 (h5 d)
  ++ Go.PutUint32 (h6 d) ++ Go.PutUint32 (h7 d).

(** [sha256.Sum256(data)], as the slice [hash[:]]. *)
Definition Sum256 (data : list byte) : list byte :=
  let p := pad data in
  serialize (blocks (List.length p / 64) init p).

End sha256.

Module hmac.

(** A [hash.Hash] returned by [hmac.New(sha256.New, key)]: the key and
    the bytes written so far. *)
Record mac : Type := mkMac { key : list byte; written : list byte }.

Definition New (k : list byte) : mac := mkMac k [].

Definition Write (m : mac) (p : list byte) : mac :=
  mkMac (key m) (written m ++ p).

Definition xor_pad (c : Z) (k : list byte) : list byte :=
  map (fun b => Go.byte_of_Z (Z.lxor (Go.Z_of_byte b) c)) k.

(** Keys longer than the block size are hashed first; the key is then
    zero-padded to the block size. *)
Definition block_key (k : list byte) : list byte :=
  let k' := if sha256.BlockSize <? Go.len k then sha256.Sum256 k else k in
  k' ++ repeat x00 (Z.to_nat sha256.BlockSize - List.length k').

(** [mac.Sum(nil)] *)
Definition Sum (m : mac) : list byte :=
  let k := block_key (key m) in
  sha256.Sum256
    (xor_pad 0x5c k ++ sha256.Sum256 (xor_pad 0x36 k ++ written m)).

End hmac.

(** ** What a call of [GenerateBytes] can do

    A Go call returns [([]byte, error)], panics, or keeps running.  The
    loops of the generators are embedded with a step budget; [NoResult]
    stands for a budget that ran out and is shown never to happen.

    Every generator holds its mutex from the first to the last statement
    of [GenerateBytes], so the calls on one instance happen one after the
    other; the embedding is that of one call on the state the previous
    call left. *)

Inductive outcome : Type :=
| Return (data : list byte) (err : option string)
| Panic (msg : string)
| NoResult.

(** [s[:hi]] on a slice obtained from [make([]byte, n)], whose capacity
    is its length: the expression panics when [hi] exceeds it. *)
Definition slice_to (s : list byte) (hi : Z) : option (list byte) :=
  if (0 <=? hi) && (hi <=? Go.len s) then Some (firstn (Z.to_nat hi) s)
  else None.

(** [func min(a, b int) int] of main.go. *)
Definition min (a b : Z) : Z := if a <? b then a else b.

(** The package constants declared next to the reseeding
    multEntropyCSPRNG draft. *)
Definition Minute : Z := 60 * 1000000000.
Definition RESEED_INTERVAL : Z := 10 * Minute.
Definition RESEED_BYTE_INTERVAL : Z := 500 * 1024 * 1024.

(** [time.Time] is embedded as nanoseconds on the monotonic clock;
    [t.Sub(u)] saturates at the bounds of [time.Duration]. *)
Definition time_Sub (t u : Z) : Z :=
  Z.max Go.min_int64 (Z.min Go.max_int64 (t - u)).

(** One HTTP exchange as the callers see it: [client.Get] fails (network
    error or timeout), or it succeeds and [io.ReadAll] hands back the
    bytes read together with a possible read error. *)
Inductive http_exchange : Type :=
| GetError
| Body (body : list byte) (read_err : bool).

(** A request that did not deliver its body: [Get] failed, or the read
    ended with an error. *)
Definition failed (r : http_exchange) : bool :=
  match r with
  | GetError => true
  | Body _ read_err => read_err
  end.

Definition sep : list byte := Go.bytes_of_string "|".

(** *** crypto_csprng.go: CryptoCSPRNG, and a WeatherCSPRNG without
    reseeding *)

Module crypto_csprng.

(** The first part of the file, CryptoCSPRNG: [rand.Read] fills the
    buffer or reports an error.  The struct is empty; the embedding keeps
    what the successive reads will deliver and how many were made. *)
Inductive rand_read : Type :=
| Filled (bytes : list byte)
| ReadError (msg : string).

Record CryptoCSPRNG : Type := mkCrypto
  { reads : nat -> rand_read; calls : nat }.

Definition CryptoCSPRNG_Name (s : CryptoCSPRNG) : string := "Crypto CSPRNG".

Definition CryptoCSPRNG_GenerateBytes (s : CryptoCSPRNG) (numBytes : Z)
  : outcome * CryptoCSPRNG :=
  if numBytes <? 0 then (Panic "makeslice: len out of range", s)
  else
    let result := Go.make_bytes numBytes in
    let s' := mkCrypto (reads s) (S (calls s)) in
    match reads s (calls s) with
    | Filled bytes => (Return (Go.copy_at result 0 bytes) None, s')
    | ReadError msg => (Return result (Some msg), s')
    end.

(** The second part of the file. *)
Record WeatherCSPRNG : Type := mkWeather
  { state : list byte; counter : Z }.

(** [NewWeatherCSPRNG]: one request, whose failure leaves [body] nil. *)
Definition NewWeatherCSPRNG (start : Z) (resp : http_exchange)
    (duration : Z) : WeatherCSPRNG :=
  let body := match resp with GetError => [] | Body b _ => b end in
  let entropy := body ++ sep ++ Go.FormatInt start
                      ++ sep ++ Go.FormatInt duration in
  mkWeather (sha256.Sum256 entropy) 0.

Definition Name (w : WeatherCSPRNG) : string := "Weather Based PRNG".

(** [for generated < numBytes { ... }]; the key [w.state] is the same
    for every block of one call. *)
Fixpoint generate_loop (fuel : nat) (st : list byte) (numBytes : Z)
    (result : list byte) (generated : Z) (ctr : Z)
  : option (list byte * Z) :=
  if generated <? numBytes then
    match fuel with
    | O => None
    | S fuel' =>
        let mac := hmac.New st in
        let counterBytes := Go.PutUint64 ctr in
        let mac := hmac.Write mac counterBytes in
        let block := hmac.Sum mac in
        let toCopy := Go.len block in
        let toCopy :=
          if numBytes - generated <? toCopy then numBytes - generated
          else toCopy in
        let result :=
          Go.copy_at result (Z.to_nat generated)
                     (firstn (Z.to_nat toCopy) block) in
        generate_loop fuel' st numBytes result (generated + toCopy)
                      (Go.wrap_uint64 (ctr + 1))
    end
  else Some (result, ctr).

Definition GenerateBytes (w : WeatherCSPRNG) (numBytes : Z)
  : outcome * WeatherCSPRNG :=
  if numBytes <? 0 then (Panic "makeslice: len out of range", w)
  else
    let result := Go.make_bytes numBytes in
    match generate_loop (Z.to_nat numBytes) (state w) numBytes result 0
                        (counter w) with
    | None => (NoResult, w)
    | Some (result, ctr) =>
        match slice_to result 32 with
        | None =>
            (Panic "slice bounds out of range", mkWeather (state w) ctr)
        | Some head =>
            let mac := hmac.New (state w) in
            let mac := hmac.Write mac (Go.bytes_of_string "update") in
            let mac := hmac.Write mac head in
            (Return result None, mkWeather (hmac.Sum mac) ctr)
        end
    end.

End crypto_csprng.

(** *** weather_prng.go: WeatherCSPRNG with a reseed policy *)

(** What a call did, in order: [EvReseed] for each call of [reseed],
    [EvBlock c] for each output block, keyed with counter value [c]. *)
Inductive event : Type :=
| EvReseed
| EvBlock (ctr : Z).

Module weather_prng.

Record WeatherCSPRNG : Type := mkWeather
  { state : list byte;
    counter : Z;
    bytesGenerated : Z;
    lastReseed : Z }.

(** The observations one [reseed] makes: the request and the clock. *)
Record reseed_io : Type := mkIO
  { start : Z;             (* start.UnixNano() *)
    resp : http_exchange;
    duration : Z;          (* duration.Nanoseconds() *)
    now : Z }.             (* time.Now() stored in lastReseed *)

Definition getWeatherEntropy (io : reseed_io) : list byte :=
  let body := match resp io with GetError => [] | Body b _ => b end in
  let entropy := body ++ sep ++ Go.FormatInt (start io)
                      ++ sep ++ Go.FormatInt (duration io) in
  sha256.Sum256 entropy.

Definition reseed (io : reseed_io) (w : WeatherCSPRNG) : WeatherCSPRNG :=
  let newEntropy := getWeatherEntropy io in
  let mac := hmac.New (state w) in
  let mac := hmac.Write mac newEntropy in
  mkWeather (hmac.Sum mac) (counter w) 0 (now io).

(** The zero value of the struct, then [w.reseed()]. *)
Definition NewWeatherCSPRNG (io : reseed_io) : WeatherCSPRNG :=
  reseed io (mkWeather [] 0 0 0).

Definition Name (w : WeatherCSPRNG) : string := "Weather Based PRNG".

(** The loop rekeys after every block:
    [w.state = HMAC(w.state, block)]. *)
Fixpoint generate_loop (fuel : nat) (st : list byte) (numBytes : Z)
    (result : list byte) (generated : Z) (ctr : Z) (tr : list event)
  : option (list byte * list byte * Z * list event) :=
  if generated <? numBytes then
    match fuel with
    | O => None
    | S fuel' =>
        let mac := hmac.New st in
        let counterBytes := Go.PutUint64 ctr in
        let mac := hmac.Write mac counterBytes in
        let block := hmac.Sum mac in
        let toCopy := min (Go.len block) (numBytes - generated) in
        let result :=
          Go.copy_at result (Z.to_nat generated)
                     (firstn (Z.to_nat toCopy) block) in
        let updateMac := hmac.New st in
        let updateMac := hmac.Write updateMac block in
        generate_loop fuel' (hmac.Sum updateMac) numBytes result
                      (generated + toCopy) (Go.wrap_uint64 (ctr + 1))
                      (tr ++ [EvBlock ctr])
    end
  else Some (result, st, ctr, tr).

(** [needs_reseed clock w]: the condition of the [if] that guards
    [w.reseed()], [clock] being the [time.Now()] that [time.Since]
    reads. *)
Definition needs_reseed (clock : Z) (w : WeatherCSPRNG) : bool :=
  (RESEED_INTERVAL <? time_Sub clock (lastReseed w))
  || (RESEED_BYTE_INTERVAL <? bytesGenerated w).

Definition GenerateBytes (clock : Z) (io : reseed_io)
    (w : WeatherCSPRNG) (numBytes : Z)
  : outcome * WeatherCSPRNG * list event :=
  let '(w, tr) :=
    if needs_reseed clock w then (reseed io w, [EvReseed]) else (w, []) in
  if numBytes <? 0 then (Panic "makeslice: len out of range", w, tr)
  else
    let result := Go.make_bytes numBytes in
    match generate_loop (Z.to_nat numBytes) (state w) numBytes result 0
                        (counter w) tr with
    | None => (NoResult, w, tr)
    | Some (result, st, ctr, tr) =>
        (Return result None,
         mkWeather st ctr (Go.wrap_int64 (bytesGenerated w + numBytes))
                   (lastReseed w),
         tr)
    end.

End weather_prng.

(** *** multEntropy_prng.go: three entropy sources, no reseeding *)

Module multEntropy_prng.

Record multEntropyCSPRNG : Type := mkMult
  { state : list byte; counter : Z }.

(** What [gatherEntropy] observes: the three exchanges, the latency of
    the third and the clock. *)
Record gather_io : Type := mkIO
  { weather_resp : http_exchange;
    market_resp : http_exchange;
    network_resp : http_exchange;
    network_duration : Z;    (* duration.Nanoseconds() *)
    now : Z }.               (* time.Now().UnixNano() *)

(** [body, _ := io.ReadAll(resp.Body)]: a read error is dropped and the
    bytes read so far are used. *)
Definition getWeather (r : http_exchange) : list byte :=
  match r with
  | GetError => Go.bytes_of_string "weather_error"
  | Body body _ => body
  end.

Definition getMarket (r : http_exchange) : list byte :=
  match r with
  | GetError => Go.bytes_of_string "market_error"
  | Body body _ => body
  end.

(** The body of the third response is never read. *)
Definition getNetwork (r : http_exchange) (duration : Z) : list byte :=
  match r with
  | GetError => Go.bytes_of_string "network_error"
  | Body _ _ => Go.FormatInt duration
  end.

Definition gatherEntropy (io : gather_io) : list byte :=
  let weather := getWeather (weather_resp io) in
  let market := getMarket (market_resp io) in
  let network := getNetwork (network_resp io) (network_duration io) in
  let entropy := weather ++ sep ++ market ++ sep ++ network
                         ++ sep ++ Go.FormatInt (now io) in
  sha256.Sum256 entropy.

(** The seed before seeding is the nil slice of the zero struct. *)
Definition zero : multEntropyCSPRNG := mkMult [] 0.

Definition NewmultEntropyCSPRNG (io : gather_io) : multEntropyCSPRNG :=
  mkMult (gatherEntropy io) (counter zero).

Definition Name (c : multEntropyCSPRNG) : string := "3 Entropy Source PRNG".

Fixpoint generate_loop (fuel : nat) (st : list byte) (numBytes : Z)
    (result : list byte) (generated : Z) (ctr : Z)
  : option (list byte * Z) :=
  if generated <? numBytes then
    match fuel with
    | O => None
    | S fuel' =>
        let mac := hmac.New st in
        let counterBytes := Go.PutUint64 ctr in
        let mac := hmac.Write mac counterBytes in
        let block := hmac.Sum mac in
        let toCopy := Go.len block in
        let toCopy :=
          if numBytes - generated <? toCopy then numBytes - generated
          else toCopy in
        let result :=
          Go.copy_at result (Z.to_nat generated)
                     (firstn (Z.to_nat toCopy) block) in
        generate_loop fuel' st numBytes result (generated + toCopy)
                      (Go.wrap_uint64 (ctr + 1))
    end
  else Some (result, ctr).

Definition GenerateBytes (c : multEntropyCSPRNG) (numBytes : Z)
  : outcome * multEntropyCSPRNG :=
  if numBytes <? 0 then (Panic "makeslice: len out of range", c)
  else
    let result := Go.make_bytes numBytes in
    match generate_loop (Z.to_nat numBytes) (state c) numBytes result 0
                        (counter c) with
    | None => (NoResult, c)
    | Some (result, ctr) =>
        match slice_to result 32 with
        | None =>
            (Panic "slice bounds out of range", mkMult (state c) ctr)
        | Some head =>
            let mac := hmac.New (state c) in
            let mac := hmac.Write mac (Go.bytes_of_string "update") in
            let mac := hmac.Write mac head in
            (Return result None, mkMult (hmac.Sum mac) ctr)
        end
    end.

End multEntropy_prng.

(** *** hybrid_prng.go: weather and system entropy, no reseeding *)

Module hybrid_prng.

Record HybridCSPRNG : Type := mkHybrid
  { state : list byte; counter : Z }.

Record seed_io : Type := mkIO
  { resp : http_exchange;
    duration : Z;                          (* duration.Nanoseconds() *)
    system : option (list byte) }.         (* rand.Read: 32 bytes or an error *)

Definition getWeatherEntropy (io : seed_io) : list byte :=
  match resp io with
  | GetError =>
      Go.bytes_of_string "error:" ++ Go.FormatInt (duration io)
  | Body _ true =>
      Go.bytes_of_string "readerror:" ++ Go.FormatInt (duration io)
  | Body body false => body ++ Go.FormatInt (duration io)
  end.

Definition NewHybridCSPRNG (io : seed_io) : HybridCSPRNG :=
  let weatherEntropy := getWeatherEntropy io in
  let systemEntropy :=
    match system io with
    | Some bytes => bytes
    | None => Go.bytes_of_string "fallback_system_entropy"
    end in
  let combined := weatherEntropy ++ systemEntropy in
  mkHybrid (sha256.Sum256 combined) 0.

Definition Name (h : HybridCSPRNG) : string :=
  "Hybrid PRNG (Weather + System)".

Fixpoint generate_loop (fuel : nat) (st : list byte) (numBytes : Z)
    (result : list byte) (generated : Z) (ctr : Z)
  : option (list byte * Z) :=
  if generated <? numBytes then
    match fuel with
    | O => None
    | S fuel' =>
        let mac := hmac.New st in
        let counterBytes := Go.PutUint64 ctr in
        let mac := hmac.Write mac counterBytes in
        let block := hmac.Sum mac in
        let toCopy := Go.len block in
        let toCopy :=
          if numBytes - generated <? toCopy then numBytes - generated
          else toCopy in
        let result :=
          Go.copy_at result (Z.to_nat generated)
                     (firstn (Z.to_nat toCopy) block) in
        generate_loop fuel' st numBytes result (generated + toCopy)
                      (Go.wrap_uint64 (ctr + 1))
    end
  else Some (result, ctr).

(** Here the state update reads [result[:min(32, len(result))]]. *)
Definition GenerateBytes (h : HybridCSPRNG) (numBytes : Z)
  : outcome * HybridCSPRNG :=
  if numBytes <? 0 then (Panic "makeslice: len out of range", h)
  else
    let result := Go.make_bytes numBytes in
    match generate_loop (Z.to_nat numBytes) (state h) numBytes result 0
                        (counter h) with
    | None => (NoResult, h)
    | Some (result, ctr) =>
        match slice_to result (min 32 (Go.len result)) with
        | None =>
            (Panic "slice bounds out of range", mkHybrid (state h) ctr)
        | Some head =>
            let mac := hmac.New (state h) in
            let mac := hmac.Write mac (Go.bytes_of_string "update") in
            let mac := hmac.Write mac head in
            (Return result None, mkHybrid (hmac.Sum mac) ctr)
        end
    end.

End hybrid_prng.

(** *** The reseeding HybridCSPRNG draft (unnamed part 3, first file) *)

Module part_003_hybrid.

Record HybridCSPRNG : Type := mkHybrid
  { state : list byte;
    counter : Z;
    bytesGenerated : Z;
    lastReseed : Z }.

Record reseed_io : Type := mkIO
  { system : option (list byte);   (* rand.Read: 32 bytes or an error *)
    resp : http_exchange;
    duration : Z;
    now : Z }.

Definition getWeatherEntropy (io : reseed_io) : list byte :=
  match resp io with
  | GetError =>
      Go.bytes_of_string "error:" ++ Go.FormatInt (duration io)
  | Body _ true =>
      Go.bytes_of_string "readerror:" ++ Go.FormatInt (duration io)
  | Body body false => body ++ Go.FormatInt (duration io)
  end.

Definition reseed (io : reseed_io) (h : HybridCSPRNG) : HybridCSPRNG :=
  let systemEntropyKey :=
    match system io with
    | Some bytes => bytes
    | None => Go.bytes_of_string "fatal_system_entropy_read_error_"
    end in
  let weatherEntropy := getWeatherEntropy io in
  let mac := hmac.New systemEntropyKey in
  let mac := hmac.Write mac weatherEntropy in
  let newEntropy := hmac.Sum mac in
  let oldStateMac := hmac.New (state h) in
  let oldStateMac := hmac.Write oldStateMac newEntropy in
  mkHybrid (hmac.Sum oldStateMac) (counter h) 0 (now io).

Definition NewHybridCSPRNG (io : reseed_io) : HybridCSPRNG :=
  reseed io (mkHybrid [] 0 0 0).

Definition Name (h : HybridCSPRNG) : string := "Hybrid PRNG".

Fixpoint generate_loop (fuel : nat) (st : list byte) (numBytes : Z)
    (result : list byte) (generated : Z) (ctr : Z) (tr : list event)
  : option (list byte * list byte * Z * list event) :=
  if generated <? numBytes then
    match fuel with
    | O => None
    | S fuel' =>
        let mac := hmac.New st in
        let counterBytes := Go.PutUint64 ctr in
        let mac := hmac.Write mac counterBytes in
        let block := hmac.Sum mac in
        let toCopy := min (Go.len block) (numBytes - generated) in
        let result :=
          Go.copy_at result (Z.to_nat generated)
                     (firstn (Z.to_nat toCopy) block) in
        let updateMac := hmac.New st in
        let updateMac := hmac.Write updateMac block in
        generate_loop fuel' (hmac.Sum updateMac) numBytes result
                      (generated + toCopy) (Go.wrap_uint64 (ctr + 1))
                      (tr ++ [EvBlock ctr])
    end
  else Some (result, st, ctr, tr).

Definition needs_reseed (clock : Z) (h : HybridCSPRNG) : bool :=
  (RESEED_INTERVAL <? time_Sub clock (lastReseed h))
  || (RESEED_BYTE_INTERVAL <? bytesGenerated h).

Definition GenerateBytes (clock : Z) (io : reseed_io)
    (h : HybridCSPRNG) (numBytes : Z)
  : outcome * HybridCSPRNG * list event :=
  let '(h, tr) :=
    if needs_reseed clock h then (reseed io h, [EvReseed]) else (h, []) in
  if numBytes <? 0 then (Panic "makeslice: len out of range", h, tr)
  else
    let result := Go.make_bytes numBytes in
    match generate_loop (Z.to_nat numBytes) (state h) numBytes result 0
                        (counter h) tr with
    | None => (NoResult, h, tr)
    | Some (result, st, ctr, tr) =>
        (Return result None,
         mkHybrid st ctr (Go.wrap_int64 (bytesGenerated h + numBytes))
                  (lastReseed h),
         tr)
    end.

End part_003_hybrid.

(** *** The reseeding multEntropyCSPRNG draft (unnamed part 3, third file) *)

Module part_003_multEntropy.

Record multEntropyCSPRNG : Type := mkMult
  { state : list byte;
    counter : Z;
    bytesGenerated : Z;
    lastReseed : Z }.

(** The four latency probes run concurrently and append under a lock, so
    [jitter] lists them in the order in which they finished; [None] is a
    probe whose [Get] failed. *)
Record reseed_io : Type := mkIO
  { weather_resp : http_exchange;
    market_resp : http_exchange;
    jitter : list (option Z);
    entropy_now : Z;         (* time.Now().UnixNano() in gatherEntropy *)
    now : Z }.               (* time.Now() stored in lastReseed *)

Definition getWeather (r : http_exchange) : list byte :=
  match r with
  | GetError => Go.bytes_of_string "weather_error"
  | Body _ true => Go.bytes_of_string "weather_read_error"
  | Body body false => body
  end.

Definition getMarket (r : http_exchange) : list byte :=
  match r with
  | GetError => Go.bytes_of_string "market_error"
  | Body _ true => Go.bytes_of_string "market_read_error"
  | Body body false => body
  end.

(** [strings.Join(latencies, ",")] *)
Fixpoint Join (parts : list (list byte)) : list byte :=
  match parts with
  | [] => []
  | [p] => p
  | p :: rest => p ++ Go.bytes_of_string "," ++ Join rest
  end.

Definition getNetworkJitter (probes : list (option Z)) : list byte :=
  let latencies :=
    flat_map (fun p => match p with
                       | Some d => [Go.FormatInt d]
                       | None => []
                       end) probes in
  if Go.len latencies =? 0 then Go.bytes_of_string "network_error_all"
  else Join latencies.

Definition gatherEntropy (io : reseed_io) : list byte :=
  let weatherData := getWeather (weather_resp io) in
  let marketData := getMarket (market_resp io) in
  let networkData := getNetworkJitter (jitter io) in
  let entropy := weatherData ++ sep ++ marketData ++ sep ++ networkData
                             ++ sep ++ Go.FormatInt (entropy_now io) in
  sha256.Sum256 entropy.

Definition reseed (io : reseed_io) (c : multEntropyCSPRNG)
  : multEntropyCSPRNG :=
  let newEntropy := gatherEntropy io in
  let mac := hmac.New (state c) in
  let mac := hmac.Write mac newEntropy in
  mkMult (hmac.Sum mac) (counter c) 0 (now io).

Definition NewmultEntropyCSPRNG (io : reseed_io) : multEntropyCSPRNG :=
  reseed io (mkMult [] 0 0 0).

Definition Name (c : multEntropyCSPRNG) : string := "3 Entropy Source PRNG".

Fixpoint generate_loop (fuel : nat) (st : list byte) (numBytes : Z)
    (result : list byte) (generated : Z) (ctr : Z) (tr : list event)
  : option (list byte * list byte * Z * list event) :=
  if generated <? numBytes then
    match fuel with
    | O => None
    | S fuel' =>
        let mac := hmac.New st in
        let counterBytes := Go.PutUint64 ctr in
        let mac := hmac.Write mac counterBytes in
        let block := hmac.Sum mac in
        let toCopy := min (Go.len block) (numBytes - generated) in
        let result :=
          Go.copy_at result (Z.to_nat generated)
                     (firstn (Z.to_nat toCopy) block) in
        let updateMac := hmac.New st in
        let updateMac := hmac.Write updateMac block in
        generate_loop fuel' (hmac.Sum updateMac) numBytes result
                      (generated + toCopy) (Go.wrap_uint64 (ctr + 1))
                      (tr ++ [EvBlock ctr])
    end
  else Some (result, st, ctr, tr).

Definition needs_reseed (clock : Z) (c : multEntropyCSPRNG) : bool :=
  (RESEED_INTERVAL <? time_Sub clock (lastReseed c))
  || (RESEED_BYTE_INTERVAL <? bytesGenerated c).

Definition GenerateBytes (clock : Z) (io : reseed_io)
    (c : multEntropyCSPRNG) (numBytes : Z)
  : outcome * multEntropyCSPRNG * list event :=
  let '(c, tr) :=
    if needs_reseed clock c then (reseed io c, [EvReseed]) else (c, []) in
  if numBytes <? 0 then (Panic "makeslice: len out of range", c, tr)
  else
    let result := Go.make_bytes numBytes in
    match generate_loop (Z.to_nat numBytes) (state c) numBytes result 0
                        (counter c) tr with
    | None => (NoResult, c, tr)
    | Some (result, st, ctr, tr) =>
        (Return result None,
         mkMult st ctr (Go.wrap_int64 (bytesGenerated c + numBytes))
                (lastReseed c),
         tr)
    end.

End part_003_multEntropy.

(** ** float64

    The analyzer and the orchestrator compute in [float64].  Their code is
    embedded once, over the operations it uses, and read in two ways: with
    IEEE 754 binary64 numbers (the primitive floats), which is what the
    program runs, and with exact real numbers, which is what the formulas
    of the specification mean. *)

Class Float64 (F : Type) : Type :=
  { float64 : Z -> F;          (* conversion from int, int64 and Duration *)
    lit_0_01 : F;              (* the literal 0.01 *)
    fadd : F -> F -> F;
    fsub : F -> F -> F;
    fmul : F -> F -> F;
    fdiv : F -> F -> F;
    flt : F -> F -> bool;      (* a < b *)
    fge : F -> F -> bool;      (* a >= b *)
    Abs : F -> F;              (* math.Abs *)
    Sqrt : F -> F;             (* math.Sqrt *)
    Sqrt2 : F;                 (* math.Sqrt2 *)
    Log2 : F -> F;             (* math.Log2 *)
    Erfc : F -> F }.           (* math.Erfc *)

Module binary64.

(** [float64(i)] for an [int64]: correctly rounded; -2^63 is the one
    magnitude that does not fit the 63-bit primitive integer. *)
Definition of_int (z : Z) : float :=
  let a := Z.abs z in
  let m :=
    if a <? 2 ^ 63 then PrimFloat.of_uint63 (Uint63.of_Z a)
    else PrimFloat.mul (PrimFloat.of_uint63 (Uint63.of_Z (a / 2))) 2%float in
  if z <? 0 then PrimFloat.opp m else m.

(** [math.Frexp]: [f = frac * 2^exp] with [frac] in [1/2, 1); zero,
    infinities and NaN are returned with exponent 0. *)
Definition Frexp (f : float) : float * Z :=
  if PrimFloat.eqb f 0%float || PrimFloat.is_infinity f || PrimFloat.is_nan f
  then (f, 0)
  else
    let (frac, e) := PrimFloat.frshiftexp f in
    (frac, Uint63.to_Z e - 2101).

Definition Ln2 : float := 0x1.62e42fefa39efp-1%float.

(** [math.Log2] of the Go library: exact on the powers of two, and
    [Log(frac)*(1/Ln2) + float64(exp)] otherwise. *)
Definition log2 (Log : float -> float) (x : float) : float :=
  let (frac, exp) := Frexp x in
  if PrimFloat.eqb frac 0.5%float then of_int (exp - 1)
  else PrimFloat.add (PrimFloat.mul (Log frac) (PrimFloat.div 1%float Ln2))
                     (of_int exp).

(** The natural logarithm and the complementary error function are the
    two library functions left open. *)
Definition ops (Log Erfc : float -> float) : Float64 float :=
  {| float64 := of_int;
     lit_0_01 := 0x1.47ae147ae147bp-7%float;
     fadd := PrimFloat.add;
     fsub := PrimFloat.sub;
     fmul := PrimFloat.mul;
     fdiv := PrimFloat.div;
     flt := PrimFloat.ltb;
     fge := fun a b => PrimFloat.leb b a;
     Abs := PrimFloat.abs;
     Sqrt := PrimFloat.sqrt;
     Sqrt2 := 0x1.6a09e667f3bcdp+0%float;
     Log2 := log2 Log;
     Erfc := Erfc |}.

End binary64.

Module exact.

Definition ops (erfc : R -> R) : Float64 R :=
  {| float64 := IZR;
     lit_0_01 := (1 / 100)%R;
     fadd := Rplus;
     fsub := Rminus;
     fmul := Rmult;
     fdiv := Rdiv;
     flt := fun a b => if Rlt_dec a b then true else false;
     fge := fun a b => if Rge_dec a b then true else false;
     Abs := Rabs;
     Sqrt := sqrt;
     Sqrt2 := sqrt 2;
     Log2 := fun x => (ln x / ln 2)%R;
     Erfc := erfc |}.

End exact.

(** ** The generator interface

    [type Generator interface { Name() string; GenerateBytes(int) ([]byte, error) }].
    An implementation is a state machine; network answers and clock
    readings its calls observe are part of the state. *)

Class Generator (G : Type) : Type :=
  { gen_Name : G -> string;
    gen_GenerateBytes : G -> Z -> outcome * G }.

#[global] Instance CryptoCSPRNG_Generator
  : Generator crypto_csprng.CryptoCSPRNG :=
  {| gen_Name := crypto_csprng.CryptoCSPRNG_Name;
     gen_GenerateBytes := crypto_csprng.CryptoCSPRNG_GenerateBytes |}.

#[global] Instance WeatherCSPRNG_Generator
  : Generator crypto_csprng.WeatherCSPRNG :=
  {| gen_Name := crypto_csprng.Name;
     gen_GenerateBytes := crypto_csprng.GenerateBytes |}.

#[global] Instance multEntropyCSPRNG_Generator
  : Generator multEntropy_prng.multEntropyCSPRNG :=
  {| gen_Name := multEntropy_prng.Name;
     gen_GenerateBytes := multEntropy_prng.GenerateBytes |}.

#[global] Instance HybridCSPRNG_Generator
  : Generator hybrid_prng.HybridCSPRNG :=
  {| gen_Name := hybrid_prng.Name;
     gen_GenerateBytes := hybrid_prng.GenerateBytes |}.

#[global] Instance byte_eq_decision : EqDecision byte := Byte.byte_eq_dec.
#[global] Instance byte_countable : Countable byte :=
  inj_countable Byte.to_N Byte.of_N Byte.of_to_N.

(** [d.Seconds()] for a [time.Duration] counted in nanoseconds. *)
Definition Seconds {F} {ops : Float64 F} (d : Z) : F :=
  let sec := Z.quot d 1000000000 in
  let nsec := Z.rem d 1000000000 in
  fadd (float64 sec) (fdiv (float64 nsec) (float64 1000000000)).

(** *** main.go: the analysis functions and the sequential benchmark *)

Module main_go.

Module TestResult.
Record t {F : Type} : Type := mk
  { Name : string;
    TotalTime : Z;
    AvgOpsPerSec : F;
    AvgChiSquare : F;
    AvgShannonEntropy : F;
    AvgNISTMonobitPValue : F;
    PassedNISTMonobit : Z;
    TotalIterations : Z }.
Arguments t : clear implicits.
End TestResult.

(** The running sums of [runBenchmark]. *)
Record totals {F : Type} : Type := mkTotals
  { totalTime : Z;
    totalChiSquare : F;
    totalShannonEntropy : F;
    totalNISTMonobitPValue : F;
    passedNIST : Z }.
Arguments totals : clear implicits.

(** [counts[b]]: a missing key reads as 0. *)
Definition at_key (counts : gmap byte Z) (b : byte) : Z :=
  default 0 (counts !! b).

(** [counts[b]++] *)
Definition incr (counts : gmap byte Z) (b : byte) : gmap byte Z :=
  <[b := Go.wrap_int64 (at_key counts b + 1)]> counts.

(** [for _, b := range data { counts[b]++ }] *)
Definition count_bytes (data : list byte) : gmap byte Z :=
  fold_left incr data ∅.

(** [for _, count := range counts] visits every key once, in an order
    the language leaves open; [order] is such an order. *)
Definition range_order (counts : gmap byte Z) (order : list byte) : Prop :=
  List.NoDup order /\ forall b, In b order <-> is_Some (counts !! b).

(** The bits of one byte, [(b>>i)&1] for [i] from 0 to 7. *)
Definition monobit_byte (s : Z) (b : byte) : Z :=
  fold_left
    (fun s i =>
       if Z.land (Z.shiftr (Go.Z_of_byte b) i) 1 =? 1
       then Go.wrap_int64 (s + 1)
       else Go.wrap_int64 (s - 1))
    [0; 1; 2; 3; 4; 5; 6; 7] s.

(** The value of [s] after the loop over [data]. *)
Definition monobit_sum (data : list byte) : Z :=
  fold_left monobit_byte data 0.

Section with_float64.
Context {F : Type} {ops : Float64 F}.

Definition calculateChiSquare (data : list byte) : F :=
  let counts := count_bytes data in
  if Go.len data =? 0 then float64 0
  else
    let expected := fdiv (float64 (Go.len data)) (float64 256) in
    fold_left
      (fun chiSquareStat i =>
         let observed := float64 (at_key counts (Go.byte_of_Z i)) in
         let diff := fsub observed expected in
         fadd chiSquareStat (fdiv (fmul diff diff) expected))
      (map Z.of_nat (seq 0 256)) (float64 0).

Definition calculateShannonEntropy (order : list byte)
    (data : list byte) : F :=
  if Go.len data =? 0 then float64 0
  else
    let counts := count_bytes data in
    let dataLen := float64 (Go.len data) in
    fold_left
      (fun entropy b =>
         let count := at_key counts b in
         if 0 <? count then
           let p := fdiv (float64 count) dataLen in
           fsub entropy (fmul p (Log2 p))
         else entropy)
      order (float64 0).

Definition nistFrequencyMonobitTest (data : list byte) : F :=
  let n := Go.wrap_int64 (Go.len data * 8) in
  if n =? 0 then float64 0
  else
    let s := monobit_sum data in
    let sObs := fdiv (Abs (float64 s)) (Sqrt (float64 n)) in
    Erfc (fdiv sObs Sqrt2).

(** The part of the loop body of [runBenchmark] that follows a call
    without error: [duration] is the measured time and [order] the
    order in which the entropy loop walks its map. *)
Definition record_sample (duration : Z) (order : list byte)
    (data : list byte) (t : totals F) : totals F :=
  let nistPValue := nistFrequencyMonobitTest data in
  mkTotals F
    (Go.wrap_int64 (totalTime t + duration))
    (fadd (totalChiSquare t) (calculateChiSquare data))
    (fadd (totalShannonEntropy t) (calculateShannonEntropy order data))
    (fadd (totalNISTMonobitPValue t) nistPValue)
    (if fge nistPValue lit_0_01 then Go.wrap_int64 (passedNIST t + 1)
     else passedNIST t).

Section with_generator.
Context {G : Type} {gen : Generator G}.

(** [for i := 0; i < iterations; i++]; [observe i] gives the time
    measured around call [i] and the map order of its analysis.  A
    call that returns an error is skipped; a panic is not recovered
    and ends the benchmark ([None]). *)
Fixpoint benchmark_loop (todo : nat) (i : nat) (dataSize : Z)
    (observe : nat -> Z * list byte) (g : G) (t : totals F)
  : option (totals F * G) :=
  match todo with
  | O => Some (t, g)
  | S todo' =>
      match gen_GenerateBytes g dataSize with
      | (Return data None, g') =>
          let '(duration, order) := observe i in
          benchmark_loop todo' (S i) dataSize observe g'
                         (record_sample duration order data t)
      | (Return _ (Some _), g') =>
          benchmark_loop todo' (S i) dataSize observe g' t
      | (Panic _, _) => None
      | (NoResult, _) => None
      end
  end.

Definition runBenchmark (generator : G) (iterations dataSize : Z)
    (observe : nat -> Z * list byte)
  : option (TestResult.t F * G) :=
  let name := gen_Name generator in
  let zero := mkTotals F 0 (float64 0) (float64 0) (float64 0) 0 in
  match benchmark_loop (Z.to_nat iterations) 0 dataSize observe
                       generator zero with
  | None => None
  | Some (t, g) =>
      let avgOps := fdiv (float64 iterations) (Seconds (totalTime t)) in
      Some (TestResult.mk F name (totalTime t) avgOps
              (fdiv (totalChiSquare t) (float64 iterations))
              (fdiv (totalShannonEntropy t) (float64 iterations))
              (fdiv (totalNISTMonobitPValue t) (float64 iterations))
              (passedNIST t) iterations,
            g)
  end.

End with_generator.
End with_float64.

End main_go.

(** *** The concurrent comparison tool (unnamed part 2, first file) *)

Module part_002.

Module Analysis.
Record t {F : Type} : Type := mk
  { Length : Z;
    Mean : F;
    ChiSquare : F;
    MinFreq : Z;
    MaxFreq : Z;
    FreqRange : Z;
    ShannonEntropy : F;
    Autocorrelation : F }.
Arguments t : clear implicits.
Arguments mk {F}.
End Analysis.

Module TestResult.
Record t {F : Type} : Type := mk
  { Name : string;
    TestRun : Z;
    Duration : Z;
    Throughput : F;
    Analysis : Analysis.t F;
    Filename : string;
    Error : option string }.
Arguments t : clear implicits.
Arguments mk {F}.
End TestResult.

Module AggregatedResult.
Record t {F : Type} : Type := mk
  { Name : string;
    TotalTests : Z;
    SuccessfulTests : Z;
    FailedTests : Z;
    AvgDuration : Z;
    MinDuration : Z;
    MaxDuration : Z;
    AvgThroughput : F;
    MinThroughput : F;
    MaxThroughput : F;
    AvgAnalysis : Analysis.t F;
    TotalDataGenerated : Z }.
Arguments t : clear implicits.
Arguments mk {F}.
End AggregatedResult.

Module ProgressTracker.
Record t : Type := mk
  { completed : Z;
    total : Z;
    lastPrint : Z }.
End ProgressTracker.

(** What a trial does to the outside, in order. *)
Inductive effect {F : Type} : Type :=
| Generate (testSize : Z)                          (* a call of GenerateBytes *)
| Sleep (d : Z)                                    (* time.Sleep(d) *)
| SaveSample (filename : string) (sample : list byte)
| Send (r : TestResult.t F)                        (* resultsChannel <- r *)
| Progress (completed total : Z).                  (* the progress line *)
Arguments effect : clear implicits.

Definition Microsecond : Z := 1000.
Definition Millisecond : Z := 1000000.
Definition Second : Z := 1000000000.
Definition Hour : Z := 3600 * Second.

Definition maxRetries : Z := 2.

(** [pt.increment()]; [now] is the clock it reads. *)
Definition increment {F} (now : Z) (pt : ProgressTracker.t)
  : ProgressTracker.t * list (effect F) :=
  let completed := Go.wrap_int64 (ProgressTracker.completed pt + 1) in
  if 5 * Second <? time_Sub now (ProgressTracker.lastPrint pt) then
    (ProgressTracker.mk completed (ProgressTracker.total pt) now,
     [Progress completed (ProgressTracker.total pt)])
  else
    (ProgressTracker.mk completed (ProgressTracker.total pt)
                        (ProgressTracker.lastPrint pt),
     []).

(** [strings.ToLower(strings.ReplaceAll(s, " ", "_"))] on ASCII names. *)
Definition lower_underscore (s : string) : string :=
  string_of_list_ascii
    (map (fun c =>
            let n := nat_of_ascii c in
            if Nat.eqb n 32 then "_"%char
            else if (Nat.leb 65 n && Nat.leb n 90)%bool
                 then ascii_of_nat (n + 32)
                 else c)
         (list_ascii_of_string s)).

(** [fmt.Sprintf("output/%s_sample_run%d.bin", ..., testRun)] *)
Definition sample_filename (name : string) (testRun : Z) : string :=
  ("output/" ++ lower_underscore name ++ "_sample_run"
     ++ NilZero.string_of_int (Z.to_int testRun) ++ ".bin")%string.

(** [byteCounts[b]++] on the 256-slot array. *)
Definition bump (byteCounts : list Z) (b : byte) : list Z :=
  let i := N.to_nat (Byte.to_N b) in
  <[i := Go.wrap_int64 (nth i byteCounts 0 + 1)]> byteCounts.

Definition count_bytes (data : list byte) : list Z :=
  fold_left bump data (repeat 0 256).

(** The number of [i] in [1 .. sampleSize-1] with [data[i] == data[i-1]]. *)
Definition count_matches (data : list byte) (sampleSize : Z) : Z :=
  fold_left
    (fun matches i =>
       if Byte.eqb (nth i data x00) (nth (i - 1) data x00)
       then Go.wrap_int64 (matches + 1)
       else matches)
    (seq 1 (Z.to_nat sampleSize - 1)) 0.

Section with_float64.
Context {F : Type} {ops : Float64 F}.

(** [Analysis{}] *)
Definition zero_Analysis : Analysis.t F :=
  Analysis.mk 0 (float64 0) (float64 0) 0 0 0 (float64 0) (float64 0).

Definition basicAnalysis (data : list byte) : Analysis.t F :=
  if Go.len data =? 0 then zero_Analysis
  else
    let byteCounts := count_bytes data in
    let expectedFreq := fdiv (float64 (Go.len data)) (float64 256) in
    let chiSquare :=
      fold_left
        (fun chiSquare count =>
           let diff := fsub (float64 count) expectedFreq in
           fadd chiSquare (fdiv (fmul diff diff) expectedFreq))
        byteCounts (float64 0) in
    let sum :=
      fold_left (fun sum b => Go.wrap_int64 (sum + Go.Z_of_byte b))
                data 0 in
    let mean := fdiv (float64 sum) (float64 (Go.len data)) in
    let '(minFreq, maxFreq) :=
      fold_left
        (fun '(minFreq, maxFreq) i =>
           let count := nth i byteCounts 0 in
           (if count <? minFreq then count else minFreq,
            if maxFreq <? count then count else maxFreq))
        (seq 0 256) (nth 0 byteCounts 0, nth 0 byteCounts 0) in
    let freqRange := Go.wrap_int64 (maxFreq - minFreq) in
    let shannon :=
      fold_left
        (fun shannon count =>
           if 0 <? count then
             let prob := fdiv (float64 count) (float64 (Go.len data)) in
             fsub shannon (fmul prob (Log2 prob))
           else shannon)
        byteCounts (float64 0) in
    let sampleSize := Go.len data in
    let sampleSize := if 50000 <? sampleSize then 50000 else sampleSize in
    let matches := count_matches data sampleSize in
    let autocorr :=
      fdiv (float64 matches) (float64 (Go.wrap_int64 (sampleSize - 1))) in
    Analysis.mk (Go.len data) mean chiSquare minFreq maxFreq freqRange
                shannon autocorr.

(** [saveSample]: the bytes handed to [os.WriteFile]. *)
Definition saveSample (data : list byte) (filename : string)
    (sampleSize : Z) : effect F :=
  let sampleSize :=
    if Go.len data <? sampleSize then Go.len data else sampleSize in
  SaveSample filename (firstn (Z.to_nat sampleSize) data).

(** What [performanceTest] hands back, or the panic that crosses it. *)
Inductive perf : Type :=
| PerfReturn (data : option (list byte)) (duration : Z)
             (throughputMBs : F) (err : option string)
| PerfPanic (msg : string)
| PerfNoResult.

(** The variables [data], [duration], [throughput] and [err] of
    [runSingleTest]; [data = None] is the nil slice. *)
Record locals : Type := mkLocals
  { data : option (list byte);
    duration : Z;
    throughput : F;
    err : option string }.

(** How the retry loop is left: by running to its end or [break], or
    by a panic that unwinds to the deferred function. *)
Inductive loop_exit : Type :=
| Completed (l : locals)
| Unwound (msg : string) (l : locals)
| Hung.

Section with_generator.
Context {G : Type} {gen : Generator G}.

(** [elapsed] is [time.Since(start)] as measured after the call. *)
Definition performanceTest (generator : G) (testSize : Z)
    (elapsed : Z) : perf * G :=
  match gen_GenerateBytes generator testSize with
  | (Return _ (Some e), g) => (PerfReturn None 0 (float64 0) (Some e), g)
  | (Return data None, g) =>
      let duration :=
        if elapsed <? Microsecond then Microsecond else elapsed in
      let throughputMBs :=
        fdiv (fdiv (float64 testSize) (Seconds duration))
             (float64 (1024 * 1024)) in
      (PerfReturn (Some data) duration throughputMBs None, g)
  | (Panic msg, g) => (PerfPanic msg, g)
  | (NoResult, g) => (PerfNoResult, g)
  end.

(** [for attempt := 0; attempt <= maxRetries; attempt++];
    [elapsed k] is the time measured around call number [k]. *)
Fixpoint retry_loop (fuel : nat) (attempt : Z) (g : G)
    (testSize : Z) (elapsed : nat -> Z) (l : locals)
    (tr : list (effect F)) : loop_exit * G * list (effect F) :=
  if attempt <=? maxRetries then
    match fuel with
    | O => (Hung, g, tr)
    | S fuel' =>
        let tr := tr ++ [Generate testSize] in
        match performanceTest g testSize (elapsed (Z.to_nat attempt)) with
        | (PerfReturn d du th e, g') =>
            let l' := mkLocals d du th e in
            match e with
            | None => (Completed l', g', tr)
            | Some _ =>
                let tr :=
                  if attempt <? maxRetries then
                    let backoff :=
                      Go.wrap_int64 ((attempt + 1) * 100 * Millisecond) in
                    tr ++ [Sleep backoff]
                  else tr in
                retry_loop fuel' (Go.wrap_int64 (attempt + 1)) g'
                           testSize elapsed l' tr
            end
        | (PerfPanic msg, g') => (Unwound msg l, g', tr)
        | (PerfNoResult, g') => (Hung, g', tr)
        end
    end
  else (Completed l, g, tr).

(** The deferred function of [runSingleTest]: it builds the
    [TestResult] from the variables as they stand, sends it and
    increments the tracker; [now] is the clock the tracker reads. *)
Definition deferred (g : G) (testRun : Z) (now : Z)
    (tracker : ProgressTracker.t) (l : locals)
  : list (effect F) * ProgressTracker.t :=
  let analysis :=
    match data l with
    | Some d => basicAnalysis d
    | None => zero_Analysis
    end in
  let result :=
    TestResult.mk (gen_Name g) testRun (duration l) (throughput l)
                  analysis (sample_filename (gen_Name g) testRun)
                  (err l) in
  let '(tracker, printed) := increment now tracker in
  (Send result :: printed, tracker).

(** [runSingleTest]: the effects of the trial in order, the tracker
    and the generator after it; [None] when the generator never
    returns.  A panic of the generator is recovered by the deferred
    function, which stores it in [err]. *)
Definition runSingleTest (generator : G) (testSize testRun : Z)
    (elapsed : nat -> Z) (now : Z) (tracker : ProgressTracker.t)
  : option (list (effect F) * ProgressTracker.t * G) :=
  let start := mkLocals None 0 (float64 0) None in
  match retry_loop (S (Z.to_nat maxRetries)) 0 generator testSize
                   elapsed start [] with
  | (Hung, _, _) => None
  | (Unwound msg l, g, tr) =>
      let l := mkLocals (data l) (duration l) (throughput l)
                        (Some ("panic occurred: " ++ msg)%string) in
      let '(sent, tracker) := deferred g testRun now tracker l in
      Some (tr ++ sent, tracker, g)
  | (Completed l, g, tr) =>
      let tr :=
        match err l with
        | None =>
            if testRun <=? 10 then
              let filename := sample_filename (gen_Name g) testRun in
              tr ++ [saveSample (default [] (data l)) filename 10000]
            else tr
        | Some _ => tr
        end in
      let '(sent, tracker) := deferred g testRun now tracker l in
      Some (tr ++ sent, tracker, g)
  end.

End with_generator.

(** The entry created for a name seen for the first time. *)
Definition fresh (name : string) : AggregatedResult.t F :=
  AggregatedResult.mk name 0 0 0 0 Hour 0 (float64 0)
                      (float64 1000000000) (float64 0) zero_Analysis 0.

(** The body of the first loop of [aggregateResults]. *)
Definition tally (aggregated : gmap string (AggregatedResult.t F))
    (result : TestResult.t F) : gmap string (AggregatedResult.t F) :=
  let name := TestResult.Name result in
  let agg := default (fresh name) (aggregated !! name) in
  let totalTests := Go.wrap_int64 (AggregatedResult.TotalTests agg + 1) in
  let agg :=
    match TestResult.Error result with
    | None =>
        let d := TestResult.Duration result in
        let th := TestResult.Throughput result in
        AggregatedResult.mk
          (AggregatedResult.Name agg)
          totalTests
          (Go.wrap_int64 (AggregatedResult.SuccessfulTests agg + 1))
          (AggregatedResult.FailedTests agg)
          (AggregatedResult.AvgDuration agg)
          (if d <? AggregatedResult.MinDuration agg then d
           else AggregatedResult.MinDuration agg)
          (if AggregatedResult.MaxDuration agg <? d then d
           else AggregatedResult.MaxDuration agg)
          (AggregatedResult.AvgThroughput agg)
          (if flt th (AggregatedResult.MinThroughput agg) then th
           else AggregatedResult.MinThroughput agg)
          (if flt (AggregatedResult.MaxThroughput agg) th then th
           else AggregatedResult.MaxThroughput agg)
          (AggregatedResult.AvgAnalysis agg)
          (Go.wrap_int64
             (AggregatedResult.TotalDataGenerated agg
              + Analysis.Length (TestResult.Analysis result)))
    | Some _ =>
        AggregatedResult.mk
          (AggregatedResult.Name agg)
          totalTests
          (AggregatedResult.SuccessfulTests agg)
          (Go.wrap_int64 (AggregatedResult.FailedTests agg + 1))
          (AggregatedResult.AvgDuration agg)
          (AggregatedResult.MinDuration agg)
          (AggregatedResult.MaxDuration agg)
          (AggregatedResult.AvgThroughput agg)
          (AggregatedResult.MinThroughput agg)
          (AggregatedResult.MaxThroughput agg)
          (AggregatedResult.AvgAnalysis agg)
          (AggregatedResult.TotalDataGenerated agg)
    end in
  <[name := agg]> aggregated.

(** The sums of the inner loop of the second pass. *)
Record sums : Type := mkSums
  { totalDuration : Z;
    totalThroughput : F;
    totalAnalysis : Analysis.t F;
    successCount : Z }.

Definition add_success (name : string) (s : sums)
    (result : TestResult.t F) : sums :=
  match TestResult.Error result with
  | None =>
      if String.eqb (TestResult.Name result) name then
        let a := TestResult.Analysis result in
        let t := totalAnalysis s in
        mkSums
          (Go.wrap_int64 (totalDuration s + TestResult.Duration result))
          (fadd (totalThroughput s) (TestResult.Throughput result))
          (Analysis.mk
             (Go.wrap_int64 (Analysis.Length t + Analysis.Length a))
             (fadd (Analysis.Mean t) (Analysis.Mean a))
             (fadd (Analysis.ChiSquare t) (Analysis.ChiSquare a))
             (Go.wrap_int64 (Analysis.MinFreq t + Analysis.MinFreq a))
             (Go.wrap_int64 (Analysis.MaxFreq t + Analysis.MaxFreq a))
             (Go.wrap_int64 (Analysis.FreqRange t + Analysis.FreqRange a))
             (fadd (Analysis.ShannonEntropy t) (Analysis.ShannonEntropy a))
             (fadd (Analysis.Autocorrelation t)
                   (Analysis.Autocorrelation a)))
          (Go.wrap_int64 (successCount s + 1))
      else s
  | Some _ => s
  end.

(** The body of the second loop: averages for a name with at least one
    success; every division is guarded by [successCount > 0]. *)
Definition average (results : list (TestResult.t F)) (name : string)
    (agg : AggregatedResult.t F) : AggregatedResult.t F :=
  if 0 <? AggregatedResult.SuccessfulTests agg then
    let s :=
      fold_left (add_success name) results
                (mkSums 0 (float64 0) zero_Analysis 0) in
    if 0 <? successCount s then
      let n := successCount s in
      let t := totalAnalysis s in
      AggregatedResult.mk
        (AggregatedResult.Name agg)
        (AggregatedResult.TotalTests agg)
        (AggregatedResult.SuccessfulTests agg)
        (AggregatedResult.FailedTests agg)
        (Z.quot (totalDuration s) n)
        (AggregatedResult.MinDuration agg)
        (AggregatedResult.MaxDuration agg)
        (fdiv (totalThroughput s) (float64 n))
        (AggregatedResult.MinThroughput agg)
        (AggregatedResult.MaxThroughput agg)
        (Analysis.mk 0
           (fdiv (Analysis.Mean t) (float64 n))
           (fdiv (Analysis.ChiSquare t) (float64 n))
           (Z.quot (Analysis.MinFreq t) n)
           (Z.quot (Analysis.MaxFreq t) n)
           (Z.quot (Analysis.FreqRange t) n)
           (fdiv (Analysis.ShannonEntropy t) (float64 n))
           (fdiv (Analysis.Autocorrelation t) (float64 n)))
        (AggregatedResult.TotalDataGenerated agg)
    else agg
  else agg.

(** The second loop rewrites every entry under its own key, so the
    order in which the map is walked does not matter. *)
Definition aggregateResults (results : list (TestResult.t F))
  : gmap string (AggregatedResult.t F) :=
  let aggregated := fold_left tally results ∅ in
  map_imap (fun name agg => Some (average results name agg)) aggregated.

End with_float64.

End part_002.

(** The number of blocks a request of [n] bytes takes. *)
Definition blocks_for (n : Z) : Z := (n + 31) / 32.

(** ** Sample inputs used to run the definitions *)

Module sample.

(** A 32-byte key. *)
Definition seed : list byte := sha256.Sum256 (Go.bytes_of_string "seed").

(** A reseed whose request fails after 5 ms, at clock time 0. *)
Definition weather_down : weather_prng.reseed_io :=
  weather_prng.mkIO 0 GetError 5000000 0.

(** A generator that has produced exactly the byte budget since its last
    reseed, which is also when the clock is read. *)
Definition at_budget : weather_prng.WeatherCSPRNG :=
  weather_prng.mkWeather seed 0 RESEED_BYTE_INTERVAL 0.

(** One byte past the budget. *)
Definition past_budget : weather_prng.WeatherCSPRNG :=
  weather_prng.mkWeather seed 0 (RESEED_BYTE_INTERVAL + 1) 0.

(** The generator as constructed, then after one call for 64 bytes made
    at the time of construction. *)
Definition fresh : weather_prng.WeatherCSPRNG :=
  weather_prng.NewWeatherCSPRNG weather_down.

Definition used : weather_prng.WeatherCSPRNG :=
  snd (fst (weather_prng.GenerateBytes 0 weather_down fresh 64)).

(** The two weather drafts in the same state, counter 0; the clock
    stands at the last reseed of the second, so no trigger fires. *)
Definition draft_fixed : crypto_csprng.WeatherCSPRNG :=
  crypto_csprng.mkWeather seed 0.

Definition draft_rekey : weather_prng.WeatherCSPRNG :=
  weather_prng.mkWeather seed 0 0 0.

(** Three requests that connect and then fail while the body is read,
    after "rain" and "98" have arrived; the third request is not read. *)
Definition rain : list byte := Go.bytes_of_string "rain".

Definition reads_fail : multEntropy_prng.gather_io :=
  multEntropy_prng.mkIO (Body rain true)
                        (Body (Go.bytes_of_string "98") true)
                        GetError 7000000 1700000000000000000.

(** A system source that is unavailable at every read, after [k] calls. *)
Definition rand_down_after (k : nat) : crypto_csprng.CryptoCSPRNG :=
  crypto_csprng.mkCrypto
    (fun _ => crypto_csprng.ReadError "entropy unavailable") k.

Definition rand_down : crypto_csprng.CryptoCSPRNG := rand_down_after 0.

(** Three requests that fail to connect. *)
Definition all_down : multEntropy_prng.gather_io :=
  multEntropy_prng.mkIO GetError GetError GetError
                        7000000 1700000000000000000.

End sample.

(** ** The words of the specification, for comparison with the code *)

(** The 256 byte values in increasing order. *)
Definition all_bytes : list byte :=
  map (fun i => Go.byte_of_Z (Z.of_nat i)) (seq 0 256).

(** "Convert to bit sequence": the eight bits of every byte. *)
Definition bits_of_byte (b : byte) : list bool :=
  map (fun i => Z.testbit (Go.Z_of_byte b) i) [0; 1; 2; 3; 4; 5; 6; 7].

Definition bit_sequence (data : list byte) : list bool :=
  flat_map bits_of_byte data.

(** "S = sum of +1 for bit=1, -1 for bit=0". *)
Definition monobit_S (bits : list bool) : Z :=
  fold_right (fun (bit : bool) s => (if bit then 1 else -1) + s) 0 bits.

(** The results of one generator, and whether a result is a success. *)
Definition named {F : Type} (name : string)
    (results : list (part_002.TestResult.t F))
  : list (part_002.TestResult.t F) :=
  List.filter (fun r => String.eqb (part_002.TestResult.Name r) name) results.

Definition succeeded {F : Type} (r : part_002.TestResult.t F) : bool :=
  match part_002.TestResult.Error r with
  | None => true
  | Some _ => false
  end.

(** Three results: two failed trials of one generator around a successful
    trial of another. *)
Module sample_results.

Definition no_analysis : part_002.Analysis.t float :=
  part_002.Analysis.mk 0 0%float 0%float 0 0 0 0%float 0%float.

Definition failed_run (testRun : Z) : part_002.TestResult.t float :=
  part_002.TestResult.mk "Crypto CSPRNG" testRun 0 0%float no_analysis
                         "output/crypto_csprng_sample_run.bin"
                         (Some "entropy unavailable"%string).

Definition good_run : part_002.TestResult.t float :=
  part_002.TestResult.mk "Hybrid PRNG" 1 2000 488.28125%float
                         (part_002.Analysis.mk 1024 127.5%float 255%float
                                               0 9 9 7.75%float 0.00390625%float)
                         "output/hybrid_prng_sample_run1.bin" None.

Definition results : list (part_002.TestResult.t float) :=
  [failed_run 1; good_run; failed_run 2].

End sample_results.
(** ** The byte streams the generators write

    Successive blocks, each block the HMAC of the counter as an 8-byte
    big-endian integer, the counter incremented after each block; for a
    key that stays and for a key that is replaced after each block. *)

Definition block_of (st : list byte) (ctr : Z) : list byte :=
  hmac.Sum (hmac.Write (hmac.New st) (Go.PutUint64 ctr)).

Fixpoint fixed_key_stream (st : list byte) (ctr : Z) (k : nat) : list byte :=
  match k with
  | O => []
  | S k' =>
      block_of st ctr ++ fixed_key_stream st (Go.wrap_uint64 (ctr + 1)) k'
  end.

(** The key after a block: [HMAC(key, block)]. *)
Definition rekey (st : list byte) (ctr : Z) : list byte :=
  hmac.Sum (hmac.Write (hmac.New st) (block_of st ctr)).

Fixpoint rekey_stream (st : list byte) (ctr : Z) (k : nat) : list byte :=
  match k with
  | O => []
  | S k' =>
      block_of st ctr
      ++ rekey_stream (rekey st ctr) (Go.wrap_uint64 (ctr + 1)) k'
  end.

(** The key and the events after [k] blocks. *)
Fixpoint rekey_after (st : list byte) (ctr : Z) (k : nat) : list byte :=
  match k with
  | O => st
  | S k' => rekey_after (rekey st ctr) (Go.wrap_uint64 (ctr + 1)) k'
  end.

Fixpoint block_events (ctr : Z) (k : nat) : list event :=
  match k with
  | O => []
  | S k' => EvBlock ctr :: block_events (Go.wrap_uint64 (ctr + 1)) k'
  end.

(** *** insecure_prng.go (and the MathPRNG copy of it): math/rand *)

Module insecure_prng.

(** [p.rng] is embedded as the sequence of values its [Uint32] calls will
    return and the number of calls made so far. *)
Record InsecurePRNG : Type := mkInsecure
  { rng : nat -> Z; drawn : nat }.

Definition Name (p : InsecurePRNG) : string := "Insecure PRNG".

(** [result[i] = b]: a store outside the slice panics. *)
Definition store (result : list byte) (i : Z) (b : byte)
  : option (list byte) :=
  if (0 <=? i) && (i <? Go.len result)
  then Some (<[Z.to_nat i := b]> result)
  else None.

Inductive filled : Type :=
| Filled (result : list byte) (drawn : nat)
| IndexPanic (drawn : nat)
| OutOfSteps.

(** The body of the loop: up to four bytes of one [Uint32] value, low
    byte first. *)
Definition put4 (result : list byte) (i remaining val : Z)
  : option (list byte) :=
  match store result i (Go.byte_of_Z val) with
  | None => None
  | Some r0 =>
      match (if 1 <? remaining
             then store r0 (i + 1) (Go.byte_of_Z (Z.shiftr val 8))
             else Some r0) with
      | None => None
      | Some r1 =>
          match (if 2 <? remaining
                 then store r1 (i + 2) (Go.byte_of_Z (Z.shiftr val 16))
                 else Some r1) with
          | None => None
          | Some r2 =>
              if 3 <? remaining
              then store r2 (i + 3) (Go.byte_of_Z (Z.shiftr val 24))
              else Some r2
          end
      end
  end.

(** [for i := 0; i < numBytes; i += 4 { ... }] *)
Fixpoint fill_loop (fuel : nat) (values : nat -> Z) (k : nat)
    (numBytes : Z) (result : list byte) (i : Z) : filled :=
  if i <? numBytes then
    match fuel with
    | O => OutOfSteps
    | S fuel' =>
        let remaining := Go.wrap_int64 (numBytes - i) in
        let val := values k in
        match put4 result i remaining val with
        | None => IndexPanic (S k)
        | Some result =>
            fill_loop fuel' values (S k) numBytes result
                      (Go.wrap_int64 (i + 4))
        end
    end
  else Filled result k.

Definition GenerateBytes (p : InsecurePRNG) (numBytes : Z)
  : outcome * InsecurePRNG :=
  if numBytes <? 0 then (Panic "makeslice: len out of range", p)
  else
    let result := Go.make_bytes numBytes in
    match fill_loop (Z.to_nat numBytes) (rng p) (drawn p) numBytes result 0
    with
    | Filled result k => (Return result None, mkInsecure (rng p) k)
    | IndexPanic k => (Panic "index out of range", mkInsecure (rng p) k)
    | OutOfSteps => (NoResult, p)
    end.

End insecure_prng.

#[global] Instance InsecurePRNG_Generator
  : Generator insecure_prng.InsecurePRNG :=
  {| gen_Name := insecure_prng.Name;
     gen_GenerateBytes := insecure_prng.GenerateBytes |}.

(** ** Reading the effects of a trial *)

Definition is_Generate {F : Type} (e : part_002.effect F) : bool :=
  match e with
  | part_002.Generate _ => true
  | _ => false
  end.

Definition is_Send {F : Type} (e : part_002.effect F) : bool :=
  match e with
  | part_002.Send _ => true
  | _ => false
  end.

Definition is_SaveSample {F : Type} (e : part_002.effect F) : bool :=
  match e with
  | part_002.SaveSample _ _ => true
  | _ => false
  end.

(** ** Reading a list of results *)

(** The successful results of one generator, and the sum of the durations
    of a list of results. *)
Definition successes {F : Type} (name : string)
    (results : list (part_002.TestResult.t F))
  : list (part_002.TestResult.t F) :=
  List.filter succeeded (named name results).

Definition total_duration {F : Type}
    (results : list (part_002.TestResult.t F)) : Z :=
  fold_right (fun r s => part_002.TestResult.Duration r + s) 0 results.

(** * Properties *)

(** ** The hash embedding on published test vectors *)

(** FIPS 180-4, "abc": ba7816bf 8f01cfea 414140de 5dae2223 b00361a3
    96177a9c b410ff61 f20015ad. *)
Example Sum256_abc :
  map Go.Z_of_byte (sha256.Sum256 (Go.bytes_of_string "abc"))
  = [186; 120; 22; 191; 143; 1; 207; 234; 65; 65; 64; 222; 93; 174; 34; 35;
     176; 3; 97; 163; 150; 23; 122; 156; 180; 16; 255; 97; 242; 0; 21; 173].
Proof. vm_compute. reflexivity. Qed.

(** The empty message: e3b0c442 98fc1c14 ... 7852b855. *)
Example Sum256_empty :
  map Go.Z_of_byte (sha256.Sum256 [])
  = [227; 176; 196; 66; 152; 252; 28; 20; 154; 251; 244; 200; 153; 111; 185;
     36; 39; 174; 65; 228; 100; 155; 147; 76; 164; 149; 153; 27; 120; 82;
     184; 85].
Proof. vm_compute. reflexivity. Qed.

(** RFC 4231, test case 2: key "Jefe", data "what do ya want for
    nothing?", HMAC-SHA-256 5bdcc146 bf60754e ... 64ec3843. *)
Example hmac_rfc4231_case2 :
  map Go.Z_of_byte
      (hmac.Sum (hmac.Write (hmac.New (Go.bytes_of_string "Jefe"))
                            (Go.bytes_of_string "what do ya want for nothing?")))
  = [91; 220; 193; 70; 191; 96; 117; 78; 106; 4; 36; 38; 8; 149; 117; 199;
     90; 0; 63; 8; 157; 39; 57; 131; 157; 236; 88; 185; 100; 236; 56; 67].
Proof. vm_compute. reflexivity. Qed.

(** [%d] and the big-endian counter. *)
Example FormatInt_negative :
  Go.FormatInt (-1203) = Go.bytes_of_string "-1203".
Proof. reflexivity. Qed.

Example PutUint64_258 :
  map Go.Z_of_byte (Go.PutUint64 258) = [0; 0; 0; 0; 0; 0; 1; 2].
Proof. reflexivity. Qed.

(** ** Library facts: digests are 32 bytes, [copy] keeps the length *)

Lemma Sum256_length (data : list byte) :
  List.length (sha256.Sum256 data) = 32%nat.
Proof.
  unfold sha256.Sum256.
  generalize (sha256.blocks (List.length (sha256.pad data) / 64)
                            sha256.init (sha256.pad data)).
  intros d. reflexivity.
Qed.

Lemma hmac_Sum_length (m : hmac.mac) : List.length (hmac.Sum m) = 32%nat.
Proof. unfold hmac.Sum. apply Sum256_length. Qed.

Lemma hmac_Sum_len (m : hmac.mac) : Go.len (hmac.Sum m) = 32.
Proof. unfold Go.len. rewrite hmac_Sum_length. reflexivity. Qed.

Lemma make_bytes_length (n : Z) :
  List.length (Go.make_bytes n) = Z.to_nat n.
Proof. unfold Go.make_bytes. apply repeat_length. Qed.

Lemma copy_at_length (dst : list byte) (off : nat) (src : list byte) :
  List.length (Go.copy_at dst off src) = List.length dst.
Proof.
  unfold Go.copy_at.
  rewrite !List.length_app, !List.length_firstn, List.length_skipn.
  generalize (List.length dst) (List.length src). intros a b. lia.
Qed.

Lemma copy_at_prefix (dst : list byte) (off : nat) (src : list byte) (j : nat) :
  (j <= off)%nat -> (off <= List.length dst)%nat ->
  firstn j (Go.copy_at dst off src) = firstn j dst.
Proof.
  intros Hj Hoff. unfold Go.copy_at.
  rewrite firstn_app, List.length_firstn.
  replace (j - Nat.min off (List.length dst))%nat with 0%nat by lia.
  rewrite firstn_firstn. simpl. rewrite app_nil_r.
  f_equal. lia.
Qed.

(** Copying a whole block to the front of a buffer that can hold it. *)
Lemma copy_at_front (dst src : list byte) :
  (List.length src <= List.length dst)%nat ->
  firstn (List.length src) (Go.copy_at dst 0 src) = src.
Proof.
  intros Hle. unfold Go.copy_at. simpl.
  rewrite Nat.sub_0_r, Nat.min_r by lia.
  rewrite firstn_all, firstn_app, firstn_all.
  rewrite Nat.sub_diag. simpl. apply app_nil_r.
Qed.

Lemma blocks_for_step (r : Z) :
  0 < r -> blocks_for r = 1 + blocks_for (r - min 32 r).
Proof.
  intros Hr. unfold blocks_for, min.
  destruct (32 <? r) eqn:E.
  - apply Z.ltb_lt in E.
    replace (r + 31) with (1 * 32 + (r - 32 + 31)) by lia.
    rewrite Z.div_add_l by lia. reflexivity.
  - apply Z.ltb_ge in E.
    replace (r - r + 31) with 31 by lia.
    replace (31 / 32) with 0 by reflexivity.
    symmetry. apply Z.div_unique_pos with (r := r - 1); lia.
Qed.

Lemma wrap_uint64_succ (c k : Z) :
  Go.wrap_uint64 (Go.wrap_uint64 (c + 1) + k) = Go.wrap_uint64 (c + (1 + k)).
Proof.
  unfold Go.wrap_uint64. rewrite Z.add_mod_idemp_l by lia.
  f_equal. lia.
Qed.

(** ** The block loops *)

Lemma firstn_shorter {A} (j k : nat) (l1 l2 : list A) :
  (j <= k)%nat -> firstn k l1 = firstn k l2 -> firstn j l1 = firstn j l2.
Proof.
  intros Hjk Heq.
  replace j with (Nat.min j k) by lia.
  rewrite <- !firstn_firstn. now rewrite Heq.
Qed.

(** The loop that keeps one key per call (crypto_csprng.go,
    multEntropy_prng.go, hybrid_prng.go): with a budget of one step per
    missing byte it ends, fills the buffer without changing its length or
    the bytes already written, and advances the counter once per block. *)
Lemma fixed_key_loop (fuel : nat) :
  forall (st : list byte) (numBytes : Z) (result : list byte)
         (generated ctr : Z),
    0 <= generated <= numBytes ->
    (Z.to_nat (numBytes - generated) <= fuel)%nat ->
    List.length result = Z.to_nat numBytes ->
    exists result',
      crypto_csprng.generate_loop fuel st numBytes result generated ctr
      = Some (result',
              if generated <? numBytes
              then Go.wrap_uint64 (ctr + blocks_for (numBytes - generated))
              else ctr)
      /\ List.length result' = Z.to_nat numBytes
      /\ firstn (Z.to_nat generated) result'
         = firstn (Z.to_nat generated) result.
Proof.
  induction fuel as [| fuel IH]; intros st numBytes result generated ctr
    Hgen Hfuel Hlen.
  - assert (generated = numBytes) by lia. subst generated.
    simpl. rewrite Z.ltb_irrefl. eauto.
  - simpl. destruct (generated <? numBytes) eqn:Elt; [| eauto].
    apply Z.ltb_lt in Elt.
    rewrite hmac_Sum_len.
    set (block := hmac.Sum _).
    set (toCopy := if numBytes - generated <? 32 then numBytes - generated
                   else 32).
    assert (HtoCopy : toCopy = min 32 (numBytes - generated)).
    { unfold toCopy, min.
      destruct (numBytes - generated <? 32) eqn:E1;
        destruct (32 <? numBytes - generated) eqn:E2; lia. }
    assert (Hpos : 0 < toCopy <= numBytes - generated).
    { unfold toCopy. destruct (numBytes - generated <? 32) eqn:E1; lia. }
    set (result1 := Go.copy_at result (Z.to_nat generated) _).
    assert (Hlen1 : List.length result1 = Z.to_nat numBytes).
    { unfold result1. now rewrite copy_at_length. }
    destruct (IH st numBytes result1 (generated + toCopy)
                 (Go.wrap_uint64 (ctr + 1)))
      as (result' & Hrun & Hlen' & Hpre); [lia | lia | exact Hlen1 |].
    exists result'. split; [| split].
    + rewrite Hrun. do 2 f_equal.
      rewrite (blocks_for_step (numBytes - generated)) by lia.
      rewrite <- HtoCopy.
      replace (numBytes - (generated + toCopy))
        with (numBytes - generated - toCopy) by lia.
      destruct (generated + toCopy <? numBytes) eqn:E.
      * apply wrap_uint64_succ.
      * apply Z.ltb_ge in E.
        replace (numBytes - generated - toCopy) with 0 by lia.
        reflexivity.
    + exact Hlen'.
    + apply (firstn_shorter (Z.to_nat generated)) in Hpre; [| lia].
      rewrite Hpre. unfold result1. apply copy_at_prefix; lia.
Qed.

(** The three sources spell the same loop. *)
Lemma multEntropy_loop_eq :
  multEntropy_prng.generate_loop = crypto_csprng.generate_loop.
Proof. reflexivity. Qed.

Lemma hybrid_loop_eq :
  hybrid_prng.generate_loop = crypto_csprng.generate_loop.
Proof. reflexivity. Qed.

(** A whole call of the loop, from an empty buffer of [numBytes] zeros. *)
Lemma fixed_key_run (st : list byte) (numBytes ctr : Z) :
  0 <= numBytes ->
  exists result,
    crypto_csprng.generate_loop (Z.to_nat numBytes) st numBytes
                                (Go.make_bytes numBytes) 0 ctr
    = Some (result,
            if 0 <? numBytes then Go.wrap_uint64 (ctr + blocks_for numBytes)
            else ctr)
    /\ Go.len result = numBytes.
Proof.
  intros Hn.
  destruct (fixed_key_loop (Z.to_nat numBytes) st numBytes
              (Go.make_bytes numBytes) 0 ctr)
    as (result & Hrun & Hlen & _).
  - lia.
  - rewrite Z.sub_0_r. lia.
  - apply make_bytes_length.
  - exists result. rewrite Z.sub_0_r in Hrun. split; [exact Hrun |].
    unfold Go.len. rewrite Hlen. lia.
Qed.

(** The loop that rekeys after every block (weather_prng.go and the two
    reseeding drafts): as above, and the events it appends are block
    events only, one per block. *)
Lemma rekey_loop (fuel : nat) :
  forall (st : list byte) (numBytes : Z) (result : list byte)
         (generated ctr : Z) (tr : list event),
    0 <= generated <= numBytes ->
    (Z.to_nat (numBytes - generated) <= fuel)%nat ->
    List.length result = Z.to_nat numBytes ->
    exists result' st' blocks,
      weather_prng.generate_loop fuel st numBytes result generated ctr tr
      = Some (result', st',
              if generated <? numBytes
              then Go.wrap_uint64 (ctr + blocks_for (numBytes - generated))
              else ctr,
              tr ++ blocks)
      /\ List.length result' = Z.to_nat numBytes
      /\ firstn (Z.to_nat generated) result'
         = firstn (Z.to_nat generated) result
      /\ Forall (fun e => e <> EvReseed) blocks
      /\ Z.of_nat (List.length blocks) = blocks_for (numBytes - generated).
Proof.
  induction fuel as [| fuel IH]; intros st numBytes result generated ctr tr
    Hgen Hfuel Hlen.
  - assert (generated = numBytes) by lia. subst generated.
    simpl. rewrite Z.ltb_irrefl. exists result, st, [].
    rewrite app_nil_r, Z.sub_diag. repeat split; auto.
  - simpl. destruct (generated <? numBytes) eqn:Elt.
    2:{ apply Z.ltb_ge in Elt. assert (generated = numBytes) by lia.
        subst generated. exists result, st, [].
        rewrite app_nil_r, Z.sub_diag. repeat split; auto. }
    apply Z.ltb_lt in Elt.
    rewrite hmac_Sum_len.
    set (block := hmac.Sum (hmac.Write (hmac.New st) (Go.PutUint64 ctr))).
    set (toCopy := min 32 (numBytes - generated)).
    assert (Hpos : 0 < toCopy <= numBytes - generated).
    { unfold toCopy, min. destruct (32 <? numBytes - generated) eqn:E1; lia. }
    set (result1 := Go.copy_at result (Z.to_nat generated) _).
    assert (Hlen1 : List.length result1 = Z.to_nat numBytes).
    { unfold result1. now rewrite copy_at_length. }
    destruct (IH (hmac.Sum (hmac.Write (hmac.New st) block)) numBytes result1
                 (generated + toCopy) (Go.wrap_uint64 (ctr + 1))
                 (tr ++ [EvBlock ctr]))
      as (result' & st' & blocks & Hrun & Hlen' & Hpre & Hev & Hcount);
      [lia | lia | exact Hlen1 |].
    exists result', st', (EvBlock ctr :: blocks).
    assert (Hstep : blocks_for (numBytes - generated)
                    = 1 + blocks_for (numBytes - generated - toCopy)).
    { apply blocks_for_step. lia. }
    replace (numBytes - (generated + toCopy))
      with (numBytes - generated - toCopy) in * by lia.
    split; [| split; [| split; [| split]]].
    + rewrite Hrun, <- app_assoc. simpl. do 2 f_equal. f_equal.
      rewrite Hstep.
      destruct (generated + toCopy <? numBytes) eqn:E.
      * apply wrap_uint64_succ.
      * apply Z.ltb_ge in E.
        replace (numBytes - generated - toCopy) with 0 by lia.
        reflexivity.
    + exact Hlen'.
    + apply (firstn_shorter (Z.to_nat generated)) in Hpre; [| lia].
      rewrite Hpre. unfold result1. apply copy_at_prefix; lia.
    + constructor; [discriminate | exact Hev].
    + rewrite Hstep. simpl List.length. lia.
Qed.

Lemma part_003_hybrid_loop_eq :
  part_003_hybrid.generate_loop = weather_prng.generate_loop.
Proof. reflexivity. Qed.

Lemma part_003_multEntropy_loop_eq :
  part_003_multEntropy.generate_loop = weather_prng.generate_loop.
Proof. reflexivity. Qed.

Lemma rekey_run (st : list byte) (numBytes ctr : Z) (tr : list event) :
  0 <= numBytes ->
  exists result st' blocks,
    weather_prng.generate_loop (Z.to_nat numBytes) st numBytes
                               (Go.make_bytes numBytes) 0 ctr tr
    = Some (result, st',
            if 0 <? numBytes then Go.wrap_uint64 (ctr + blocks_for numBytes)
            else ctr,
            tr ++ blocks)
    /\ Go.len result = numBytes
    /\ Forall (fun e => e <> EvReseed) blocks
    /\ Z.of_nat (List.length blocks) = blocks_for numBytes.
Proof.
  intros Hn.
  destruct (rekey_loop (Z.to_nat numBytes) st numBytes
              (Go.make_bytes numBytes) 0 ctr tr)
    as (result & st' & blocks & Hrun & Hlen & _ & Hev & Hcount).
  - lia.
  - rewrite Z.sub_0_r. lia.
  - apply make_bytes_length.
  - exists result, st', blocks. rewrite Z.sub_0_r in Hrun, Hcount.
    repeat split; auto. unfold Go.len. rewrite Hlen. lia.
Qed.

(** The first block of a call is [HMAC(state, counter)] in both kinds of
    loop; later iterations leave it in place. *)
Lemma fixed_key_first_block (st : list byte) (numBytes ctr : Z)
    (result : list byte) (ctr' : Z) :
  32 <= numBytes ->
  crypto_csprng.generate_loop (Z.to_nat numBytes) st numBytes
                              (Go.make_bytes numBytes) 0 ctr
  = Some (result, ctr') ->
  firstn 32 result = hmac.Sum (hmac.Write (hmac.New st) (Go.PutUint64 ctr)).
Proof.
  intros Hn Hrun.
  destruct (Z.to_nat numBytes) as [| fuel] eqn:Efuel; [lia |].
  simpl in Hrun.
  replace (0 <? numBytes) with true in Hrun by (symmetry; apply Z.ltb_lt; lia).
  rewrite hmac_Sum_len in Hrun.
  set (block := hmac.Sum (hmac.Write (hmac.New st) (Go.PutUint64 ctr))) in *.
  replace (numBytes - 0 <? 32) with false in Hrun
    by (symmetry; apply Z.ltb_ge; lia).
  assert (Hblock : List.length block = 32%nat) by apply hmac_Sum_length.
  rewrite firstn_all2 in Hrun by (rewrite Hblock; lia).
  set (result1 := Go.copy_at _ _ block) in Hrun.
  destruct (fixed_key_loop fuel st numBytes result1 (0 + 32)
              (Go.wrap_uint64 (ctr + 1)))
    as (result' & Hrun' & _ & Hpre).
  - lia.
  - lia.
  - unfold result1. rewrite copy_at_length, make_bytes_length. lia.
  - rewrite Hrun' in Hrun. injection Hrun as <- _.
    change (Z.to_nat (0 + 32)) with 32%nat in Hpre. rewrite Hpre.
    unfold result1. rewrite <- Hblock at 1.
    apply copy_at_front. rewrite make_bytes_length. lia.
Qed.

Lemma rekey_first_block (st : list byte) (numBytes ctr : Z)
    (tr : list event) (result st' : list byte) (ctr' : Z)
    (tr' : list event) :
  32 <= numBytes ->
  weather_prng.generate_loop (Z.to_nat numBytes) st numBytes
                             (Go.make_bytes numBytes) 0 ctr tr
  = Some (result, st', ctr', tr') ->
  firstn 32 result = hmac.Sum (hmac.Write (hmac.New st) (Go.PutUint64 ctr)).
Proof.
  intros Hn Hrun.
  destruct (Z.to_nat numBytes) as [| fuel] eqn:Efuel; [lia |].
  simpl in Hrun.
  replace (0 <? numBytes) with true in Hrun by (symmetry; apply Z.ltb_lt; lia).
  rewrite hmac_Sum_len in Hrun.
  set (block := hmac.Sum (hmac.Write (hmac.New st) (Go.PutUint64 ctr))) in *.
  replace (min 32 (numBytes - 0)) with 32 in Hrun
    by (unfold min; destruct (32 <? numBytes - 0) eqn:E; lia).
  assert (Hblock : List.length block = 32%nat) by apply hmac_Sum_length.
  rewrite firstn_all2 in Hrun by (rewrite Hblock; lia).
  set (result1 := Go.copy_at _ _ block) in Hrun.
  destruct (rekey_loop fuel (hmac.Sum (hmac.Write (hmac.New st) block))
              numBytes result1 (0 + 32) (Go.wrap_uint64 (ctr + 1))
              (tr ++ [EvBlock ctr]))
    as (result' & st'' & blocks & Hrun' & _ & Hpre & _).
  - lia.
  - lia.
  - unfold result1. rewrite copy_at_length, make_bytes_length. lia.
  - rewrite Hrun' in Hrun. injection Hrun as <- _ _ _.
    change (Z.to_nat (0 + 32)) with 32%nat in Hpre. rewrite Hpre.
    unfold result1. rewrite <- Hblock at 1.
    apply copy_at_front. rewrite make_bytes_length. lia.
Qed.

(** ** GenerateBytes, draft by draft *)

Lemma blocks_for_small (n : Z) : 0 < n <= 32 -> blocks_for n = 1.
Proof.
  intros Hn. unfold blocks_for. symmetry.
  apply Z.div_unique_pos with (r := n - 1); lia.
Qed.

Lemma slice_to_32 (s : list byte) :
  slice_to s 32 = if 32 <=? Go.len s then Some (firstn 32 s) else None.
Proof. reflexivity. Qed.

(** crypto_csprng.go: a request of at least 32 bytes is served. *)
Lemma crypto_csprng_GenerateBytes_long (w : crypto_csprng.WeatherCSPRNG)
    (n : Z) :
  32 <= n ->
  exists result,
    crypto_csprng.GenerateBytes w n
    = (Return result None,
       crypto_csprng.mkWeather
         (hmac.Sum (hmac.Write
                      (hmac.Write (hmac.New (crypto_csprng.state w))
                                  (Go.bytes_of_string "update"))
                      (firstn 32 result)))
         (Go.wrap_uint64 (crypto_csprng.counter w + blocks_for n)))
    /\ Go.len result = n
    /\ firstn 32 result
       = hmac.Sum (hmac.Write (hmac.New (crypto_csprng.state w))
                              (Go.PutUint64 (crypto_csprng.counter w))).
Proof.
  intros Hn. unfold crypto_csprng.GenerateBytes.
  replace (n <? 0) with false by (symmetry; apply Z.ltb_ge; lia).
  destruct (fixed_key_run (crypto_csprng.state w) n (crypto_csprng.counter w))
    as (result & Hrun & Hlen); [lia |].
  pose proof (fixed_key_first_block _ _ _ _ _ Hn Hrun) as Hfirst.
  rewrite Hrun, slice_to_32, Hlen.
  replace (32 <=? n) with true by (symmetry; apply Z.leb_le; lia).
  replace (0 <? n) with true by (symmetry; apply Z.ltb_lt; lia).
  exists result. auto.
Qed.

(** crypto_csprng.go: a request of fewer than 32 bytes fills its buffer and
    then panics on [result[:32]]; the counter has moved, the key has not. *)
Lemma crypto_csprng_GenerateBytes_short (w : crypto_csprng.WeatherCSPRNG)
    (n : Z) :
  0 <= n < 32 ->
  crypto_csprng.GenerateBytes w n
  = (Panic "slice bounds out of range",
     crypto_csprng.mkWeather
       (crypto_csprng.state w)
       (if 0 <? n then Go.wrap_uint64 (crypto_csprng.counter w + 1)
        else crypto_csprng.counter w)).
Proof.
  intros Hn. unfold crypto_csprng.GenerateBytes.
  replace (n <? 0) with false by (symmetry; apply Z.ltb_ge; lia).
  destruct (fixed_key_run (crypto_csprng.state w) n (crypto_csprng.counter w))
    as (result & Hrun & Hlen); [lia |].
  rewrite Hrun, slice_to_32, Hlen.
  replace (32 <=? n) with false by (symmetry; apply Z.leb_gt; lia).
  destruct (0 <? n) eqn:E; [| reflexivity].
  apply Z.ltb_lt in E. rewrite blocks_for_small by lia. reflexivity.
Qed.

(** multEntropy_prng.go has the same body. *)
Lemma multEntropy_prng_GenerateBytes_short
    (c : multEntropy_prng.multEntropyCSPRNG) (n : Z) :
  0 <= n < 32 ->
  multEntropy_prng.GenerateBytes c n
  = (Panic "slice bounds out of range",
     multEntropy_prng.mkMult
       (multEntropy_prng.state c)
       (if 0 <? n then Go.wrap_uint64 (multEntropy_prng.counter c + 1)
        else multEntropy_prng.counter c)).
Proof.
  intros Hn. unfold multEntropy_prng.GenerateBytes.
  replace (n <? 0) with false by (symmetry; apply Z.ltb_ge; lia).
  rewrite multEntropy_loop_eq.
  destruct (fixed_key_run (multEntropy_prng.state c) n
              (multEntropy_prng.counter c))
    as (result & Hrun & Hlen); [lia |].
  rewrite Hrun, slice_to_32, Hlen.
  replace (32 <=? n) with false by (symmetry; apply Z.leb_gt; lia).
  destruct (0 <? n) eqn:E; [| reflexivity].
  apply Z.ltb_lt in E. rewrite blocks_for_small by lia. reflexivity.
Qed.

Lemma multEntropy_prng_GenerateBytes_long
    (c : multEntropy_prng.multEntropyCSPRNG) (n : Z) :
  32 <= n ->
  exists result c',
    multEntropy_prng.GenerateBytes c n = (Return result None, c')
    /\ Go.len result = n.
Proof.
  intros Hn. unfold multEntropy_prng.GenerateBytes.
  replace (n <? 0) with false by (symmetry; apply Z.ltb_ge; lia).
  rewrite multEntropy_loop_eq.
  destruct (fixed_key_run (multEntropy_prng.state c) n
              (multEntropy_prng.counter c))
    as (result & Hrun & Hlen); [lia |].
  rewrite Hrun, slice_to_32, Hlen.
  replace (32 <=? n) with true by (symmetry; apply Z.leb_le; lia).
  eauto.
Qed.

(** hybrid_prng.go reads [result[:min(32, len(result))]] and serves every
    non-negative request. *)
Lemma hybrid_prng_GenerateBytes_total (h : hybrid_prng.HybridCSPRNG) (n : Z) :
  0 <= n ->
  exists result h',
    hybrid_prng.GenerateBytes h n = (Return result None, h')
    /\ Go.len result = n.
Proof.
  intros Hn. unfold hybrid_prng.GenerateBytes.
  replace (n <? 0) with false by (symmetry; apply Z.ltb_ge; lia).
  rewrite hybrid_loop_eq.
  destruct (fixed_key_run (hybrid_prng.state h) n (hybrid_prng.counter h))
    as (result & Hrun & Hlen); [lia |].
  rewrite Hrun. unfold slice_to. rewrite Hlen.
  replace ((0 <=? min 32 n) && (min 32 n <=? n)) with true.
  - eauto.
  - symmetry. apply andb_true_iff. unfold min.
    destruct (32 <? n) eqn:E; split; apply Z.leb_le; lia.
Qed.

(** weather_prng.go serves every non-negative request, whether or not it
    reseeds first. *)
Lemma weather_prng_generate (w : weather_prng.WeatherCSPRNG) (n : Z)
    (tr : list event) :
  0 <= n ->
  exists result st blocks,
    weather_prng.generate_loop (Z.to_nat n) (weather_prng.state w) n
                               (Go.make_bytes n) 0 (weather_prng.counter w) tr
    = Some (result, st,
            if 0 <? n
            then Go.wrap_uint64 (weather_prng.counter w + blocks_for n)
            else weather_prng.counter w,
            tr ++ blocks)
    /\ Go.len result = n
    /\ Forall (fun e => e <> EvReseed) blocks
    /\ Z.of_nat (List.length blocks) = blocks_for n.
Proof. intros Hn. now apply rekey_run. Qed.

Lemma weather_prng_GenerateBytes_total (clock : Z)
    (io : weather_prng.reseed_io) (w : weather_prng.WeatherCSPRNG) (n : Z) :
  0 <= n ->
  exists result w' tr,
    weather_prng.GenerateBytes clock io w n = (Return result None, w', tr)
    /\ Go.len result = n.
Proof.
  intros Hn. unfold weather_prng.GenerateBytes.
  destruct (weather_prng.needs_reseed clock w).
  - replace (n <? 0) with false by (symmetry; apply Z.ltb_ge; lia).
    destruct (weather_prng_generate (weather_prng.reseed io w) n [EvReseed])
      as (result & st & blocks & Hrun & Hlen & _); [lia |].
    rewrite Hrun. eauto.
  - replace (n <? 0) with false by (symmetry; apply Z.ltb_ge; lia).
    destruct (weather_prng_generate w n []) as
      (result & st & blocks & Hrun & Hlen & _); [lia |].
    rewrite Hrun. eauto.
Qed.

(** C1, where the code breaks it: a request of 16 bytes to the
    WeatherCSPRNG of crypto_csprng.go or to the multEntropyCSPRNG of
    multEntropy_prng.go does not return 16 bytes; from every state the call
    panics on the slice expression [result[:32]]. *)
Theorem GenerateBytes_16_panics :
  forall (w : crypto_csprng.WeatherCSPRNG)
         (c : multEntropy_prng.multEntropyCSPRNG),
    fst (crypto_csprng.GenerateBytes w 16)
    = Panic "slice bounds out of range"
    /\ fst (multEntropy_prng.GenerateBytes c 16)
       = Panic "slice bounds out of range".
Proof.
  intros w c. split.
  - rewrite crypto_csprng_GenerateBytes_short by lia. reflexivity.
  - rewrite multEntropy_prng_GenerateBytes_short by lia. reflexivity.
Qed.

(** ** Reseeding (weather_prng.go and the two reseeding drafts) *)

(** No draft writes the counter in [reseed]. *)
Lemma part_003_hybrid_reseed_counter (io : part_003_hybrid.reseed_io)
    (h : part_003_hybrid.HybridCSPRNG) :
  part_003_hybrid.counter (part_003_hybrid.reseed io h)
  = part_003_hybrid.counter h
  /\ part_003_hybrid.bytesGenerated (part_003_hybrid.reseed io h) = 0.
Proof. split; reflexivity. Qed.

Lemma part_003_multEntropy_reseed_counter
    (io : part_003_multEntropy.reseed_io)
    (c : part_003_multEntropy.multEntropyCSPRNG) :
  part_003_multEntropy.counter (part_003_multEntropy.reseed io c)
  = part_003_multEntropy.counter c
  /\ part_003_multEntropy.bytesGenerated (part_003_multEntropy.reseed io c)
     = 0.
Proof. split; reflexivity. Qed.

(** The whole call, with the state it leaves and the events in order. *)
Lemma weather_prng_GenerateBytes_spec (clock : Z)
    (io : weather_prng.reseed_io) (w : weather_prng.WeatherCSPRNG) (n : Z) :
  0 <= n ->
  let w0 := if weather_prng.needs_reseed clock w
            then weather_prng.reseed io w else w in
  let tr0 := if weather_prng.needs_reseed clock w then [EvReseed] else [] in
  exists result st blocks,
    weather_prng.GenerateBytes clock io w n
    = (Return result None,
       weather_prng.mkWeather
         st
         (if 0 <? n
          then Go.wrap_uint64 (weather_prng.counter w + blocks_for n)
          else weather_prng.counter w)
         (Go.wrap_int64 (weather_prng.bytesGenerated w0 + n))
         (weather_prng.lastReseed w0),
       tr0 ++ blocks)
    /\ Go.len result = n
    /\ Forall (fun e => e <> EvReseed) blocks
    /\ Z.of_nat (List.length blocks) = blocks_for n.
Proof.
  intros Hn w0 tr0. unfold weather_prng.GenerateBytes.
  assert (Hctr : weather_prng.counter w0 = weather_prng.counter w).
  { unfold w0. destruct (weather_prng.needs_reseed clock w); reflexivity. }
  replace (if weather_prng.needs_reseed clock w
           then (weather_prng.reseed io w, [EvReseed]) else (w, []))
    with (w0, tr0)
    by (unfold w0, tr0; destruct (weather_prng.needs_reseed clock w);
        reflexivity).
  replace (n <? 0) with false by (symmetry; apply Z.ltb_ge; lia).
  destruct (weather_prng_generate w0 n tr0)
    as (result & st & blocks & Hrun & Hlen & Hev & Hcount); [lia |].
  rewrite Hrun, Hctr. exists result, st, blocks. auto.
Qed.

(** The two other reseeding drafts have the same [GenerateBytes]. *)
Lemma part_003_hybrid_GenerateBytes_spec (clock : Z)
    (io : part_003_hybrid.reseed_io) (w : part_003_hybrid.HybridCSPRNG) (n : Z) :
  0 <= n ->
  let w0 := if part_003_hybrid.needs_reseed clock w then part_003_hybrid.reseed io w else w in
  let tr0 := if part_003_hybrid.needs_reseed clock w then [EvReseed] else [] in
  exists result st blocks,
    part_003_hybrid.GenerateBytes clock io w n
    = (Return result None,
       part_003_hybrid.mkHybrid
         st
         (if 0 <? n then Go.wrap_uint64 (part_003_hybrid.counter w + blocks_for n)
          else part_003_hybrid.counter w)
         (Go.wrap_int64 (part_003_hybrid.bytesGenerated w0 + n))
         (part_003_hybrid.lastReseed w0),
       tr0 ++ blocks)
    /\ Go.len result = n
    /\ Forall (fun e => e <> EvReseed) blocks
    /\ Z.of_nat (List.length blocks) = blocks_for n.
Proof.
  intros Hn w0 tr0. unfold part_003_hybrid.GenerateBytes.
  assert (Hctr : part_003_hybrid.counter w0 = part_003_hybrid.counter w).
  { unfold w0. destruct (part_003_hybrid.needs_reseed clock w); reflexivity. }
  replace (if part_003_hybrid.needs_reseed clock w
           then (part_003_hybrid.reseed io w, [EvReseed]) else (w, []))
    with (w0, tr0)
    by (unfold w0, tr0; destruct (part_003_hybrid.needs_reseed clock w); reflexivity).
  replace (n <? 0) with false by (symmetry; apply Z.ltb_ge; lia).
  rewrite part_003_hybrid_loop_eq.
  destruct (rekey_run (part_003_hybrid.state w0) n (part_003_hybrid.counter w0) tr0)
    as (result & st & blocks & Hrun & Hlen & Hev & Hcount); [lia |].
  rewrite Hrun, Hctr. exists result, st, blocks. auto.
Qed.

Lemma part_003_multEntropy_GenerateBytes_spec (clock : Z)
    (io : part_003_multEntropy.reseed_io) (w : part_003_multEntropy.multEntropyCSPRNG) (n : Z) :
  0 <= n ->
  let w0 := if part_003_multEntropy.needs_reseed clock w then part_003_multEntropy.reseed io w else w in
  let tr0 := if part_003_multEntropy.needs_reseed clock w then [EvReseed] else [] in
  exists result st blocks,
    part_003_multEntropy.GenerateBytes clock io w n
    = (Return result None,
       part_003_multEntropy.mkMult
         st
         (if 0 <? n then Go.wrap_uint64 (part_003_multEntropy.counter w + blocks_for n)
          else part_003_multEntropy.counter w)
         (Go.wrap_int64 (part_003_multEntropy.bytesGenerated w0 + n))
         (part_003_multEntropy.lastReseed w0),
       tr0 ++ blocks)
    /\ Go.len result = n
    /\ Forall (fun e => e <> EvReseed) blocks
    /\ Z.of_nat (List.length blocks) = blocks_for n.
Proof.
  intros Hn w0 tr0. unfold part_003_multEntropy.GenerateBytes.
  assert (Hctr : part_003_multEntropy.counter w0 = part_003_multEntropy.counter w).
  { unfold w0. destruct (part_003_multEntropy.needs_reseed clock w); reflexivity. }
  replace (if part_003_multEntropy.needs_reseed clock w
           then (part_003_multEntropy.reseed io w, [EvReseed]) else (w, []))
    with (w0, tr0)
    by (unfold w0, tr0; destruct (part_003_multEntropy.needs_reseed clock w); reflexivity).
  replace (n <? 0) with false by (symmetry; apply Z.ltb_ge; lia).
  rewrite part_003_multEntropy_loop_eq.
  destruct (rekey_run (part_003_multEntropy.state w0) n (part_003_multEntropy.counter w0) tr0)
    as (result & st & blocks & Hrun & Hlen & Hev & Hcount); [lia |].
  rewrite Hrun, Hctr. exists result, st, blocks. auto.
Qed.

(** C2, as the code has it: [reseed] sets [bytesGenerated] to 0 and leaves
    the counter as it was; a call of [GenerateBytes(n)], reseeding or not,
    advances the counter by one per block, that is by the [n] bytes rounded
    up to blocks of 32, modulo 2^64.  Nothing sets the counter back. *)
Theorem reseed_keeps_counter (clock : Z) (io : weather_prng.reseed_io)
    (w : weather_prng.WeatherCSPRNG) (n : Z) :
  0 <= weather_prng.counter w < 2 ^ 64 ->
  0 <= n ->
  weather_prng.counter (weather_prng.reseed io w) = weather_prng.counter w
  /\ weather_prng.bytesGenerated (weather_prng.reseed io w) = 0
  /\ exists result w' tr,
       weather_prng.GenerateBytes clock io w n = (Return result None, w', tr)
       /\ weather_prng.counter w'
          = Go.wrap_uint64 (weather_prng.counter w + blocks_for n)
       /\ (weather_prng.counter w + blocks_for n < 2 ^ 64 ->
           weather_prng.counter w'
           = weather_prng.counter w + blocks_for n).
Proof.
  intros Hctr Hn. split; [reflexivity | split; [reflexivity |]].
  destruct (weather_prng_GenerateBytes_spec clock io w n Hn)
    as (result & st & blocks & Hrun & _).
  assert (Hb : 0 <= blocks_for n).
  { unfold blocks_for. apply Z.div_pos; lia. }
  assert (Hc : (if 0 <? n
                then Go.wrap_uint64 (weather_prng.counter w + blocks_for n)
                else weather_prng.counter w)
               = Go.wrap_uint64 (weather_prng.counter w + blocks_for n)).
  { destruct (0 <? n) eqn:E; [reflexivity |].
    apply Z.ltb_ge in E. assert (n = 0) by lia. subst n.
    change (blocks_for 0) with 0. rewrite Z.add_0_r.
    unfold Go.wrap_uint64. symmetry. apply Z.mod_small. lia. }
  eexists _, _, _. split; [exact Hrun |]. simpl. rewrite Hc.
  split; [reflexivity |].
  intros Hsmall. unfold Go.wrap_uint64. apply Z.mod_small. lia.
Qed.

Lemma reseed_keeps_counter_witness :
  (0 <= weather_prng.counter sample.at_budget < 2 ^ 64 /\ 0 <= 64)
  /\ weather_prng.counter
       (weather_prng.reseed sample.weather_down sample.at_budget)
     = weather_prng.counter sample.at_budget
  /\ weather_prng.bytesGenerated
       (weather_prng.reseed sample.weather_down sample.at_budget) = 0
  /\ exists result w' tr,
       weather_prng.GenerateBytes 0 sample.weather_down sample.at_budget 64
       = (Return result None, w', tr)
       /\ weather_prng.counter w'
          = Go.wrap_uint64 (weather_prng.counter sample.at_budget
                            + blocks_for 64)
       /\ (weather_prng.counter sample.at_budget + blocks_for 64 < 2 ^ 64 ->
           weather_prng.counter w'
           = weather_prng.counter sample.at_budget + blocks_for 64).
Proof.
  split.
  - simpl. lia.
  - apply (reseed_keeps_counter 0 sample.weather_down sample.at_budget 64);
      simpl; lia.
Defined.

(** C2 as stated fails: the generator built by [NewWeatherCSPRNG] and used
    once for 64 bytes has counter 2, and a reseed leaves it at 2. *)
Lemma reseed_leaves_counter_at_2 :
  weather_prng.counter sample.used = 2
  /\ weather_prng.counter
       (weather_prng.reseed sample.weather_down sample.used) <> 0.
Proof. vm_compute. split; [reflexivity | discriminate]. Qed.

(** C3, as the code has it: with more than the byte budget generated since
    the last reseed, the call reseeds exactly once, before any block is
    produced; the reseed leaves [bytesGenerated] at 0, and the call ends
    with the [n] bytes it produced counted. *)
Theorem reseed_when_budget_exceeded (clock : Z)
    (io : weather_prng.reseed_io) (w : weather_prng.WeatherCSPRNG) (n : Z) :
  RESEED_BYTE_INTERVAL < weather_prng.bytesGenerated w ->
  0 <= n ->
  exists result w' blocks,
    weather_prng.GenerateBytes clock io w n
    = (Return result None, w', EvReseed :: blocks)
    /\ Forall (fun e => e <> EvReseed) blocks
    /\ Go.len result = n
    /\ weather_prng.bytesGenerated (weather_prng.reseed io w) = 0
    /\ weather_prng.bytesGenerated w' = Go.wrap_int64 n
    /\ weather_prng.lastReseed w' = weather_prng.now io.
Proof.
  intros Hover Hn.
  destruct (weather_prng_GenerateBytes_spec clock io w n Hn)
    as (result & st & blocks & Hrun & Hlen & Hev & _).
  assert (Hneed : weather_prng.needs_reseed clock w = true).
  { unfold weather_prng.needs_reseed. apply orb_true_iff. right.
    apply Z.ltb_lt. exact Hover. }
  rewrite Hneed in Hrun. simpl in Hrun.
  eexists _, _, _. split; [exact Hrun |]. auto.
Qed.

Lemma reseed_when_budget_exceeded_witness :
  (RESEED_BYTE_INTERVAL < weather_prng.bytesGenerated sample.past_budget
   /\ 0 <= 64)
  /\ exists result w' blocks,
       weather_prng.GenerateBytes 0 sample.weather_down sample.past_budget 64
       = (Return result None, w', EvReseed :: blocks)
       /\ Forall (fun e => e <> EvReseed) blocks
       /\ Go.len result = 64
       /\ weather_prng.bytesGenerated
            (weather_prng.reseed sample.weather_down sample.past_budget) = 0
       /\ weather_prng.bytesGenerated w' = Go.wrap_int64 64
       /\ weather_prng.lastReseed w'
          = weather_prng.now sample.weather_down.
Proof.
  split.
  - split; [reflexivity | lia].
  - apply (reseed_when_budget_exceeded 0 sample.weather_down
                                       sample.past_budget 64).
    + reflexivity.
    + lia.
Defined.

(** C3 as stated fails at the budget itself: with exactly 500 MiB generated
    and the clock at the time of the last reseed, a call for 32 bytes
    produces its block without reseeding. *)
Lemma no_reseed_at_exact_budget :
  weather_prng.bytesGenerated sample.at_budget >= RESEED_BYTE_INTERVAL
  /\ snd (weather_prng.GenerateBytes 0 sample.weather_down
                                     sample.at_budget 32)
     = [EvBlock 0].
Proof. vm_compute. split; [discriminate | reflexivity]. Qed.

(** ** The two weather drafts side by side *)

(** C4, as the code has it: the drafts also differ in how they rekey
    (weather_prng.go after every block, crypto_csprng.go once per call).
    From the same state and counter, with no reseed trigger firing, both
    serve a request of [n >= 32] bytes, their outputs agree on the first
    32 bytes, hence entirely for [n = 32], and their counters end equal. *)
Theorem weather_drafts_agree_on_first_block (clock : Z)
    (io : weather_prng.reseed_io) (st : list byte)
    (ctr bytesGenerated lastReseed n : Z) :
  let a := crypto_csprng.mkWeather st ctr in
  let b := weather_prng.mkWeather st ctr bytesGenerated lastReseed in
  weather_prng.needs_reseed clock b = false ->
  32 <= n ->
  exists out_a a' out_b b' tr,
    crypto_csprng.GenerateBytes a n = (Return out_a None, a')
    /\ weather_prng.GenerateBytes clock io b n = (Return out_b None, b', tr)
    /\ Go.len out_a = n
    /\ Go.len out_b = n
    /\ firstn 32 out_a = firstn 32 out_b
    /\ (n = 32 -> out_a = out_b)
    /\ crypto_csprng.counter a' = weather_prng.counter b'.
Proof.
  intros a b Hquiet Hn.
  destruct (crypto_csprng_GenerateBytes_long a n Hn)
    as (out_a & Ha & Hlen_a & Hfirst_a).
  assert (Hn0 : 0 <= n) by lia.
  unfold weather_prng.GenerateBytes. rewrite Hquiet.
  replace (n <? 0) with false by (symmetry; apply Z.ltb_ge; lia).
  destruct (weather_prng_generate b n [] Hn0)
    as (out_b & st' & blocks & Hrun & Hlen_b & _).
  pose proof (rekey_first_block _ _ _ _ _ _ _ _ Hn Hrun) as Hfirst_b.
  rewrite Hrun.
  assert (Hfirst : firstn 32 out_a = firstn 32 out_b).
  { rewrite Hfirst_a, Hfirst_b. reflexivity. }
  eexists _, _, _, _, _.
  split; [exact Ha |]. split; [reflexivity |].
  split; [exact Hlen_a |]. split; [exact Hlen_b |].
  split; [exact Hfirst |]. split.
  - intros ->. unfold Go.len in Hlen_a, Hlen_b.
    rewrite <- (firstn_all out_a), <- (firstn_all out_b).
    replace (List.length out_a) with 32%nat by lia.
    replace (List.length out_b) with 32%nat by lia.
    exact Hfirst.
  - simpl. replace (0 <? n) with true by (symmetry; apply Z.ltb_lt; lia).
    reflexivity.
Qed.

Lemma weather_drafts_agree_on_first_block_witness :
  (weather_prng.needs_reseed 0 sample.draft_rekey = false /\ 32 <= 64)
  /\ exists out_a a' out_b b' tr,
       crypto_csprng.GenerateBytes sample.draft_fixed 64
       = (Return out_a None, a')
       /\ weather_prng.GenerateBytes 0 sample.weather_down
                                     sample.draft_rekey 64
          = (Return out_b None, b', tr)
       /\ Go.len out_a = 64
       /\ Go.len out_b = 64
       /\ firstn 32 out_a = firstn 32 out_b
       /\ (64 = 32 -> out_a = out_b)
       /\ crypto_csprng.counter a' = weather_prng.counter b'.
Proof.
  split.
  - split; [reflexivity | lia].
  - apply (weather_drafts_agree_on_first_block 0 sample.weather_down
             sample.seed 0 0 0 64).
    + reflexivity.
    + lia.
Defined.

(** C4 as stated fails beyond the first block: from the same 32-byte state
    and counter 0, no reseed trigger firing, the two drafts answer a request
    of 64 bytes with different bytes. *)
Lemma weather_drafts_differ_at_64 :
  weather_prng.needs_reseed 0 sample.draft_rekey = false
  /\ match fst (crypto_csprng.GenerateBytes sample.draft_fixed 64),
           fst (fst (weather_prng.GenerateBytes 0 sample.weather_down
                                                sample.draft_rekey 64)) with
     | Return out_a None, Return out_b None => out_a <> out_b
     | _, _ => False
     end.
Proof. vm_compute. split; [reflexivity | discriminate]. Qed.

(** ** Seeding when the requests fail (multEntropy_prng.go) *)

(** C5, as the code has it: when the three requests fail to connect
    (network error or timeout in [client.Get]), seeding still completes, the
    three contributions are the fixed strings "weather_error",
    "market_error" and "network_error", and the seed becomes the 32-byte
    digest of them and the clock, which differs from the empty seed it
    replaces. *)
Theorem seeding_survives_failed_requests (io : multEntropy_prng.gather_io) :
  multEntropy_prng.weather_resp io = GetError ->
  multEntropy_prng.market_resp io = GetError ->
  multEntropy_prng.network_resp io = GetError ->
  let c := multEntropy_prng.NewmultEntropyCSPRNG io in
  multEntropy_prng.state c
  = sha256.Sum256
      (Go.bytes_of_string "weather_error|market_error|network_error|"
         ++ Go.FormatInt (multEntropy_prng.now io))
  /\ List.length (multEntropy_prng.state c) = 32%nat
  /\ multEntropy_prng.state c
     <> multEntropy_prng.state multEntropy_prng.zero.
Proof.
  intros Hw Hm Hnet c.
  assert (Hstate : multEntropy_prng.state c
                   = multEntropy_prng.gatherEntropy io) by reflexivity.
  split; [| split].
  - rewrite Hstate. unfold multEntropy_prng.gatherEntropy.
    rewrite Hw, Hm, Hnet. reflexivity.
  - rewrite Hstate. apply Sum256_length.
  - rewrite Hstate. intros Heq.
    pose proof (Sum256_length
                  (multEntropy_prng.getWeather (multEntropy_prng.weather_resp io)
                   ++ sep
                   ++ multEntropy_prng.getMarket (multEntropy_prng.market_resp io)
                   ++ sep
                   ++ multEntropy_prng.getNetwork
                        (multEntropy_prng.network_resp io)
                        (multEntropy_prng.network_duration io)
                   ++ sep ++ Go.FormatInt (multEntropy_prng.now io))) as Hlen.
    unfold multEntropy_prng.gatherEntropy in Heq.
    rewrite Heq in Hlen. discriminate Hlen.
Qed.

Lemma seeding_survives_failed_requests_witness :
  (multEntropy_prng.weather_resp sample.all_down = GetError
   /\ multEntropy_prng.market_resp sample.all_down = GetError
   /\ multEntropy_prng.network_resp sample.all_down = GetError)
  /\ multEntropy_prng.state
       (multEntropy_prng.NewmultEntropyCSPRNG sample.all_down)
     = sha256.Sum256
         (Go.bytes_of_string "weather_error|market_error|network_error|"
            ++ Go.FormatInt (multEntropy_prng.now sample.all_down))
  /\ List.length (multEntropy_prng.state
                    (multEntropy_prng.NewmultEntropyCSPRNG sample.all_down))
     = 32%nat
  /\ multEntropy_prng.state
       (multEntropy_prng.NewmultEntropyCSPRNG sample.all_down)
     <> multEntropy_prng.state multEntropy_prng.zero.
Proof.
  split.
  - repeat split.
  - apply (seeding_survives_failed_requests sample.all_down); reflexivity.
Defined.

(** C5 as stated fails for read errors: a request that connects and then
    fails while its body is read contributes the bytes read so far, not a
    fallback string, and the seed is not the one the fallback strings
    give. *)
Lemma read_error_gets_no_fallback :
  failed (multEntropy_prng.weather_resp sample.reads_fail) = true
  /\ failed (multEntropy_prng.market_resp sample.reads_fail) = true
  /\ failed (multEntropy_prng.network_resp sample.reads_fail) = true
  /\ multEntropy_prng.getWeather
       (multEntropy_prng.weather_resp sample.reads_fail) = sample.rain
  /\ multEntropy_prng.getWeather
       (multEntropy_prng.weather_resp sample.reads_fail)
     <> Go.bytes_of_string "weather_error"
  /\ multEntropy_prng.state
       (multEntropy_prng.NewmultEntropyCSPRNG sample.reads_fail)
     <> sha256.Sum256
          (Go.bytes_of_string "weather_error|market_error|network_error|"
             ++ Go.FormatInt (multEntropy_prng.now sample.reads_fail)).
Proof.
  vm_compute. repeat split; try reflexivity; discriminate.
Qed.

(** The reseeding draft replaces read errors as well; its [reseed] turns
    any combination of failures into fixed strings, rekeys with them and
    clears the byte count. *)
Lemma part_003_multEntropy_reseed_all_failed
    (io : part_003_multEntropy.reseed_io)
    (c : part_003_multEntropy.multEntropyCSPRNG) :
  failed (part_003_multEntropy.weather_resp io) = true ->
  failed (part_003_multEntropy.market_resp io) = true ->
  Forall (fun p => p = None) (part_003_multEntropy.jitter io) ->
  exists fw fm,
    (fw = "weather_error" \/ fw = "weather_read_error")%string
    /\ (fm = "market_error" \/ fm = "market_read_error")%string
    /\ part_003_multEntropy.state (part_003_multEntropy.reseed io c)
       = hmac.Sum
           (hmac.Write
              (hmac.New (part_003_multEntropy.state c))
              (sha256.Sum256
                 (Go.bytes_of_string fw ++ sep ++ Go.bytes_of_string fm
                    ++ sep ++ Go.bytes_of_string "network_error_all"
                    ++ sep
                    ++ Go.FormatInt (part_003_multEntropy.entropy_now io))))
    /\ List.length (part_003_multEntropy.state
                      (part_003_multEntropy.reseed io c)) = 32%nat
    /\ part_003_multEntropy.bytesGenerated
         (part_003_multEntropy.reseed io c) = 0.
Proof.
  intros Hw Hm Hj.
  assert (Hnet : part_003_multEntropy.getNetworkJitter
                   (part_003_multEntropy.jitter io)
                 = Go.bytes_of_string "network_error_all").
  { unfold part_003_multEntropy.getNetworkJitter.
    replace (flat_map _ (part_003_multEntropy.jitter io)) with (@nil (list byte)).
    - reflexivity.
    - induction Hj as [| p ps Hp _ IH]; [reflexivity |].
      subst p. simpl. exact IH. }
  unfold part_003_multEntropy.reseed, part_003_multEntropy.gatherEntropy.
  rewrite Hnet. simpl part_003_multEntropy.state.
  destruct (part_003_multEntropy.weather_resp io) as [| bw [|]];
    try discriminate Hw;
    destruct (part_003_multEntropy.market_resp io) as [| bm [|]];
    try discriminate Hm;
    eexists _, _;
    (split; [| split; [| split; [reflexivity | split;
                                  [apply hmac_Sum_length | reflexivity]]]]);
    auto.
Qed.

(** ** Byte counts *)

Lemma byte_of_Z_of_byte (b : byte) : Go.byte_of_Z (Go.Z_of_byte b) = b.
Proof. destruct b; reflexivity. Qed.

Lemma Z_of_byte_range (b : byte) : 0 <= Go.Z_of_byte b < 256.
Proof.
  unfold Go.Z_of_byte. pose proof (Byte.to_N_bounded b) as Hb. lia.
Qed.

Lemma all_bytes_complete (b : byte) : In b all_bytes.
Proof.
  unfold all_bytes. apply in_map_iff.
  exists (Z.to_nat (Go.Z_of_byte b)). split.
  - rewrite Z2Nat.id by apply Z_of_byte_range. apply byte_of_Z_of_byte.
  - apply in_seq. pose proof (Z_of_byte_range b). lia.
Qed.

Lemma all_bytes_NoDup : List.NoDup all_bytes.
Proof.
  apply NoDup_ListNoDup. apply (bool_decide_unpack _). vm_compute. exact I.
Qed.

(** A duplicate-free list holding every byte value has 256 entries. *)
Lemma full_order_length (order : list byte) :
  List.NoDup order -> (forall b, In b order) -> List.length order = 256%nat.
Proof.
  intros Hnd Hall.
  assert (Hperm : Permutation order all_bytes).
  { apply Stdlib.Sorting.Permutation.NoDup_Permutation;
      [exact Hnd | exact all_bytes_NoDup |].
    intros b. split; intros _; [apply all_bytes_complete | apply Hall]. }
  apply Permutation_length in Hperm. rewrite Hperm. reflexivity.
Qed.

Lemma count_occ_le_length (data : list byte) (b : byte) :
  (count_occ Byte.byte_eq_dec data b <= List.length data)%nat.
Proof.
  induction data as [| x data IH]; simpl; [lia |].
  destruct (Byte.byte_eq_dec x b); lia.
Qed.

Lemma wrap_int64_small (z : Z) :
  - 2 ^ 63 <= z < 2 ^ 63 -> Go.wrap_int64 z = z.
Proof.
  intros Hz. unfold Go.wrap_int64. rewrite Z.mod_small; lia.
Qed.

(** main.go: the map built by [counts[b]++] holds the number of
    occurrences of every byte, and its keys are the bytes that occur. *)
Lemma main_go_count_bytes (data : list byte) :
  Z.of_nat (List.length data) < 2 ^ 63 ->
  forall b,
    main_go.at_key (main_go.count_bytes data) b
    = Z.of_nat (count_occ Byte.byte_eq_dec data b)
    /\ (is_Some (main_go.count_bytes data !! b) <-> In b data).
Proof.
  unfold main_go.count_bytes.
  induction data as [| x data IH] using rev_ind; intros Hlen b.
  - simpl. unfold main_go.at_key. rewrite lookup_empty. split; [reflexivity |].
    split; [intros [v Hv]; discriminate | intros []].
  - rewrite List.length_app in Hlen. simpl in Hlen.
    rewrite fold_left_app. simpl.
    set (m := fold_left main_go.incr data ∅) in *.
    assert (Hlen' : Z.of_nat (List.length data) < 2 ^ 63) by lia.
    destruct (IH Hlen' b) as [IHat IHkey].
    destruct (IH Hlen' x) as [IHx _].
    rewrite count_occ_app. simpl.
    unfold main_go.incr, main_go.at_key in *.
    destruct (Byte.byte_eq_dec x b) as [-> | Hne].
    + rewrite lookup_insert_eq. simpl. split.
      * rewrite IHat.
        pose proof (count_occ_le_length data b).
        rewrite wrap_int64_small by lia. lia.
      * split; [intros _; apply in_or_app; right; left; reflexivity |].
        intros _. eexists. reflexivity.
    + rewrite lookup_insert_ne by exact Hne. split.
      * rewrite IHat. lia.
      * rewrite IHkey. rewrite in_app_iff. simpl. intuition congruence.
Qed.

(** The array of the concurrent tool holds the same counts, slot by
    slot. *)
Lemma bump_length (byteCounts : list Z) (b : byte) :
  List.length (part_002.bump byteCounts b) = List.length byteCounts.
Proof. unfold part_002.bump. apply length_insert. Qed.

Lemma part_002_count_bytes (data : list byte) :
  Z.of_nat (List.length data) < 2 ^ 63 ->
  List.length (part_002.count_bytes data) = 256%nat
  /\ forall b,
       nth (N.to_nat (Byte.to_N b)) (part_002.count_bytes data) 0
       = Z.of_nat (count_occ Byte.byte_eq_dec data b).
Proof.
  unfold part_002.count_bytes.
  induction data as [| x data IH] using rev_ind; intros Hlen.
  - split; [reflexivity |]. intros b.
    cbn [fold_left count_occ Z.of_nat]. apply nth_repeat.
  - rewrite List.length_app in Hlen. simpl in Hlen.
    rewrite fold_left_app. simpl.
    set (bc := fold_left part_002.bump data (repeat 0 256)) in *.
    destruct IH as [IHlen IHat]; [lia |].
    split; [rewrite bump_length; exact IHlen |].
    intros b. rewrite count_occ_app. simpl.
    unfold part_002.bump.
    assert (Hx : (N.to_nat (Byte.to_N x) < List.length bc)%nat).
    { rewrite IHlen. pose proof (Byte.to_N_bounded x). lia. }
    destruct (Byte.byte_eq_dec x b) as [-> | Hne].
    + rewrite nth_lookup, list_lookup_insert_eq by exact Hx. simpl.
      rewrite IHat. pose proof (count_occ_le_length data b).
      rewrite wrap_int64_small by lia. lia.
    + rewrite nth_lookup, list_lookup_insert_ne.
      * rewrite <- nth_lookup, IHat. lia.
      * intros Heq. apply Hne.
        apply N2Nat.inj in Heq.
        rewrite <- (byte_of_Z_of_byte x), <- (byte_of_Z_of_byte b).
        unfold Go.Z_of_byte. rewrite Heq. reflexivity.
Qed.

Lemma byte_index_roundtrip :
  Forall (fun i => N.to_nat (Byte.to_N (Go.byte_of_Z (Z.of_nat i))) = i)
         (seq 0 256).
Proof. apply (bool_decide_unpack _). vm_compute. exact I. Qed.

(** With every byte value present once, all 256 slots hold 1. *)
Lemma part_002_count_bytes_uniform (data : list byte) :
  List.length data = 256%nat ->
  (forall b, count_occ Byte.byte_eq_dec data b = 1%nat) ->
  part_002.count_bytes data = repeat 1 256.
Proof.
  intros Hlen Hone.
  destruct (part_002_count_bytes data) as [Hl Hat]; [rewrite Hlen; lia |].
  apply nth_ext with (d := 0) (d' := 1).
  - rewrite Hl, repeat_length. reflexivity.
  - intros i Hi. rewrite Hl in Hi. rewrite nth_repeat.
    assert (Hin : In i (seq 0 256)) by (apply in_seq; lia).
    pose proof (proj1 (List.Forall_forall _ _) byte_index_roundtrip i Hin)
      as Hround.
    simpl in Hround. rewrite <- Hround at 1.
    rewrite Hat, Hone. reflexivity.
Qed.

(** ** The analyzer on binary64 *)

Lemma fold_left_ext_in {A B} (f g : A -> B -> A) (l : list B) (a : A) :
  (forall a x, In x l -> f a x = g a x) ->
  fold_left f l a = fold_left g l a.
Proof.
  revert a. induction l as [| x l IH]; intros a Hfg; [reflexivity |].
  simpl. rewrite Hfg by (left; reflexivity).
  apply IH. intros a' y Hy. apply Hfg. right. exact Hy.
Qed.

Lemma fold_left_const {A B} (h : A -> A) (l : list B) (a : A) :
  fold_left (fun acc _ => h acc) l a = Nat.iter (List.length l) h a.
Proof.
  revert a. induction l as [| x l IH]; intros a; [reflexivity |].
  simpl. rewrite IH. clear IH.
  induction (List.length l) as [| k IHk]; [reflexivity |].
  simpl. rewrite IHk. reflexivity.
Qed.

(** C6: a buffer of 256 bytes that holds every byte value once has
    chi-square statistic 0 and Shannon entropy 8, computed in float64 by
    [calculateChiSquare] and [calculateShannonEntropy] of main.go (for every
    order in which the entropy loop may walk its map) and by
    [basicAnalysis]. *)
Theorem uniform_buffer_statistics (Log Erfc : float -> float)
    (data order : list byte) :
  List.length data = 256%nat ->
  (forall b, count_occ Byte.byte_eq_dec data b = 1%nat) ->
  main_go.range_order (main_go.count_bytes data) order ->
  let ops := binary64.ops Log Erfc in
  main_go.calculateChiSquare data = 0%float
  /\ main_go.calculateShannonEntropy order data = 8%float
  /\ part_002.Analysis.ChiSquare (part_002.basicAnalysis data) = 0%float
  /\ part_002.Analysis.ShannonEntropy (part_002.basicAnalysis data)
     = 8%float.
Proof.
  intros Hlen Hone [Hnd Hkeys] ops.
  assert (Hlen63 : Z.of_nat (List.length data) < 2 ^ 63)
    by (rewrite Hlen; lia).
  assert (Hat : forall b, main_go.at_key (main_go.count_bytes data) b = 1).
  { intros b. destruct (main_go_count_bytes data Hlen63 b) as [-> _].
    rewrite Hone. reflexivity. }
  assert (Hlen_order : List.length order = 256%nat).
  { apply full_order_length; [exact Hnd |].
    intros b. apply Hkeys.
    destruct (main_go_count_bytes data Hlen63 b) as [_ Hin]. apply Hin.
    apply (count_occ_In Byte.byte_eq_dec). rewrite Hone. lia. }
  assert (HLen : Go.len data = 256) by (unfold Go.len; rewrite Hlen; lia).
  split; [| split].
  - unfold main_go.calculateChiSquare. rewrite HLen.
    rewrite (fold_left_ext_in _
               (fun chiSquareStat (_ : Z) =>
                  let diff := fsub (float64 1)
                                   (fdiv (float64 256) (float64 256)) in
                  fadd chiSquareStat
                       (fdiv (fmul diff diff)
                             (fdiv (float64 256) (float64 256))))).
    + vm_compute. reflexivity.
    + intros a i _. cbv zeta. rewrite Hat. reflexivity.
  - unfold main_go.calculateShannonEntropy. rewrite HLen.
    rewrite (fold_left_ext_in _
               (fun entropy (_ : byte) =>
                  let p := fdiv (float64 1) (float64 256) in
                  fsub entropy (fmul p (Log2 p)))).
    + rewrite (fold_left_const
                 (fun entropy =>
                    let p := fdiv (float64 1) (float64 256) in
                    fsub entropy (fmul p (Log2 p)))).
      rewrite Hlen_order. vm_compute. reflexivity.
    + intros a b _. cbv zeta. rewrite Hat. reflexivity.
  - unfold part_002.basicAnalysis. rewrite HLen.
    rewrite (part_002_count_bytes_uniform data Hlen Hone).
    vm_compute. split; reflexivity.
Qed.

Lemma all_bytes_once (b : byte) :
  count_occ Byte.byte_eq_dec all_bytes b = 1%nat.
Proof. destruct b; reflexivity. Qed.

Lemma all_bytes_range_order :
  main_go.range_order (main_go.count_bytes all_bytes) all_bytes.
Proof.
  split; [exact all_bytes_NoDup |].
  intros b.
  destruct (main_go_count_bytes all_bytes) with (b := b) as [_ Hkey];
    [simpl; lia |].
  rewrite Hkey. reflexivity.
Qed.

Lemma uniform_buffer_statistics_witness :
  (List.length all_bytes = 256%nat
   /\ (forall b, count_occ Byte.byte_eq_dec all_bytes b = 1%nat)
   /\ main_go.range_order (main_go.count_bytes all_bytes) all_bytes)
  /\ forall Log Erfc : float -> float,
       let ops := binary64.ops Log Erfc in
       main_go.calculateChiSquare all_bytes = 0%float
       /\ main_go.calculateShannonEntropy all_bytes all_bytes = 8%float
       /\ part_002.Analysis.ChiSquare (part_002.basicAnalysis all_bytes)
          = 0%float
       /\ part_002.Analysis.ShannonEntropy (part_002.basicAnalysis all_bytes)
          = 8%float.
Proof.
  split.
  - split; [reflexivity |].
    split; [exact all_bytes_once | exact all_bytes_range_order].
  - intros Log Erfc.
    apply (uniform_buffer_statistics Log Erfc all_bytes all_bytes).
    + reflexivity.
    + exact all_bytes_once.
    + exact all_bytes_range_order.
Defined.

(** C10: on a buffer of one byte, [basicAnalysis] divides
    [float64(matches) = 0] by [float64(sampleSize-1) = 0]: the
    autocorrelation is NaN.  The guard at the top of the function covers
    the empty buffer only, for which the field is 0. *)
Theorem single_byte_autocorrelation_is_nan (Log Erfc : float -> float)
    (b : byte) :
  let ops := binary64.ops Log Erfc in
  part_002.count_matches [b] 1 = 0
  /\ part_002.Analysis.Autocorrelation (part_002.basicAnalysis [b])
     = PrimFloat.div (binary64.of_int 0) (binary64.of_int (1 - 1))
  /\ PrimFloat.is_nan
       (part_002.Analysis.Autocorrelation (part_002.basicAnalysis [b]))
     = true
  /\ part_002.Analysis.Autocorrelation (part_002.basicAnalysis []) = 0%float.
Proof. destruct b; vm_compute; repeat split; reflexivity. Qed.

(** ** The monobit test *)

Lemma monobit_S_app (l1 l2 : list bool) :
  monobit_S (l1 ++ l2) = monobit_S l1 + monobit_S l2.
Proof.
  unfold monobit_S. induction l1 as [| b l1 IH]; simpl; [reflexivity |].
  rewrite IH. lia.
Qed.

Lemma monobit_S_bound (l : list bool) :
  Z.abs (monobit_S l) <= Z.of_nat (List.length l).
Proof.
  unfold monobit_S. induction l as [| b l IH]; simpl List.length; simpl fold_right;
    [simpl; lia |].
  destruct b; lia.
Qed.

(** [(x>>i)&1 == 1] tests bit [i]. *)
Lemma bit_test (x i : Z) :
  0 <= i -> (Z.land (Z.shiftr x i) 1 =? 1) = Z.testbit x i.
Proof.
  intros Hi.
  change 1 with (Z.ones 1) at 1. rewrite Z.land_ones by lia.
  rewrite <- (Z.add_0_l i) at 2. rewrite <- Z.shiftr_spec by lia.
  rewrite Z.bit0_odd. change (2 ^ 1) with 2.
  rewrite Zodd_mod. reflexivity.
Qed.

(** The inner loop over the bit positions, away from the ends of [int]. *)
Lemma monobit_bits (x : Z) (idx : list Z) :
  forall s,
    Forall (fun i => 0 <= i) idx ->
    Z.abs s + Z.of_nat (List.length idx) < 2 ^ 63 ->
    fold_left
      (fun s i =>
         if Z.land (Z.shiftr x i) 1 =? 1 then Go.wrap_int64 (s + 1)
         else Go.wrap_int64 (s - 1))
      idx s
    = s + monobit_S (map (fun i => Z.testbit x i) idx).
Proof.
  induction idx as [| i idx IH]; intros s Hidx Hs.
  - unfold monobit_S. simpl. lia.
  - inversion Hidx as [| ? ? Hi Hrest]; subst.
    simpl List.length in Hs. simpl fold_left. rewrite bit_test by exact Hi.
    unfold monobit_S in *. simpl map. simpl fold_right.
    destruct (Z.testbit x i).
    + rewrite wrap_int64_small by lia. rewrite IH; [lia | exact Hrest | lia].
    + rewrite wrap_int64_small by lia. rewrite IH; [lia | exact Hrest | lia].
Qed.

Lemma monobit_byte_spec (s : Z) (b : byte) :
  Z.abs s + 8 < 2 ^ 63 ->
  main_go.monobit_byte s b = s + monobit_S (bits_of_byte b).
Proof.
  intros Hs. unfold main_go.monobit_byte, bits_of_byte.
  apply monobit_bits.
  - repeat constructor; lia.
  - simpl List.length. lia.
Qed.

Lemma bit_sequence_length (data : list byte) :
  Z.of_nat (List.length (bit_sequence data)) = 8 * Go.len data.
Proof.
  unfold bit_sequence, Go.len.
  induction data as [| b data IH]; [reflexivity |].
  change (flat_map bits_of_byte (b :: data))
    with (bits_of_byte b ++ flat_map bits_of_byte data).
  rewrite List.length_app.
  change (List.length (bits_of_byte b)) with 8%nat.
  simpl List.length in *. lia.
Qed.

(** The loop of [nistFrequencyMonobitTest] computes the S of the
    specification as long as eight times the length fits an [int]. *)
Lemma monobit_sum_spec (data : list byte) :
  8 * Go.len data <= Go.max_int64 ->
  main_go.monobit_sum data = monobit_S (bit_sequence data).
Proof.
  unfold main_go.monobit_sum, Go.max_int64.
  induction data as [| b data IH] using rev_ind; intros Hlen; [reflexivity |].
  unfold Go.len in *. rewrite List.length_app in Hlen. simpl List.length in Hlen.
  rewrite fold_left_app. simpl fold_left. rewrite IH by lia.
  unfold bit_sequence. rewrite flat_map_app.
  change (flat_map bits_of_byte [b]) with (bits_of_byte b ++ []).
  rewrite app_nil_r, monobit_S_app.
  apply monobit_byte_spec.
  pose proof (monobit_S_bound (flat_map bits_of_byte data)) as Hb.
  pose proof (bit_sequence_length data) as Hl.
  unfold bit_sequence, Go.len in Hl. lia.
Qed.

(** C7: for a non-empty buffer, [nistFrequencyMonobitTest] computes S as
    the sum of +1 per 1-bit and -1 per 0-bit over the n = 8*length bits,
    and returns erfc(|S|/sqrt(2n)): in float64 as
    [Erfc((|S|/Sqrt(n))/Sqrt2)], which in exact arithmetic is that value.
    [runBenchmark] counts the buffer as passing exactly when the p-value
    is at least 0.01 (in float64 the literal 0.01 is 0x1.47ae147ae147bp-7). *)
Theorem monobit_p_value (erfc : R -> R) (Log Erfc : float -> float)
    (data : list byte) :
  data <> [] ->
  8 * Go.len data <= Go.max_int64 ->
  let n := 8 * Go.len data in
  let S := monobit_S (bit_sequence data) in
  let p := main_go.nistFrequencyMonobitTest (ops := exact.ops erfc) data in
  let p64 :=
    main_go.nistFrequencyMonobitTest (ops := binary64.ops Log Erfc) data in
  main_go.monobit_sum data = S
  /\ Z.of_nat (List.length (bit_sequence data)) = n
  /\ p = erfc (Rabs (IZR S) / sqrt (2 * IZR n))%R
  /\ p64 = Erfc (PrimFloat.div
                   (PrimFloat.div (PrimFloat.abs (binary64.of_int S))
                                  (PrimFloat.sqrt (binary64.of_int n)))
                   (PrimFloat.sqrt 2))
  /\ (forall duration order t,
        main_go.passedNIST
          (main_go.record_sample (ops := exact.ops erfc) duration order data t)
        = if Rge_dec p (1 / 100)
          then Go.wrap_int64 (main_go.passedNIST t + 1)
          else main_go.passedNIST t)
  /\ (forall duration order t,
        main_go.passedNIST
          (main_go.record_sample (ops := binary64.ops Log Erfc)
                                 duration order data t)
        = if PrimFloat.leb 0x1.47ae147ae147bp-7 p64
          then Go.wrap_int64 (main_go.passedNIST t + 1)
          else main_go.passedNIST t).
Proof.
  intros Hne Hlen n S p p64.
  assert (Hpos : 0 < Go.len data).
  { unfold Go.len. destruct data; [congruence | simpl List.length; lia]. }
  assert (Hn : Go.wrap_int64 (Go.len data * 8) = n).
  { unfold n. unfold Go.max_int64 in Hlen. rewrite wrap_int64_small; lia. }
  assert (Hn0 : (n =? 0) = false) by (apply Z.eqb_neq; unfold n; lia).
  assert (HS : main_go.monobit_sum data = S) by (apply monobit_sum_spec; exact Hlen).
  split; [exact HS |].
  split; [apply bit_sequence_length |].
  split; [| split; [| split]].
  - unfold p, main_go.nistFrequencyMonobitTest. rewrite Hn, Hn0, HS.
    simpl. f_equal.
    assert (Hsn : (0 < sqrt (IZR n))%R).
    { apply sqrt_lt_R0. apply IZR_lt. unfold n. lia. }
    assert (Hs2 : (0 < sqrt 2)%R) by (apply sqrt_lt_R0; lra).
    rewrite sqrt_mult; [| lra | apply IZR_le; unfold n; lia].
    field. split; apply Rgt_not_eq; assumption.
  - unfold p64, main_go.nistFrequencyMonobitTest. rewrite Hn, Hn0, HS.
    reflexivity.
  - intros duration order t. unfold main_go.record_sample. simpl.
    fold p. destruct (Rge_dec p (1 / 100)); reflexivity.
  - intros duration order t. unfold main_go.record_sample. simpl.
    fold p64. reflexivity.
Qed.

Lemma monobit_p_value_witness :
  ([x41; x41; x41] <> [] /\ 8 * Go.len [x41; x41; x41] <= Go.max_int64)
  /\ forall (erfc : R -> R) (Log Erfc : float -> float),
       main_go.monobit_sum [x41; x41; x41] = -12
       /\ main_go.nistFrequencyMonobitTest (ops := exact.ops erfc)
                                           [x41; x41; x41]
          = erfc (Rabs (IZR (-12)) / sqrt (2 * IZR 24))%R.
Proof.
  split.
  - split; [discriminate | vm_compute; discriminate].
  - intros erfc Log Erfc.
    pose proof (monobit_p_value erfc Log Erfc [x41; x41; x41]) as H.
    destruct H as (HS & _ & Hp & _).
    + discriminate.
    + vm_compute. discriminate.
    + split; [exact HS | exact Hp].
Defined.

(** In [runBenchmark], an iteration whose call returns without error adds
    the sample to the running sums; one that returns an error adds
    nothing. *)
Lemma benchmark_loop_step {F : Type} {ops : Float64 F} {G : Type}
    {gen : Generator G} (g g' : G) (data : list byte) (err : option string)
    (todo i : nat) (dataSize : Z) (observe : nat -> Z * list byte)
    (t : main_go.totals F) :
  gen_GenerateBytes g dataSize = (Return data err, g') ->
  main_go.benchmark_loop (S todo) i dataSize observe g t
  = main_go.benchmark_loop
      todo (S i) dataSize observe g'
      (match err with
       | None =>
           main_go.record_sample (fst (observe i)) (snd (observe i)) data t
       | Some _ => t
       end).
Proof.
  intros Hcall. simpl. rewrite Hcall.
  destruct err; [reflexivity |]. destruct (observe i). reflexivity.
Qed.

(** ** One trial of the orchestrator *)

Lemma increment_completed {F : Type} (now : Z)
    (tracker : part_002.ProgressTracker.t) :
  part_002.ProgressTracker.completed
    (fst (part_002.increment (F := F) now tracker))
  = Go.wrap_int64 (part_002.ProgressTracker.completed tracker + 1).
Proof.
  unfold part_002.increment.
  destruct (5 * part_002.Second
            <? time_Sub now (part_002.ProgressTracker.lastPrint tracker));
    reflexivity.
Qed.

(** A call that returns an error gives [performanceTest] nothing but the
    error. *)
Lemma performanceTest_error {F : Type} {ops : Float64 F} {G : Type}
    {gen : Generator G} (g g' : G) (d : list byte) (e : string)
    (testSize elapsed : Z) :
  gen_GenerateBytes g testSize = (Return d (Some e), g') ->
  part_002.performanceTest g testSize elapsed
  = (part_002.PerfReturn None 0 (float64 0) (Some e), g').
Proof. intros Hcall. unfold part_002.performanceTest. now rewrite Hcall. Qed.

(** C8: a trial whose call fails is tried again, at most twice more, after
    sleeping 100 ms and then 200 ms; when the third call fails too, the
    error is stored in the trial's [TestResult], which is sent on the
    results channel, and the tracker is incremented: the trial ends
    normally. *)
Theorem failed_trial_is_retried_then_recorded {F : Type} {ops : Float64 F}
    {G : Type} {gen : Generator G} (g0 g1 g2 g3 : G) (d1 d2 d3 : list byte)
    (e1 e2 e3 : string) (testSize testRun : Z) (elapsed : nat -> Z)
    (now : Z) (tracker : part_002.ProgressTracker.t) :
  gen_GenerateBytes g0 testSize = (Return d1 (Some e1), g1) ->
  gen_GenerateBytes g1 testSize = (Return d2 (Some e2), g2) ->
  gen_GenerateBytes g2 testSize = (Return d3 (Some e3), g3) ->
  let result :=
    part_002.TestResult.mk
      (gen_Name g3) testRun 0 (float64 0) part_002.zero_Analysis
      (part_002.sample_filename (gen_Name g3) testRun) (Some e3) in
  let counted := part_002.increment (F := F) now tracker in
  part_002.runSingleTest g0 testSize testRun elapsed now tracker
  = Some ([part_002.Generate testSize;
           part_002.Sleep (100 * part_002.Millisecond);
           part_002.Generate testSize;
           part_002.Sleep (200 * part_002.Millisecond);
           part_002.Generate testSize;
           part_002.Send result] ++ snd counted,
          fst counted, g3)
  /\ part_002.ProgressTracker.completed (fst counted)
     = Go.wrap_int64 (part_002.ProgressTracker.completed tracker + 1).
Proof.
  intros H1 H2 H3 result counted. split; [| apply increment_completed].
  unfold part_002.runSingleTest.
  change (S (Z.to_nat part_002.maxRetries)) with 3%nat.
  cbn [part_002.retry_loop].
  change (0 <=? part_002.maxRetries) with true. cbv iota.
  rewrite (performanceTest_error g0 g1 d1 e1 testSize _ H1).
  change (0 <? part_002.maxRetries) with true. cbv iota.
  change (Go.wrap_int64 (0 + 1)) with 1.
  change (1 <=? part_002.maxRetries) with true. cbv iota.
  rewrite (performanceTest_error g1 g2 d2 e2 testSize _ H2).
  change (1 <? part_002.maxRetries) with true. cbv iota.
  change (Go.wrap_int64 (1 + 1)) with 2.
  change (2 <=? part_002.maxRetries) with true. cbv iota.
  rewrite (performanceTest_error g2 g3 d3 e3 testSize _ H3).
  change (2 <? part_002.maxRetries) with false. cbv iota.
  change (Go.wrap_int64 (2 + 1)) with 3.
  change (3 <=? part_002.maxRetries) with false. cbv iota.
  unfold part_002.deferred. cbn [part_002.err part_002.data
    part_002.duration part_002.throughput].
  fold result. fold counted.
  destruct counted as [tracker' printed]. reflexivity.
Qed.

Lemma failed_trial_is_retried_then_recorded_witness :
  (gen_GenerateBytes (sample.rand_down_after 0) 1024
   = (Return (Go.make_bytes 1024) (Some "entropy unavailable"%string),
      sample.rand_down_after 1)
   /\ gen_GenerateBytes (sample.rand_down_after 1) 1024
      = (Return (Go.make_bytes 1024) (Some "entropy unavailable"%string),
         sample.rand_down_after 2)
   /\ gen_GenerateBytes (sample.rand_down_after 2) 1024
      = (Return (Go.make_bytes 1024) (Some "entropy unavailable"%string),
         sample.rand_down_after 3))
  /\ forall (Log Erfc : float -> float),
       let ops := binary64.ops Log Erfc in
       part_002.runSingleTest sample.rand_down 1024 1 (fun _ => 0) 0
                              (part_002.ProgressTracker.mk 0 5 0)
       = Some ([part_002.Generate 1024;
                part_002.Sleep 100000000;
                part_002.Generate 1024;
                part_002.Sleep 200000000;
                part_002.Generate 1024;
                part_002.Send
                  (part_002.TestResult.mk
                     "Crypto CSPRNG" 1 0 0%float part_002.zero_Analysis
                     "output/crypto_csprng_sample_run1.bin"
                     (Some "entropy unavailable"%string))],
               part_002.ProgressTracker.mk 1 5 0, sample.rand_down_after 3).
Proof.
  split.
  - repeat split.
  - intros Log Erfc ops.
    destruct (failed_trial_is_retried_then_recorded
                (sample.rand_down_after 0) (sample.rand_down_after 1)
                (sample.rand_down_after 2) (sample.rand_down_after 3)
                (Go.make_bytes 1024) (Go.make_bytes 1024) (Go.make_bytes 1024)
                "entropy unavailable" "entropy unavailable"
                "entropy unavailable" 1024 1 (fun _ => 0) 0
                (part_002.ProgressTracker.mk 0 5 0))
      as [Hrun _]; [reflexivity | reflexivity | reflexivity |].
    exact Hrun.
Defined.

(** A first call that succeeds is not repeated. *)
Lemma successful_trial_runs_once {F : Type} {ops : Float64 F}
    {G : Type} {gen : Generator G} (g0 g1 : G) (d : list byte)
    (testSize testRun : Z) (elapsed : nat -> Z) (now : Z)
    (tracker : part_002.ProgressTracker.t) :
  gen_GenerateBytes g0 testSize = (Return d None, g1) ->
  exists saved result,
    part_002.runSingleTest g0 testSize testRun elapsed now tracker
    = Some (part_002.Generate testSize :: saved
              ++ part_002.Send result
              :: snd (part_002.increment (F := F) now tracker),
            fst (part_002.increment (F := F) now tracker), g1)
    /\ part_002.TestResult.Error result = None
    /\ part_002.TestResult.Analysis result = part_002.basicAnalysis d
    /\ saved = (if testRun <=? 10
                then [part_002.saveSample
                        d (part_002.sample_filename (gen_Name g1) testRun)
                        10000]
                else []).
Proof.
  intros Hcall. unfold part_002.runSingleTest.
  change (S (Z.to_nat part_002.maxRetries)) with 3%nat.
  cbn [part_002.retry_loop].
  change (0 <=? part_002.maxRetries) with true. cbv iota.
  unfold part_002.performanceTest. rewrite Hcall.
  cbn [part_002.err part_002.data]. unfold part_002.deferred.
  cbn [part_002.err part_002.data part_002.duration part_002.throughput].
  destruct (part_002.increment now tracker) as [tracker' printed].
  destruct (testRun <=? 10); eexists _, _;
    (split; [reflexivity | split; [reflexivity | split; reflexivity]]).
Qed.

(** A panic of the generator is recovered: no retry, and the trial is
    still sent and counted, with the panic as its error. *)
Lemma panicking_trial_is_recorded {F : Type} {ops : Float64 F}
    {G : Type} {gen : Generator G} (g0 g1 : G) (msg : string)
    (testSize testRun : Z) (elapsed : nat -> Z) (now : Z)
    (tracker : part_002.ProgressTracker.t) :
  gen_GenerateBytes g0 testSize = (Panic msg, g1) ->
  exists result,
    part_002.runSingleTest g0 testSize testRun elapsed now tracker
    = Some ([part_002.Generate testSize; part_002.Send result]
              ++ snd (part_002.increment (F := F) now tracker),
            fst (part_002.increment (F := F) now tracker), g1)
    /\ part_002.TestResult.Error result
       = Some ("panic occurred: " ++ msg)%string.
Proof.
  intros Hcall. unfold part_002.runSingleTest.
  change (S (Z.to_nat part_002.maxRetries)) with 3%nat.
  cbn [part_002.retry_loop].
  change (0 <=? part_002.maxRetries) with true. cbv iota.
  unfold part_002.performanceTest. rewrite Hcall.
  unfold part_002.deferred.
  cbn [part_002.err part_002.data part_002.duration part_002.throughput].
  destruct (part_002.increment now tracker) as [tracker' printed].
  eexists. split; reflexivity.
Qed.

(** A call that fails once and then succeeds costs one retry and one sleep
    of 100 ms. *)
Lemma second_attempt_succeeds {F : Type} {ops : Float64 F}
    {G : Type} {gen : Generator G} (g0 g1 g2 : G) (d1 d : list byte)
    (e1 : string) (testSize testRun : Z) (elapsed : nat -> Z) (now : Z)
    (tracker : part_002.ProgressTracker.t) :
  gen_GenerateBytes g0 testSize = (Return d1 (Some e1), g1) ->
  gen_GenerateBytes g1 testSize = (Return d None, g2) ->
  exists result,
    part_002.runSingleTest g0 testSize testRun elapsed now tracker
    = Some ([part_002.Generate testSize;
             part_002.Sleep (100 * part_002.Millisecond);
             part_002.Generate testSize]
              ++ (if testRun <=? 10
                  then [part_002.saveSample
                          d (part_002.sample_filename (gen_Name g2) testRun)
                          10000]
                  else [])
              ++ part_002.Send result
              :: snd (part_002.increment (F := F) now tracker),
            fst (part_002.increment (F := F) now tracker), g2)
    /\ part_002.TestResult.Error result = None
    /\ part_002.TestResult.Analysis result = part_002.basicAnalysis d.
Proof.
  intros H1 H2. unfold part_002.runSingleTest.
  change (S (Z.to_nat part_002.maxRetries)) with 3%nat.
  cbn [part_002.retry_loop].
  change (0 <=? part_002.maxRetries) with true. cbv iota.
  rewrite (performanceTest_error g0 g1 d1 e1 testSize _ H1).
  change (0 <? part_002.maxRetries) with true. cbv iota.
  change (Go.wrap_int64 (0 + 1)) with 1.
  change (1 <=? part_002.maxRetries) with true. cbv iota.
  unfold part_002.performanceTest. rewrite H2.
  cbn [part_002.err part_002.data]. unfold part_002.deferred.
  cbn [part_002.err part_002.data part_002.duration part_002.throughput].
  destruct (part_002.increment now tracker) as [tracker' printed].
  destruct (testRun <=? 10); eexists;
    (split; [reflexivity | split; reflexivity]).
Qed.

(** ** Aggregation *)

Lemma filter_length_le {A} (f : A -> bool) (l : list A) :
  (List.length (List.filter f l) <= List.length l)%nat.
Proof.
  induction l as [| x l IH]; simpl; [lia |].
  destruct (f x); simpl; lia.
Qed.

Lemma filter_none {A} (f : A -> bool) (l : list A) :
  (forall x, In x l -> f x = false) ->
  List.filter f l = [] /\ List.filter (fun x => negb (f x)) l = l.
Proof.
  induction l as [| x l IH]; intros Hall; [split; reflexivity |].
  simpl. rewrite (Hall x) by (left; reflexivity). simpl.
  destruct IH as [IH1 IH2].
  - intros y Hy. apply Hall. right. exact Hy.
  - split; [exact IH1 | f_equal; exact IH2].
Qed.

(** After the first loop, the entry of every name (or the fresh entry, when
    the name has none yet) carries the name and the three counts of its
    results, and a name has an entry as soon as it has a result. *)
Lemma tally_counts {F : Type} {ops : Float64 F}
    (results : list (part_002.TestResult.t F)) :
  Z.of_nat (List.length results) < 2 ^ 63 ->
  forall name,
    let m := fold_left part_002.tally results ∅ in
    let a := default (part_002.fresh name) (m !! name) in
    part_002.AggregatedResult.Name a = name
    /\ part_002.AggregatedResult.TotalTests a
       = Z.of_nat (List.length (named name results))
    /\ part_002.AggregatedResult.SuccessfulTests a
       = Z.of_nat (List.length (List.filter succeeded (named name results)))
    /\ part_002.AggregatedResult.FailedTests a
       = Z.of_nat (List.length (List.filter (fun r => negb (succeeded r))
                                       (named name results)))
    /\ (named name results <> [] -> is_Some (m !! name)).
Proof.
  induction results as [| r results IH] using rev_ind; intros Hlen name.
  - simpl. rewrite lookup_empty. simpl. repeat split; congruence.
  - rewrite List.length_app in Hlen. simpl List.length in Hlen.
    assert (Hlen' : Z.of_nat (List.length results) < 2 ^ 63) by lia.
    cbv zeta. rewrite fold_left_app. simpl fold_left.
    set (m := fold_left part_002.tally results ∅) in *.
    unfold named in *. rewrite List.filter_app. simpl List.filter.
    destruct (String.eqb (part_002.TestResult.Name r) name) eqn:Ename.
    + apply String.eqb_eq in Ename.
      destruct (IH Hlen' name) as (Hname & Htotal & Hok & Hfail & _).
      set (mine := List.filter
                     (fun r => String.eqb (part_002.TestResult.Name r) name)
                     results) in *.
      pose proof (filter_length_le
                    (fun r => String.eqb (part_002.TestResult.Name r) name)
                    results) as Hle.
      pose proof (filter_length_le succeeded mine) as Hle_ok.
      pose proof (filter_length_le (fun r => negb (succeeded r)) mine)
        as Hle_err.
      fold mine in Hle.
      unfold part_002.tally. rewrite Ename, lookup_insert_eq.
      set (a := default (part_002.fresh name) (m !! name)) in *.
      rewrite !List.filter_app, !List.length_app. cbn [List.filter default].
      destruct (part_002.TestResult.Error r) as [e |] eqn:Eerr.
      * assert (Hs : succeeded r = false)
          by (unfold succeeded; rewrite Eerr; reflexivity).
        rewrite Hs. cbn [negb List.length part_002.AggregatedResult.Name
          part_002.AggregatedResult.TotalTests
          part_002.AggregatedResult.SuccessfulTests
          part_002.AggregatedResult.FailedTests].
        rewrite Htotal, Hok, Hfail.
        rewrite !wrap_int64_small by lia.
        unfold Datatypes.id.
        cbn [part_002.AggregatedResult.Name
          part_002.AggregatedResult.TotalTests
          part_002.AggregatedResult.SuccessfulTests
          part_002.AggregatedResult.FailedTests].
        repeat split; try lia; eauto.
      * assert (Hs : succeeded r = true)
          by (unfold succeeded; rewrite Eerr; reflexivity).
        rewrite Hs. cbn [negb List.length part_002.AggregatedResult.Name
          part_002.AggregatedResult.TotalTests
          part_002.AggregatedResult.SuccessfulTests
          part_002.AggregatedResult.FailedTests].
        rewrite Htotal, Hok, Hfail.
        rewrite !wrap_int64_small by lia.
        unfold Datatypes.id.
        cbn [part_002.AggregatedResult.Name
          part_002.AggregatedResult.TotalTests
          part_002.AggregatedResult.SuccessfulTests
          part_002.AggregatedResult.FailedTests].
        repeat split; try lia; eauto.
    + apply String.eqb_neq in Ename.
      destruct (IH Hlen' name) as (Hname & Htotal & Hok & Hfail & Hsome).
      unfold part_002.tally. rewrite lookup_insert_ne by exact Ename.
      rewrite !app_nil_r. repeat split; assumption.
Qed.

(** C9: a generator all of whose results carry an error still has its
    entry after aggregation, with every result counted as a test, no
    success and as many failures as tests; the averages of the second loop
    are skipped for it, so nothing is divided. *)
Theorem all_failed_generator_is_reported {F : Type} {ops : Float64 F}
    (results : list (part_002.TestResult.t F)) (G : string) :
  Z.of_nat (List.length results) < 2 ^ 63 ->
  (exists r, In r results /\ part_002.TestResult.Name r = G) ->
  (forall r, In r results -> part_002.TestResult.Name r = G ->
             part_002.TestResult.Error r <> None) ->
  exists agg,
    part_002.aggregateResults results !! G = Some agg
    /\ part_002.AggregatedResult.Name agg = G
    /\ part_002.AggregatedResult.TotalTests agg
       = Z.of_nat (List.length (named G results))
    /\ 0 < part_002.AggregatedResult.TotalTests agg
    /\ part_002.AggregatedResult.SuccessfulTests agg = 0
    /\ part_002.AggregatedResult.FailedTests agg
       = part_002.AggregatedResult.TotalTests agg
    /\ part_002.average results G agg = agg.
Proof.
  intros Hlen (r0 & Hin0 & Hname0) Hfail.
  assert (Hnamed : named G results <> []).
  { intros Hnil.
    assert (Hin : In r0 (named G results)).
    { unfold named. apply filter_In. split; [exact Hin0 |].
      apply String.eqb_eq. exact Hname0. }
    rewrite Hnil in Hin. exact Hin. }
  destruct (filter_none succeeded (named G results)) as [Hnone Hall].
  { unfold named. intros r Hr. apply filter_In in Hr as [Hr Heq].
    apply String.eqb_eq in Heq. specialize (Hfail r Hr Heq).
    unfold succeeded. destruct (part_002.TestResult.Error r); congruence. }
  destruct (tally_counts results Hlen G) as (Hn & Ht & Hok & Hf & Hsome).
  destruct (Hsome Hnamed) as [agg Hagg].
  rewrite Hagg in Hn, Ht, Hok, Hf. simpl in Hn, Ht, Hok, Hf.
  rewrite Hnone in Hok. rewrite Hall in Hf. simpl in Hok.
  assert (Havg : part_002.average results G agg = agg).
  { unfold part_002.average. rewrite Hok. reflexivity. }
  exists agg. split.
  - unfold part_002.aggregateResults. rewrite map_lookup_imap, Hagg.
    simpl. rewrite Havg. reflexivity.
  - repeat split; auto; try lia.
    rewrite Ht. destruct (named G results); [congruence | simpl; lia].
Qed.

Lemma all_failed_generator_is_reported_witness :
  (Z.of_nat (List.length sample_results.results) < 2 ^ 63
   /\ (exists r, In r sample_results.results
                 /\ part_002.TestResult.Name r = "Crypto CSPRNG"%string)
   /\ (forall r, In r sample_results.results ->
                 part_002.TestResult.Name r = "Crypto CSPRNG"%string ->
                 part_002.TestResult.Error r <> None))
  /\ forall Log Erfc : float -> float,
       let ops := binary64.ops Log Erfc in
       exists agg,
         part_002.aggregateResults sample_results.results
           !! "Crypto CSPRNG"%string = Some agg
         /\ part_002.AggregatedResult.TotalTests agg = 2
         /\ part_002.AggregatedResult.SuccessfulTests agg = 0
         /\ part_002.AggregatedResult.FailedTests agg = 2.
Proof.
  assert (H1 : Z.of_nat (List.length sample_results.results) < 2 ^ 63)
    by (simpl; lia).
  assert (H2 : exists r, In r sample_results.results
                         /\ part_002.TestResult.Name r
                            = "Crypto CSPRNG"%string).
  { exists (sample_results.failed_run 1). split; [left |]; reflexivity. }
  assert (H3 : forall r, In r sample_results.results ->
                         part_002.TestResult.Name r = "Crypto CSPRNG"%string ->
                         part_002.TestResult.Error r <> None).
  { intros r [<- | [<- | [<- | []]]] Hname; simpl in *; discriminate. }
  split; [auto |].
  intros Log Erfc ops.
  destruct (all_failed_generator_is_reported
              sample_results.results "Crypto CSPRNG" H1 H2 H3)
    as (agg & Hagg & _ & Ht & _ & Hok & Hf & _).
  exists agg. split; [exact Hagg |]. split; [exact Ht |].
  split; [exact Hok |]. rewrite Hf. exact Ht.
Defined.

(** * Further properties of the code *)

(** ** The output as a stream of blocks *)

Lemma copy_at_extend (dst : list byte) (off : nat) (src : list byte) :
  (off + List.length src <= List.length dst)%nat ->
  firstn (off + List.length src) (Go.copy_at dst off src)
  = firstn off dst ++ src.
Proof.
  intros Hfit. unfold Go.copy_at.
  replace (Nat.min (List.length dst - off) (List.length src))
    with (List.length src) by lia.
  rewrite firstn_all, app_assoc.
  rewrite firstn_app.
  assert (Hl : List.length (firstn off dst ++ src)
               = (off + List.length src)%nat).
  { rewrite List.length_app, List.length_firstn. lia. }
  rewrite Hl, Nat.sub_diag. simpl. rewrite app_nil_r.
  rewrite <- Hl. apply firstn_all.
Qed.

Lemma blocks_for_nonneg (n : Z) : 0 <= n -> 0 <= blocks_for n.
Proof. intros Hn. unfold blocks_for. apply Z.div_pos; lia. Qed.

Lemma block_of_length (st : list byte) (ctr : Z) :
  List.length (block_of st ctr) = 32%nat.
Proof. apply hmac_Sum_length. Qed.

(** What one more block contributes to the first [r] bytes. *)
Lemma firstn_block_app (block rest : list byte) (r : Z) :
  List.length block = 32%nat ->
  0 < r ->
  firstn (Z.to_nat r) (block ++ rest)
  = firstn (Z.to_nat (min 32 r)) block
    ++ firstn (Z.to_nat (r - min 32 r)) rest.
Proof.
  intros Hb Hr. rewrite firstn_app, Hb. unfold min.
  destruct (32 <? r) eqn:E.
  - apply Z.ltb_lt in E. f_equal.
    + rewrite !firstn_all2 by lia. reflexivity.
    + f_equal. lia.
  - apply Z.ltb_ge in E. f_equal.
    replace (Z.to_nat r - 32)%nat with 0%nat by lia.
    replace (Z.to_nat (r - r)) with 0%nat by lia. reflexivity.
Qed.

(** The loop with one key per call writes, after what is already there,
    the first missing bytes of the stream of blocks. *)
Lemma fixed_key_loop_content (fuel : nat) :
  forall (st : list byte) (numBytes : Z) (result : list byte)
         (generated ctr : Z),
    0 <= generated <= numBytes ->
    (Z.to_nat (numBytes - generated) <= fuel)%nat ->
    List.length result = Z.to_nat numBytes ->
    crypto_csprng.generate_loop fuel st numBytes result generated ctr
    = Some (firstn (Z.to_nat generated) result
              ++ firstn (Z.to_nat (numBytes - generated))
                        (fixed_key_stream
                           st ctr
                           (Z.to_nat (blocks_for (numBytes - generated)))),
            if generated <? numBytes
            then Go.wrap_uint64 (ctr + blocks_for (numBytes - generated))
            else ctr).
Proof.
  induction fuel as [| fuel IH]; intros st numBytes result generated ctr
    Hgen Hfuel Hlen.
  - assert (generated = numBytes) by lia. subst generated.
    simpl. rewrite Z.ltb_irrefl, Z.sub_diag. simpl.
    rewrite app_nil_r, firstn_all2 by lia. reflexivity.
  - simpl. destruct (generated <? numBytes) eqn:Elt.
    2:{ apply Z.ltb_ge in Elt. assert (generated = numBytes) by lia.
        subst generated. rewrite Z.sub_diag. simpl.
        rewrite app_nil_r, firstn_all2 by lia. reflexivity. }
    apply Z.ltb_lt in Elt.
    rewrite hmac_Sum_len.
    fold (block_of st ctr).
    set (toCopy := if numBytes - generated <? 32 then numBytes - generated
                   else 32).
    assert (HtoCopy : toCopy = min 32 (numBytes - generated)).
    { unfold toCopy, min.
      destruct (numBytes - generated <? 32) eqn:E1;
        destruct (32 <? numBytes - generated) eqn:E2; lia. }
    assert (Hpos : 0 < toCopy <= numBytes - generated /\ toCopy <= 32).
    { unfold toCopy. destruct (numBytes - generated <? 32) eqn:E1; lia. }
    pose proof (block_of_length st ctr) as Hblock.
    set (piece := firstn (Z.to_nat toCopy) (block_of st ctr)).
    assert (Hpiece : List.length piece = Z.to_nat toCopy).
    { unfold piece. rewrite List.length_firstn, Hblock. lia. }
    set (result1 := Go.copy_at result (Z.to_nat generated) piece).
    assert (Hlen1 : List.length result1 = Z.to_nat numBytes).
    { unfold result1. now rewrite copy_at_length. }
    rewrite (IH st numBytes result1 (generated + toCopy)
                (Go.wrap_uint64 (ctr + 1))) by lia.
    assert (Hstep : blocks_for (numBytes - generated)
                    = 1 + blocks_for (numBytes - generated - toCopy)).
    { rewrite HtoCopy. apply blocks_for_step. lia. }
    pose proof (blocks_for_nonneg (numBytes - generated - toCopy)) as Hnn.
    replace (numBytes - (generated + toCopy))
      with (numBytes - generated - toCopy) by lia.
    f_equal. f_equal.
    + rewrite Hstep.
      replace (Z.to_nat (1 + blocks_for (numBytes - generated - toCopy)))
        with (S (Z.to_nat (blocks_for (numBytes - generated - toCopy))))
        by lia.
      cbn [fixed_key_stream].
      rewrite firstn_block_app by (exact Hblock || lia).
      rewrite <- HtoCopy. fold piece.
      rewrite app_assoc. f_equal.
      replace (Z.to_nat (generated + toCopy))
        with (Z.to_nat generated + List.length piece)%nat by lia.
      unfold result1. apply copy_at_extend. lia.
    + rewrite Hstep.
      destruct (generated + toCopy <? numBytes) eqn:E.
      * apply wrap_uint64_succ.
      * apply Z.ltb_ge in E.
        replace (numBytes - generated - toCopy) with 0 by lia.
        reflexivity.
Qed.

Lemma fixed_key_stream_length (st : list byte) (k : nat) :
  forall ctr, List.length (fixed_key_stream st ctr k) = (32 * k)%nat.
Proof.
  induction k as [| k IH]; intros ctr; [reflexivity |].
  cbn [fixed_key_stream]. rewrite List.length_app, block_of_length, IH. lia.
Qed.

(** A longer stream starts with the shorter one. *)
Lemma fixed_key_stream_prefix (st : list byte) (k j : nat) :
  forall ctr,
    firstn (32 * k) (fixed_key_stream st ctr (k + j))
    = fixed_key_stream st ctr k.
Proof.
  induction k as [| k IH]; intros ctr; [reflexivity |].
  cbn [Nat.add fixed_key_stream].
  replace (32 * S k)%nat with (32 + 32 * k)%nat by lia.
  rewrite firstn_app, block_of_length.
  rewrite firstn_all2 by (rewrite block_of_length; lia).
  f_equal. replace (32 + 32 * k - 32)%nat with (32 * k)%nat by lia.
  apply IH.
Qed.

Lemma blocks_for_cover (n : Z) : 0 <= n -> n <= 32 * blocks_for n.
Proof.
  intros Hn. unfold blocks_for.
  pose proof (Z.div_mod (n + 31) 32) as Hdm.
  pose proof (Z.mod_pos_bound (n + 31) 32) as Hm. lia.
Qed.

Lemma blocks_for_mono (n m : Z) :
  0 <= n <= m -> blocks_for n <= blocks_for m.
Proof. intros H. unfold blocks_for. apply Z.div_le_mono; lia. Qed.

(** The first [n] bytes of the stream do not depend on how many blocks,
    beyond those that [n] bytes take, are produced. *)
Lemma fixed_key_stream_firstn (st : list byte) (ctr n m : Z) :
  0 <= n <= m ->
  firstn (Z.to_nat n)
         (fixed_key_stream st ctr (Z.to_nat (blocks_for m)))
  = firstn (Z.to_nat n)
           (fixed_key_stream st ctr (Z.to_nat (blocks_for n))).
Proof.
  intros Hnm.
  pose proof (blocks_for_mono n m Hnm) as Hmono.
  pose proof (blocks_for_nonneg n) as Hnn.
  pose proof (blocks_for_cover n) as Hcover.
  set (k := Z.to_nat (blocks_for n)).
  replace (Z.to_nat (blocks_for m))
    with (k + (Z.to_nat (blocks_for m) - k))%nat by (unfold k; lia).
  rewrite <- (fixed_key_stream_prefix st k
                (Z.to_nat (blocks_for m) - k) ctr) at 1.
  rewrite firstn_firstn. f_equal. unfold k. lia.
Qed.

Lemma rekey_length (st : list byte) (ctr : Z) :
  List.length (rekey st ctr) = 32%nat.
Proof. apply hmac_Sum_length. Qed.

Lemma rekey_after_length (k : nat) :
  forall st ctr,
    List.length st = 32%nat ->
    List.length (rekey_after st ctr k) = 32%nat.
Proof.
  induction k as [| k IH]; intros st ctr Hst; [exact Hst |].
  cbn [rekey_after]. apply IH, rekey_length.
Qed.

(** The loop that replaces the key after every block: the bytes, the key
    it ends with and the blocks it reports. *)
Lemma rekey_loop_content (fuel : nat) :
  forall (st : list byte) (numBytes : Z) (result : list byte)
         (generated ctr : Z) (tr : list event),
    0 <= generated <= numBytes ->
    (Z.to_nat (numBytes - generated) <= fuel)%nat ->
    List.length result = Z.to_nat numBytes ->
    let k := Z.to_nat (blocks_for (numBytes - generated)) in
    weather_prng.generate_loop fuel st numBytes result generated ctr tr
    = Some (firstn (Z.to_nat generated) result
              ++ firstn (Z.to_nat (numBytes - generated))
                        (rekey_stream st ctr k),
            rekey_after st ctr k,
            if generated <? numBytes
            then Go.wrap_uint64 (ctr + blocks_for (numBytes - generated))
            else ctr,
            tr ++ block_events ctr k).
Proof.
  induction fuel as [| fuel IH]; intros st numBytes result generated ctr tr
    Hgen Hfuel Hlen k.
  - assert (generated = numBytes) by lia. subst generated. subst k.
    simpl. rewrite Z.ltb_irrefl, Z.sub_diag. simpl.
    rewrite !app_nil_r, firstn_all2 by lia. reflexivity.
  - simpl weather_prng.generate_loop.
    destruct (generated <? numBytes) eqn:Elt.
    2:{ apply Z.ltb_ge in Elt. assert (generated = numBytes) by lia.
        subst generated. subst k. rewrite Z.sub_diag. simpl.
        rewrite !app_nil_r, firstn_all2 by lia. reflexivity. }
    apply Z.ltb_lt in Elt.
    rewrite hmac_Sum_len.
    fold (block_of st ctr). fold (rekey st ctr).
    set (toCopy := min 32 (numBytes - generated)).
    assert (Hpos : 0 < toCopy <= numBytes - generated /\ toCopy <= 32).
    { unfold toCopy, min. destruct (32 <? numBytes - generated) eqn:E1; lia. }
    pose proof (block_of_length st ctr) as Hblock.
    set (piece := firstn (Z.to_nat toCopy) (block_of st ctr)).
    assert (Hpiece : List.length piece = Z.to_nat toCopy).
    { unfold piece. rewrite List.length_firstn, Hblock. lia. }
    set (result1 := Go.copy_at result (Z.to_nat generated) piece).
    assert (Hlen1 : List.length result1 = Z.to_nat numBytes).
    { unfold result1. now rewrite copy_at_length. }
    rewrite (IH (rekey st ctr) numBytes result1 (generated + toCopy)
                (Go.wrap_uint64 (ctr + 1)) (tr ++ [EvBlock ctr])) by lia.
    assert (Hstep : blocks_for (numBytes - generated)
                    = 1 + blocks_for (numBytes - generated - toCopy)).
    { apply blocks_for_step. lia. }
    pose proof (blocks_for_nonneg (numBytes - generated - toCopy)) as Hnn.
    replace (numBytes - (generated + toCopy))
      with (numBytes - generated - toCopy) by lia.
    assert (Hk : k = S (Z.to_nat (blocks_for (numBytes - generated
                                              - toCopy)))).
    { unfold k. rewrite Hstep. lia. }
    rewrite Hk. cbn [rekey_stream rekey_after block_events].
    apply f_equal.
    apply (f_equal2 pair);
      [apply (f_equal2 pair); [apply (f_equal2 pair); [| reflexivity] |] |].
    + rewrite firstn_block_app by (exact Hblock || lia).
      fold toCopy. fold piece.
      rewrite app_assoc. f_equal.
      replace (Z.to_nat (generated + toCopy))
        with (Z.to_nat generated + List.length piece)%nat by lia.
      unfold result1. apply copy_at_extend. lia.
    + rewrite Hstep.
      destruct (generated + toCopy <? numBytes) eqn:E.
      * apply wrap_uint64_succ.
      * apply Z.ltb_ge in E.
        replace (numBytes - generated - toCopy) with 0 by lia.
        reflexivity.
    + rewrite <- app_assoc. reflexivity.
Qed.

Lemma rekey_stream_length (k : nat) :
  forall st ctr, List.length (rekey_stream st ctr k) = (32 * k)%nat.
Proof.
  induction k as [| k IH]; intros st ctr; [reflexivity |].
  cbn [rekey_stream]. rewrite List.length_app, block_of_length, IH. lia.
Qed.

Lemma rekey_stream_prefix (k j : nat) :
  forall st ctr,
    firstn (32 * k) (rekey_stream st ctr (k + j)) = rekey_stream st ctr k.
Proof.
  induction k as [| k IH]; intros st ctr; [reflexivity |].
  cbn [Nat.add rekey_stream].
  replace (32 * S k)%nat with (32 + 32 * k)%nat by lia.
  rewrite firstn_app, block_of_length.
  rewrite firstn_all2 by (rewrite block_of_length; lia).
  f_equal. replace (32 + 32 * k - 32)%nat with (32 * k)%nat by lia.
  apply IH.
Qed.

Lemma rekey_stream_firstn (st : list byte) (ctr n m : Z) :
  0 <= n <= m ->
  firstn (Z.to_nat n) (rekey_stream st ctr (Z.to_nat (blocks_for m)))
  = firstn (Z.to_nat n) (rekey_stream st ctr (Z.to_nat (blocks_for n))).
Proof.
  intros Hnm.
  pose proof (blocks_for_mono n m Hnm) as Hmono.
  pose proof (blocks_for_nonneg n) as Hnn.
  pose proof (blocks_for_cover n) as Hcover.
  set (k := Z.to_nat (blocks_for n)).
  replace (Z.to_nat (blocks_for m))
    with (k + (Z.to_nat (blocks_for m) - k))%nat by (unfold k; lia).
  rewrite <- (rekey_stream_prefix k (Z.to_nat (blocks_for m) - k) st ctr)
    at 1.
  rewrite firstn_firstn. f_equal. unfold k. lia.
Qed.

Lemma block_events_no_reseed (k : nat) :
  forall ctr, Forall (fun e => e <> EvReseed) (block_events ctr k).
Proof.
  induction k as [| k IH]; intros ctr; constructor;
    [discriminate | apply IH].
Qed.

(** A whole call of each loop on the fresh buffer. *)
Lemma fixed_key_run_content (st : list byte) (n ctr : Z) :
  0 <= n ->
  crypto_csprng.generate_loop (Z.to_nat n) st n (Go.make_bytes n) 0 ctr
  = Some (firstn (Z.to_nat n)
                 (fixed_key_stream st ctr (Z.to_nat (blocks_for n))),
          if 0 <? n then Go.wrap_uint64 (ctr + blocks_for n) else ctr).
Proof.
  intros Hn.
  rewrite (fixed_key_loop_content (Z.to_nat n) st n (Go.make_bytes n) 0 ctr)
    by (rewrite ?make_bytes_length; lia).
  rewrite Z.sub_0_r. reflexivity.
Qed.

Lemma rekey_run_content (st : list byte) (n ctr : Z) (tr : list event) :
  0 <= n ->
  weather_prng.generate_loop (Z.to_nat n) st n (Go.make_bytes n) 0 ctr tr
  = Some (firstn (Z.to_nat n)
                 (rekey_stream st ctr (Z.to_nat (blocks_for n))),
          rekey_after st ctr (Z.to_nat (blocks_for n)),
          if 0 <? n then Go.wrap_uint64 (ctr + blocks_for n) else ctr,
          tr ++ block_events ctr (Z.to_nat (blocks_for n))).
Proof.
  intros Hn.
  rewrite (rekey_loop_content (Z.to_nat n) st n (Go.make_bytes n) 0 ctr tr)
    by (rewrite ?make_bytes_length; lia).
  rewrite Z.sub_0_r. reflexivity.
Qed.

Lemma firstn_stream_len_fixed (st : list byte) (ctr n : Z) :
  0 <= n ->
  Go.len (firstn (Z.to_nat n)
                 (fixed_key_stream st ctr (Z.to_nat (blocks_for n)))) = n.
Proof.
  intros Hn. unfold Go.len.
  rewrite List.length_firstn, fixed_key_stream_length.
  pose proof (blocks_for_cover n Hn). pose proof (blocks_for_nonneg n Hn).
  lia.
Qed.

Lemma firstn_stream_len_rekey (st : list byte) (ctr n : Z) :
  0 <= n ->
  Go.len (firstn (Z.to_nat n)
                 (rekey_stream st ctr (Z.to_nat (blocks_for n)))) = n.
Proof.
  intros Hn. unfold Go.len.
  rewrite List.length_firstn, rekey_stream_length.
  pose proof (blocks_for_cover n Hn). pose proof (blocks_for_nonneg n Hn).
  lia.
Qed.

(** What a call of hybrid_prng.go's [GenerateBytes] returns. *)
Lemma hybrid_prng_GenerateBytes_output (h : hybrid_prng.HybridCSPRNG)
    (n : Z) :
  0 <= n ->
  exists h',
    hybrid_prng.GenerateBytes h n
    = (Return (firstn (Z.to_nat n)
                      (fixed_key_stream (hybrid_prng.state h)
                                        (hybrid_prng.counter h)
                                        (Z.to_nat (blocks_for n))))
              None, h').
Proof.
  intros Hn. unfold hybrid_prng.GenerateBytes.
  replace (n <? 0) with false by (symmetry; apply Z.ltb_ge; lia).
  rewrite hybrid_loop_eq, fixed_key_run_content by lia.
  unfold slice_to. rewrite firstn_stream_len_fixed by lia.
  replace ((0 <=? min 32 n) && (min 32 n <=? n)) with true.
  - eauto.
  - symmetry. apply andb_true_iff. unfold min.
    destruct (32 <? n) eqn:E; split; apply Z.leb_le; lia.
Qed.

(** One call of weather_prng.go's [GenerateBytes]: [w0] is the generator
    the loop starts from, after the reseed if one was due. *)
Lemma weather_prng_GenerateBytes_content (clock : Z)
    (io : weather_prng.reseed_io) (w : weather_prng.WeatherCSPRNG) (n : Z) :
  0 <= n ->
  let w0 := if weather_prng.needs_reseed clock w
            then weather_prng.reseed io w else w in
  let k := Z.to_nat (blocks_for n) in
  weather_prng.GenerateBytes clock io w n
  = (Return (firstn (Z.to_nat n)
                    (rekey_stream (weather_prng.state w0)
                                  (weather_prng.counter w0) k))
            None,
     weather_prng.mkWeather
       (rekey_after (weather_prng.state w0) (weather_prng.counter w0) k)
       (if 0 <? n
        then Go.wrap_uint64 (weather_prng.counter w0 + blocks_for n)
        else weather_prng.counter w0)
       (Go.wrap_int64 (weather_prng.bytesGenerated w0 + n))
       (weather_prng.lastReseed w0),
     (if weather_prng.needs_reseed clock w then [EvReseed] else [])
       ++ block_events (weather_prng.counter w0) k).
Proof.
  intros Hn w0 k. unfold weather_prng.GenerateBytes.
  replace (if weather_prng.needs_reseed clock w
           then (weather_prng.reseed io w, [EvReseed]) else (w, []))
    with (w0, if weather_prng.needs_reseed clock w
              then [EvReseed] else [])
    by (unfold w0; destruct (weather_prng.needs_reseed clock w);
        reflexivity).
  replace (n <? 0) with false by (symmetry; apply Z.ltb_ge; lia).
  rewrite rekey_run_content by lia. reflexivity.
Qed.

(** ** What the generators write *)

(** X1: hybrid_prng.go, [GenerateBytes]: every request of [n >= 0] bytes is
    served with the first [n] bytes of the blocks
    HMAC(state, counter), HMAC(state, counter + 1), ..., all under the key
    the call started with; the counter advances by the number of blocks
    and the new key is HMAC(state, "update" ++ the first 32 bytes of the
    output), or all of the output when it is shorter. *)
Theorem hybrid_output_is_block_stream (h : hybrid_prng.HybridCSPRNG)
    (n : Z) :
  0 <= n ->
  let out :=
    firstn (Z.to_nat n)
           (fixed_key_stream (hybrid_prng.state h) (hybrid_prng.counter h)
                             (Z.to_nat (blocks_for n))) in
  hybrid_prng.GenerateBytes h n
  = (Return out None,
     hybrid_prng.mkHybrid
       (hmac.Sum
          (hmac.Write
             (hmac.Write (hmac.New (hybrid_prng.state h))
                         (Go.bytes_of_string "update"))
             (firstn 32 out)))
       (if 0 <? n
        then Go.wrap_uint64 (hybrid_prng.counter h + blocks_for n)
        else hybrid_prng.counter h))
  /\ Go.len out = n.
Proof.
  intros Hn out.
  assert (Hlen : Go.len out = n) by (apply firstn_stream_len_fixed; lia).
  split; [| exact Hlen].
  unfold hybrid_prng.GenerateBytes.
  replace (n <? 0) with false by (symmetry; apply Z.ltb_ge; lia).
  rewrite hybrid_loop_eq, fixed_key_run_content by lia.
  fold out. unfold slice_to. rewrite Hlen.
  replace ((0 <=? min 32 n) && (min 32 n <=? n)) with true.
  2:{ symmetry. apply andb_true_iff. unfold min.
      destruct (32 <? n) eqn:E; split; apply Z.leb_le; lia. }
  replace (firstn (Z.to_nat (min 32 n)) out) with (firstn 32 out);
    [reflexivity |].
  unfold min. destruct (32 <? n) eqn:E; [reflexivity |].
  apply Z.ltb_ge in E. unfold Go.len in Hlen.
  rewrite !firstn_all2 by lia. reflexivity.
Qed.

Lemma hybrid_output_is_block_stream_witness :
  0 <= 40
  /\ let h := hybrid_prng.mkHybrid sample.seed 7 in
     let out := firstn 40 (fixed_key_stream sample.seed 7 2) in
     hybrid_prng.GenerateBytes h 40
     = (Return out None,
        hybrid_prng.mkHybrid
          (hmac.Sum
             (hmac.Write
                (hmac.Write (hmac.New sample.seed)
                            (Go.bytes_of_string "update"))
                (firstn 32 out)))
          (Go.wrap_uint64 (7 + 2)))
     /\ Go.len out = 40.
Proof.
  split; [lia |].
  apply (hybrid_output_is_block_stream
           (hybrid_prng.mkHybrid sample.seed 7) 40).
  lia.
Defined.

(** X3: crypto_csprng.go (WeatherCSPRNG), multEntropy_prng.go and
    hybrid_prng.go: started with the same key and counter and asked for
    the same [n >= 32] bytes, the three generators return the same bytes
    and are left with the same key and counter. *)
Theorem fixed_key_generators_agree (st : list byte) (ctr n : Z) :
  32 <= n ->
  exists out st' ctr',
    crypto_csprng.GenerateBytes (crypto_csprng.mkWeather st ctr) n
    = (Return out None, crypto_csprng.mkWeather st' ctr')
    /\ multEntropy_prng.GenerateBytes (multEntropy_prng.mkMult st ctr) n
       = (Return out None, multEntropy_prng.mkMult st' ctr')
    /\ hybrid_prng.GenerateBytes (hybrid_prng.mkHybrid st ctr) n
       = (Return out None, hybrid_prng.mkHybrid st' ctr')
    /\ out = firstn (Z.to_nat n)
                    (fixed_key_stream st ctr (Z.to_nat (blocks_for n)))
    /\ ctr' = Go.wrap_uint64 (ctr + blocks_for n).
Proof.
  intros Hn.
  set (out := firstn (Z.to_nat n)
                     (fixed_key_stream st ctr (Z.to_nat (blocks_for n)))).
  assert (Hlen : Go.len out = n) by (apply firstn_stream_len_fixed; lia).
  exists out,
    (hmac.Sum (hmac.Write (hmac.Write (hmac.New st)
                                      (Go.bytes_of_string "update"))
                          (firstn 32 out))),
    (Go.wrap_uint64 (ctr + blocks_for n)).
  assert (Hpos : (0 <? n) = true) by (apply Z.ltb_lt; lia).
  assert (Hneg : (n <? 0) = false) by (apply Z.ltb_ge; lia).
  assert (Hslice : slice_to out 32 = Some (firstn 32 out)).
  { unfold slice_to. rewrite Hlen.
    replace (32 <=? n) with true by (symmetry; apply Z.leb_le; lia).
    reflexivity. }
  repeat split.
  - unfold crypto_csprng.GenerateBytes. cbn [crypto_csprng.state
      crypto_csprng.counter]. rewrite Hneg.
    rewrite fixed_key_run_content by lia. fold out.
    rewrite Hslice, Hpos. reflexivity.
  - unfold multEntropy_prng.GenerateBytes. cbn [multEntropy_prng.state
      multEntropy_prng.counter]. rewrite Hneg.
    rewrite multEntropy_loop_eq, fixed_key_run_content by lia. fold out.
    rewrite Hslice, Hpos. reflexivity.
  - unfold hybrid_prng.GenerateBytes. cbn [hybrid_prng.state
      hybrid_prng.counter]. rewrite Hneg.
    rewrite hybrid_loop_eq, fixed_key_run_content by lia. fold out.
    unfold slice_to. rewrite Hlen.
    replace (min 32 n) with 32
      by (unfold min; destruct (32 <? n) eqn:E;
          [reflexivity | apply Z.ltb_ge in E; lia]).
    replace ((0 <=? 32) && (32 <=? n)) with true
      by (symmetry; apply andb_true_iff; split; apply Z.leb_le; lia).
    rewrite Hpos. reflexivity.
Qed.

Lemma fixed_key_generators_agree_witness :
  32 <= 33
  /\ exists out st' ctr',
       crypto_csprng.GenerateBytes
         (crypto_csprng.mkWeather sample.seed 0) 33
       = (Return out None, crypto_csprng.mkWeather st' ctr')
       /\ multEntropy_prng.GenerateBytes
            (multEntropy_prng.mkMult sample.seed 0) 33
          = (Return out None, multEntropy_prng.mkMult st' ctr')
       /\ hybrid_prng.GenerateBytes (hybrid_prng.mkHybrid sample.seed 0) 33
          = (Return out None, hybrid_prng.mkHybrid st' ctr')
       /\ out = firstn (Z.to_nat 33)
                       (fixed_key_stream sample.seed 0
                                         (Z.to_nat (blocks_for 33)))
       /\ ctr' = Go.wrap_uint64 (0 + blocks_for 33).
Proof.
  split; [lia |].
  apply (fixed_key_generators_agree sample.seed 0 33). lia.
Defined.

(** X2: hybrid_prng.go, [GenerateBytes]: from one and the same state, a
    shorter request returns the beginning of what a longer request
    returns. *)
Theorem hybrid_shorter_request_is_prefix (h : hybrid_prng.HybridCSPRNG)
    (n m : Z) :
  0 <= n <= m ->
  exists a b ha hb,
    hybrid_prng.GenerateBytes h n = (Return a None, ha)
    /\ hybrid_prng.GenerateBytes h m = (Return b None, hb)
    /\ a = firstn (Z.to_nat n) b.
Proof.
  intros Hnm.
  destruct (hybrid_prng_GenerateBytes_output h n) as [ha Hn]; [lia |].
  destruct (hybrid_prng_GenerateBytes_output h m) as [hb Hm]; [lia |].
  eexists _, _, _, _. split; [exact Hn |]. split; [exact Hm |].
  rewrite firstn_firstn.
  replace (Nat.min (Z.to_nat n) (Z.to_nat m)) with (Z.to_nat n) by lia.
  symmetry. apply fixed_key_stream_firstn. lia.
Qed.

Lemma hybrid_shorter_request_is_prefix_witness :
  0 <= 5 <= 70
  /\ exists a b ha hb,
       hybrid_prng.GenerateBytes (hybrid_prng.mkHybrid sample.seed 0) 5
       = (Return a None, ha)
       /\ hybrid_prng.GenerateBytes (hybrid_prng.mkHybrid sample.seed 0) 70
          = (Return b None, hb)
       /\ a = firstn (Z.to_nat 5) b.
Proof.
  split; [lia |].
  apply (hybrid_shorter_request_is_prefix
           (hybrid_prng.mkHybrid sample.seed 0) 5 70).
  lia.
Defined.

(** X4: weather_prng.go, [GenerateBytes]: after the reseed, if one is due,
    a request of [n >= 0] bytes returns the first [n] bytes of the blocks
    HMAC(key_i, counter + i), where each key is HMAC(previous key,
    previous block); the generator keeps the key that follows the last
    block, and the blocks are keyed with consecutive counter values. *)
Theorem weather_output_is_rekeyed_stream (clock : Z)
    (io : weather_prng.reseed_io) (w : weather_prng.WeatherCSPRNG) (n : Z) :
  0 <= n ->
  let w0 := if weather_prng.needs_reseed clock w
            then weather_prng.reseed io w else w in
  let k := Z.to_nat (blocks_for n) in
  weather_prng.GenerateBytes clock io w n
  = (Return (firstn (Z.to_nat n)
                    (rekey_stream (weather_prng.state w0)
                                  (weather_prng.counter w) k))
            None,
     weather_prng.mkWeather
       (rekey_after (weather_prng.state w0) (weather_prng.counter w) k)
       (if 0 <? n
        then Go.wrap_uint64 (weather_prng.counter w + blocks_for n)
        else weather_prng.counter w)
       (Go.wrap_int64 (weather_prng.bytesGenerated w0 + n))
       (weather_prng.lastReseed w0),
     (if weather_prng.needs_reseed clock w then [EvReseed] else [])
       ++ block_events (weather_prng.counter w) k).
Proof.
  intros Hn w0 k.
  pose proof (weather_prng_GenerateBytes_content clock io w n Hn) as Hrun.
  cbv zeta in Hrun. fold w0 k in Hrun.
  assert (Hctr : weather_prng.counter w0 = weather_prng.counter w).
  { unfold w0. destruct (weather_prng.needs_reseed clock w); reflexivity. }
  rewrite Hctr in Hrun. exact Hrun.
Qed.

Lemma weather_output_is_rekeyed_stream_witness :
  0 <= 70
  /\ weather_prng.GenerateBytes 0 sample.weather_down sample.fresh 70
     = (Return (firstn 70 (rekey_stream
                             (weather_prng.state sample.fresh) 0 3))
               None,
        weather_prng.mkWeather
          (rekey_after (weather_prng.state sample.fresh) 0 3)
          3 70 (weather_prng.lastReseed sample.fresh),
        [EvBlock 0; EvBlock 1; EvBlock 2]).
Proof.
  split; [lia |].
  apply (weather_output_is_rekeyed_stream 0 sample.weather_down
                                          sample.fresh 70).
  lia.
Defined.

(** X5: weather_prng.go, [GenerateBytes]: at the same time and from the same
    state, a shorter request returns the beginning of what a longer
    request returns, whether the call reseeds or not. *)
Theorem weather_shorter_request_is_prefix (clock : Z)
    (io : weather_prng.reseed_io) (w : weather_prng.WeatherCSPRNG)
    (n m : Z) :
  0 <= n <= m ->
  exists a b wa wb tra trb,
    weather_prng.GenerateBytes clock io w n = (Return a None, wa, tra)
    /\ weather_prng.GenerateBytes clock io w m = (Return b None, wb, trb)
    /\ a = firstn (Z.to_nat n) b.
Proof.
  intros Hnm.
  pose proof (weather_prng_GenerateBytes_content clock io w n) as Hn.
  pose proof (weather_prng_GenerateBytes_content clock io w m) as Hm.
  cbv zeta in Hn, Hm.
  eexists _, _, _, _, _, _.
  split; [apply Hn; lia |]. split; [apply Hm; lia |].
  rewrite firstn_firstn.
  replace (Nat.min (Z.to_nat n) (Z.to_nat m)) with (Z.to_nat n) by lia.
  symmetry. apply rekey_stream_firstn. lia.
Qed.

Lemma weather_shorter_request_is_prefix_witness :
  0 <= 5 <= 70
  /\ exists a b wa wb tra trb,
       weather_prng.GenerateBytes 0 sample.weather_down sample.fresh 5
       = (Return a None, wa, tra)
       /\ weather_prng.GenerateBytes 0 sample.weather_down sample.fresh 70
          = (Return b None, wb, trb)
       /\ a = firstn (Z.to_nat 5) b.
Proof.
  split; [lia |].
  apply (weather_shorter_request_is_prefix 0 sample.weather_down
                                           sample.fresh 5 70).
  lia.
Defined.

(** X6: weather_prng.go: the key is 32 bytes long from [NewWeatherCSPRNG] on;
    [reseed] and every served call of [GenerateBytes] keep it so. *)
Theorem weather_key_stays_32_bytes (clock : Z)
    (io : weather_prng.reseed_io) (w : weather_prng.WeatherCSPRNG) (n : Z) :
  0 <= n ->
  List.length (weather_prng.state w) = 32%nat ->
  List.length (weather_prng.state (weather_prng.NewWeatherCSPRNG io))
  = 32%nat
  /\ List.length (weather_prng.state (weather_prng.reseed io w)) = 32%nat
  /\ exists result w' tr,
       weather_prng.GenerateBytes clock io w n = (Return result None, w', tr)
       /\ List.length (weather_prng.state w') = 32%nat.
Proof.
  intros Hn Hkey.
  split; [apply hmac_Sum_length |]. split; [apply hmac_Sum_length |].
  eexists _, _, _.
  split; [apply weather_prng_GenerateBytes_content; lia |].
  cbn [weather_prng.state]. apply rekey_after_length.
  destruct (weather_prng.needs_reseed clock w);
    [apply hmac_Sum_length | exact Hkey].
Qed.

Lemma weather_key_stays_32_bytes_witness :
  (0 <= 70 /\ List.length (weather_prng.state sample.fresh) = 32%nat)
  /\ List.length (weather_prng.state
                    (weather_prng.NewWeatherCSPRNG sample.weather_down))
     = 32%nat
  /\ List.length (weather_prng.state
                    (weather_prng.reseed sample.weather_down sample.fresh))
     = 32%nat
  /\ exists result w' tr,
       weather_prng.GenerateBytes 0 sample.weather_down sample.fresh 70
       = (Return result None, w', tr)
       /\ List.length (weather_prng.state w') = 32%nat.
Proof.
  split.
  - split; [lia | vm_compute; reflexivity].
  - apply (weather_key_stays_32_bytes 0 sample.weather_down
                                      sample.fresh 70).
    + lia.
    + vm_compute. reflexivity.
Defined.

(** X7: weather_prng.go, [GenerateBytes]: when more than ten minutes have
    passed since the last reseed, the call reseeds once, before the first
    block; the time of the last reseed becomes the time of this one and
    the byte count restarts with the [n] bytes of this call. *)
Theorem reseed_after_interval (clock : Z) (io : weather_prng.reseed_io)
    (w : weather_prng.WeatherCSPRNG) (n : Z) :
  RESEED_INTERVAL < time_Sub clock (weather_prng.lastReseed w) ->
  0 <= n ->
  exists result w',
    weather_prng.GenerateBytes clock io w n
    = (Return result None, w',
       EvReseed :: block_events (weather_prng.counter w)
                                (Z.to_nat (blocks_for n)))
    /\ Go.len result = n
    /\ weather_prng.lastReseed w' = weather_prng.now io
    /\ weather_prng.bytesGenerated w' = Go.wrap_int64 n.
Proof.
  intros Hlate Hn.
  pose proof (weather_prng_GenerateBytes_content clock io w n Hn) as Hrun.
  cbv zeta in Hrun.
  assert (Hneed : weather_prng.needs_reseed clock w = true).
  { unfold weather_prng.needs_reseed. apply orb_true_iff. left.
    apply Z.ltb_lt. exact Hlate. }
  rewrite Hneed in Hrun.
  eexists _, _. split; [exact Hrun |].
  split; [apply firstn_stream_len_rekey; lia |].
  split; reflexivity.
Qed.

Lemma reseed_after_interval_witness :
  (RESEED_INTERVAL
   < time_Sub (RESEED_INTERVAL + 1) (weather_prng.lastReseed sample.fresh)
   /\ 0 <= 64)
  /\ exists result w',
       weather_prng.GenerateBytes (RESEED_INTERVAL + 1) sample.weather_down
                                  sample.fresh 64
       = (Return result None, w',
          EvReseed :: block_events (weather_prng.counter sample.fresh)
                                   (Z.to_nat (blocks_for 64)))
       /\ Go.len result = 64
       /\ weather_prng.lastReseed w' = weather_prng.now sample.weather_down
       /\ weather_prng.bytesGenerated w' = Go.wrap_int64 64.
Proof.
  split.
  - split; [vm_compute; reflexivity | lia].
  - apply (reseed_after_interval (RESEED_INTERVAL + 1) sample.weather_down
                                 sample.fresh 64).
    + vm_compute. reflexivity.
    + lia.
Defined.

(** X8: weather_prng.go, [GenerateBytes]: with at most ten minutes since the
    last reseed and at most 500 MiB generated since, the call makes no
    request: its result does not depend on what a request would have
    returned, it leaves the time of the last reseed as it was and adds
    [n] to the byte count. *)
Theorem no_reseed_within_limits (clock : Z)
    (w : weather_prng.WeatherCSPRNG) (n : Z) :
  time_Sub clock (weather_prng.lastReseed w) <= RESEED_INTERVAL ->
  weather_prng.bytesGenerated w <= RESEED_BYTE_INTERVAL ->
  0 <= n ->
  exists result w',
    (forall io,
        weather_prng.GenerateBytes clock io w n
        = (Return result None, w',
           block_events (weather_prng.counter w)
                        (Z.to_nat (blocks_for n))))
    /\ Go.len result = n
    /\ weather_prng.lastReseed w' = weather_prng.lastReseed w
    /\ weather_prng.bytesGenerated w'
       = Go.wrap_int64 (weather_prng.bytesGenerated w + n).
Proof.
  intros Htime Hbytes Hn.
  assert (Hneed : weather_prng.needs_reseed clock w = false).
  { unfold weather_prng.needs_reseed. apply orb_false_iff.
    split; apply Z.ltb_ge; assumption. }
  eexists _, _. split.
  - intros io.
    pose proof (weather_prng_GenerateBytes_content clock io w n Hn) as Hrun.
    cbv zeta in Hrun. rewrite Hneed in Hrun. exact Hrun.
  - split; [apply firstn_stream_len_rekey; lia |]. split; reflexivity.
Qed.

Lemma no_reseed_within_limits_witness :
  (time_Sub 0 (weather_prng.lastReseed sample.at_budget) <= RESEED_INTERVAL
   /\ weather_prng.bytesGenerated sample.at_budget <= RESEED_BYTE_INTERVAL
   /\ 0 <= 64)
  /\ exists result w',
       (forall io,
           weather_prng.GenerateBytes 0 io sample.at_budget 64
           = (Return result None, w',
              block_events (weather_prng.counter sample.at_budget)
                           (Z.to_nat (blocks_for 64))))
       /\ Go.len result = 64
       /\ weather_prng.lastReseed w'
          = weather_prng.lastReseed sample.at_budget
       /\ weather_prng.bytesGenerated w'
          = Go.wrap_int64 (weather_prng.bytesGenerated sample.at_budget
                           + 64).
Proof.
  split.
  - repeat split; vm_compute; discriminate.
  - apply (no_reseed_within_limits 0 sample.at_budget 64).
    + vm_compute. discriminate.
    + vm_compute. discriminate.
    + lia.
Defined.

(** ** insecure_prng.go: bytes from 32-bit values *)

Lemma store_in_range (result : list byte) (i : Z) (b : byte) :
  0 <= i < Go.len result ->
  insecure_prng.store result i b = Some (<[Z.to_nat i := b]> result).
Proof.
  intros Hi. unfold insecure_prng.store.
  replace ((0 <=? i) && (i <? Go.len result)) with true; [reflexivity |].
  symmetry. apply andb_true_iff. split; [apply Z.leb_le | apply Z.ltb_lt];
    lia.
Qed.

(** One pass of the loop body: the bytes before [i] stay, and the up to
    four bytes from [i] on that the buffer still has room for are those of
    [val], low byte first. *)
Lemma put4_spec (result : list byte) (i val : Z) :
  0 <= i < Go.len result ->
  exists r',
    insecure_prng.put4 result i (Go.len result - i) val = Some r'
    /\ List.length r' = List.length result
    /\ (forall j, (j < Z.to_nat i)%nat -> r' !! j = result !! j)
    /\ (forall t, (t < 4)%nat ->
                  i + Z.of_nat t < Go.len result ->
                  r' !! (Z.to_nat i + t)%nat
                  = Some (Go.byte_of_Z (Z.shiftr val (8 * Z.of_nat t)))).
Proof.
  intros Hi. unfold insecure_prng.put4.
  set (n := Go.len result) in *.
  set (q := Z.to_nat i).
  rewrite store_in_range by (fold n; lia). fold q.
  set (r0 := <[q := Go.byte_of_Z val]> result).
  assert (H0 : Go.len r0 = n).
  { unfold Go.len, r0. rewrite length_insert. reflexivity. }
  set (o1 := if 1 <? n - i
             then insecure_prng.store r0 (i + 1)
                    (Go.byte_of_Z (Z.shiftr val 8))
             else Some r0).
  set (r1 := if 1 <? n - i
             then <[S q := Go.byte_of_Z (Z.shiftr val 8)]> r0 else r0).
  assert (E1 : o1 = Some r1).
  { unfold o1, r1. destruct (1 <? n - i) eqn:E; [| reflexivity].
    apply Z.ltb_lt in E. rewrite store_in_range by lia.
    replace (Z.to_nat (i + 1)) with (S q) by (unfold q; lia). reflexivity. }
  rewrite E1.
  assert (H1 : Go.len r1 = n).
  { unfold r1. destruct (1 <? n - i); [| exact H0].
    unfold Go.len. rewrite length_insert. exact H0. }
  set (o2 := if 2 <? n - i
             then insecure_prng.store r1 (i + 2)
                    (Go.byte_of_Z (Z.shiftr val 16))
             else Some r1).
  set (r2 := if 2 <? n - i
             then <[S (S q) := Go.byte_of_Z (Z.shiftr val 16)]> r1
             else r1).
  assert (E2 : o2 = Some r2).
  { unfold o2, r2. destruct (2 <? n - i) eqn:E; [| reflexivity].
    apply Z.ltb_lt in E. rewrite store_in_range by lia.
    replace (Z.to_nat (i + 2)) with (S (S q)) by (unfold q; lia).
    reflexivity. }
  rewrite E2.
  assert (H2 : Go.len r2 = n).
  { unfold r2. destruct (2 <? n - i); [| exact H1].
    unfold Go.len. rewrite length_insert. exact H1. }
  set (r3 := if 3 <? n - i
             then <[S (S (S q)) := Go.byte_of_Z (Z.shiftr val 24)]> r2
             else r2).
  exists r3.
  assert (Hq : (q < List.length result)%nat) by (unfold n, Go.len in Hi; lia).
  assert (L0 : List.length r0 = List.length result)
    by (unfold r0; apply length_insert).
  assert (L1 : List.length r1 = List.length result).
  { unfold r1. destruct (1 <? n - i); [rewrite length_insert |]; exact L0. }
  assert (L2 : List.length r2 = List.length result).
  { unfold r2. destruct (2 <? n - i); [rewrite length_insert |]; exact L1. }
  assert (L3 : List.length r3 = List.length result).
  { unfold r3. destruct (3 <? n - i); [rewrite length_insert |]; exact L2. }
  assert (K1 : forall j, j <> S q -> r1 !! j = r0 !! j).
  { intros j Hj. unfold r1. destruct (1 <? n - i); [| reflexivity].
    apply list_lookup_insert_ne. lia. }
  assert (K2 : forall j, j <> S (S q) -> r2 !! j = r1 !! j).
  { intros j Hj. unfold r2. destruct (2 <? n - i); [| reflexivity].
    apply list_lookup_insert_ne. lia. }
  assert (K3 : forall j, j <> S (S (S q)) -> r3 !! j = r2 !! j).
  { intros j Hj. unfold r3. destruct (3 <? n - i); [| reflexivity].
    apply list_lookup_insert_ne. lia. }
  split.
  { destruct (3 <? n - i) eqn:E; [| reflexivity].
    apply Z.ltb_lt in E. rewrite store_in_range by lia.
    replace (Z.to_nat (i + 3)) with (S (S (S q))) by (unfold q; lia).
    reflexivity. }
  split; [exact L3 |]. split.
  - intros j Hj. rewrite K3, K2, K1 by lia.
    unfold r0. apply list_lookup_insert_ne. lia.
  - intros t Ht Hfit.
    assert (Hn : n = Z.of_nat (List.length result)) by reflexivity.
    destruct t as [| [| [| [| t]]]]; [| | | | lia].
    + replace (q + 0)%nat with q by lia. rewrite K3, K2, K1 by lia.
      unfold r0. rewrite list_lookup_insert_eq by lia. reflexivity.
    + replace (q + 1)%nat with (S q) by lia. rewrite K3, K2 by lia.
      unfold r1.
      replace (1 <? n - i) with true by (symmetry; apply Z.ltb_lt; lia).
      rewrite list_lookup_insert_eq by lia. reflexivity.
    + replace (q + 2)%nat with (S (S q)) by lia. rewrite K3 by lia.
      unfold r2.
      replace (2 <? n - i) with true by (symmetry; apply Z.ltb_lt; lia).
      rewrite list_lookup_insert_eq by lia. reflexivity.
    + replace (q + 3)%nat with (S (S (S q))) by lia.
      unfold r3.
      replace (3 <? n - i) with true by (symmetry; apply Z.ltb_lt; lia).
      rewrite list_lookup_insert_eq by lia. reflexivity.
Qed.

(** The loop, started at [i = 4 * q] with the bytes before [i] in
    place. *)
Lemma fill_loop_spec (values : nat -> Z) (k0 : nat) (n : Z) (fuel : nat) :
  forall (result : list byte) (q : nat),
    0 <= n <= Go.max_int64 - 4 ->
    4 * Z.of_nat q <= n + 3 ->
    Go.len result = n ->
    (Z.to_nat (n - 4 * Z.of_nat q) <= fuel)%nat ->
    (forall j, (j < 4 * q)%nat -> (j < Z.to_nat n)%nat ->
               result !! j
               = Some (Go.byte_of_Z
                         (Z.shiftr (values (k0 + j / 4)%nat)
                                   (8 * Z.of_nat (j mod 4))))) ->
    exists out,
      insecure_prng.fill_loop fuel values (k0 + q) n result
                              (4 * Z.of_nat q)
      = insecure_prng.Filled out (k0 + Z.to_nat ((n + 3) / 4))
      /\ Go.len out = n
      /\ forall j, (j < Z.to_nat n)%nat ->
                   out !! j
                   = Some (Go.byte_of_Z
                             (Z.shiftr (values (k0 + j / 4)%nat)
                                       (8 * Z.of_nat (j mod 4)))).
Proof.
  induction fuel as [| fuel IH]; intros result q Hn Hq Hlen Hfuel Hinv.
  - assert (Hdone : (4 * Z.of_nat q <? n) = false) by (apply Z.ltb_ge; lia).
    simpl. rewrite Hdone. exists result.
    replace (Z.to_nat ((n + 3) / 4)) with q.
    2:{ symmetry. apply Nat2Z.inj. rewrite Z2Nat.id by (apply Z.div_pos; lia).
        symmetry. apply (Z.div_unique_pos _ _ _ (n + 3 - 4 * Z.of_nat q));
          lia. }
    split; [reflexivity |]. split; [exact Hlen |].
    intros j Hj. apply Hinv; lia.
  - simpl. destruct (4 * Z.of_nat q <? n) eqn:Elt.
    2:{ apply Z.ltb_ge in Elt. exists result.
        replace (Z.to_nat ((n + 3) / 4)) with q.
        2:{ symmetry. apply Nat2Z.inj.
            rewrite Z2Nat.id by (apply Z.div_pos; lia).
            symmetry.
            apply (Z.div_unique_pos _ _ _ (n + 3 - 4 * Z.of_nat q)); lia. }
        split; [reflexivity |]. split; [exact Hlen |].
        intros j Hj. apply Hinv; lia. }
    apply Z.ltb_lt in Elt.
    pose proof Hn as Hrange. unfold Go.max_int64 in Hrange.
    rewrite wrap_int64_small by lia.
    destruct (put4_spec result (4 * Z.of_nat q) (values (k0 + q)%nat))
      as (r' & Hput & Hlen' & Hold & Hnew); [lia |].
    rewrite Hlen in Hput, Hnew. rewrite Hput.
    rewrite wrap_int64_small by lia.
    replace (4 * Z.of_nat q + 4) with (4 * Z.of_nat (S q)) by lia.
    replace (S (k0 + q)) with (k0 + S q)%nat by lia.
    apply IH; try lia.
    + unfold Go.len. rewrite Hlen'. exact Hlen.
    + intros j Hj Hjn.
      destruct (Nat.lt_ge_cases j (4 * q)) as [Hlow | Hhigh].
      * rewrite Hold by lia. apply Hinv; lia.
      * set (t := (j - 4 * q)%nat).
        assert (Ht : (t < 4)%nat) by (unfold t; lia).
        assert (Hj' : j = (Z.to_nat (4 * Z.of_nat q) + t)%nat)
          by (unfold t; lia).
        assert (Hdiv : (j / 4 = q)%nat).
        { symmetry. apply (Nat.div_unique j 4 q t); unfold t; lia. }
        assert (Hmod : (j mod 4 = t)%nat).
        { symmetry. apply (Nat.mod_unique j 4 q t); unfold t; lia. }
        rewrite Hdiv, Hmod. rewrite Hj'. apply Hnew; [exact Ht | lia].
Qed.

(** X11: insecure_prng.go, [GenerateBytes] (the MathPRNG of unnamed part 4 is
    the same code): a request of [n >= 0] bytes is served without a store
    outside the buffer; it draws one 32-bit value for every four bytes,
    the last one also for a rest of one to three bytes, and byte [j] of
    the output is byte [j mod 4] of draw [j / 4], low byte first. *)
Theorem insecure_bytes_are_little_endian_words
    (p : insecure_prng.InsecurePRNG) (n : Z) :
  0 <= n <= Go.max_int64 - 4 ->
  exists out,
    insecure_prng.GenerateBytes p n
    = (Return out None,
       insecure_prng.mkInsecure
         (insecure_prng.rng p)
         (insecure_prng.drawn p + Z.to_nat ((n + 3) / 4)))
    /\ Go.len out = n
    /\ forall j, (j < Z.to_nat n)%nat ->
                 out !! j
                 = Some (Go.byte_of_Z
                           (Z.shiftr
                              (insecure_prng.rng p
                                 (insecure_prng.drawn p + j / 4)%nat)
                              (8 * Z.of_nat (j mod 4)))).
Proof.
  intros Hn. unfold insecure_prng.GenerateBytes.
  replace (n <? 0) with false by (symmetry; apply Z.ltb_ge; lia).
  destruct (fill_loop_spec (insecure_prng.rng p) (insecure_prng.drawn p) n
              (Z.to_nat n) (Go.make_bytes n) 0)
    as (out & Hrun & Hlen & Hbytes).
  - exact Hn.
  - lia.
  - unfold Go.len. rewrite make_bytes_length. lia.
  - lia.
  - intros j Hj. lia.
  - rewrite Nat.add_0_r in Hrun. change (4 * Z.of_nat 0) with 0 in Hrun.
    rewrite Hrun. exists out. auto.
Qed.

Lemma insecure_bytes_are_little_endian_words_witness :
  0 <= 6 <= Go.max_int64 - 4
  /\ exists out,
       insecure_prng.GenerateBytes
         (insecure_prng.mkInsecure (fun k => 0x11223344 + Z.of_nat k) 0) 6
       = (Return out None,
          insecure_prng.mkInsecure
            (fun k => 0x11223344 + Z.of_nat k)
            (0 + Z.to_nat ((6 + 3) / 4)))
       /\ Go.len out = 6
       /\ forall j, (j < Z.to_nat 6)%nat ->
                    out !! j
                    = Some (Go.byte_of_Z
                              (Z.shiftr
                                 (0x11223344 + Z.of_nat (0 + j / 4))
                                 (8 * Z.of_nat (j mod 4)))).
Proof.
  split; [vm_compute; split; discriminate |].
  apply (insecure_bytes_are_little_endian_words
           (insecure_prng.mkInsecure (fun k => 0x11223344 + Z.of_nat k) 0)
           6).
  vm_compute. split; discriminate.
Defined.

(** ** The analyzer: frequencies and autocorrelation *)

(** The loop that finds the smallest and the largest count. *)
Lemma minmax_fold (byteCounts : list Z) (l : list nat) :
  forall m0 M0 m M,
    fold_left
      (fun '(minFreq, maxFreq) i =>
         let count := nth i byteCounts 0 in
         (if count <? minFreq then count else minFreq,
          if maxFreq <? count then count else maxFreq))
      l (m0, M0) = (m, M) ->
    m <= m0 /\ M0 <= M
    /\ (forall i, In i l -> m <= nth i byteCounts 0 <= M)
    /\ (m = m0 \/ exists i, In i l /\ nth i byteCounts 0 = m)
    /\ (M = M0 \/ exists i, In i l /\ nth i byteCounts 0 = M).
Proof.
  induction l as [| i l IH]; intros m0 M0 m M Hfold.
  - simpl in Hfold. inversion Hfold; subst.
    split; [lia |]. split; [lia |]. split; [intros i [] |].
    split; left; reflexivity.
  - cbn [fold_left] in Hfold. cbv zeta in Hfold.
    set (c := nth i byteCounts 0) in *.
    apply IH in Hfold.
    destruct Hfold as (Hm & HM & Hall & Hmin & Hmax).
    assert (Hm1 : (if c <? m0 then c else m0) <= m0
                  /\ (if c <? m0 then c else m0) <= c)
      by (destruct (c <? m0) eqn:E; lia).
    assert (HM1 : M0 <= (if M0 <? c then c else M0)
                  /\ c <= (if M0 <? c then c else M0))
      by (destruct (M0 <? c) eqn:E; lia).
    split; [lia |]. split; [lia |]. split; [| split].
    + intros j [<- | Hj]; [fold c; lia | apply Hall, Hj].
    + destruct Hmin as [Hmin | (j & Hj & Hjm)].
      * destruct (c <? m0) eqn:E.
        -- right. exists i. split; [left; reflexivity | fold c; lia].
        -- left. exact Hmin.
      * right. exists j. split; [right; exact Hj | exact Hjm].
    + destruct Hmax as [Hmax | (j & Hj & HjM)].
      * destruct (M0 <? c) eqn:E.
        -- right. exists i. split; [left; reflexivity | fold c; lia].
        -- left. exact Hmax.
      * right. exists j. split; [right; exact Hj | exact HjM].
Qed.

Lemma byte_index_bound (b : byte) : (N.to_nat (Byte.to_N b) < 256)%nat.
Proof. pose proof (Byte.to_N_bounded b). lia. Qed.

Lemma index_byte_roundtrip (i : nat) :
  (i < 256)%nat ->
  N.to_nat (Byte.to_N (Go.byte_of_Z (Z.of_nat i))) = i.
Proof.
  intros Hi. pose proof byte_index_roundtrip as Hall.
  rewrite List.Forall_forall in Hall. apply Hall.
  apply in_seq. lia.
Qed.

(** The slots of the array, read by index. *)
Lemma part_002_count_at_index (data : list byte) (i : nat) :
  Z.of_nat (List.length data) < 2 ^ 63 ->
  (i < 256)%nat ->
  nth i (part_002.count_bytes data) 0
  = Z.of_nat (count_occ Byte.byte_eq_dec data (Go.byte_of_Z (Z.of_nat i))).
Proof.
  intros Hlen Hi.
  destruct (part_002_count_bytes data Hlen) as [_ Hat].
  rewrite <- Hat, index_byte_roundtrip by exact Hi. reflexivity.
Qed.

(** The extremes that [basicAnalysis] reports, against the counts. *)
Lemma basicAnalysis_extremes {F : Type} {ops : Float64 F}
    (data : list byte) :
  0 < Go.len data < 2 ^ 63 ->
  let a := part_002.basicAnalysis data in
  let occurrences b := Z.of_nat (count_occ Byte.byte_eq_dec data b) in
  (forall b, part_002.Analysis.MinFreq a <= occurrences b
             <= part_002.Analysis.MaxFreq a)
  /\ (exists b, occurrences b = part_002.Analysis.MinFreq a)
  /\ (exists b, occurrences b = part_002.Analysis.MaxFreq a).
Proof.
  intros Hlen a occurrences. unfold Go.len in Hlen.
  assert (Hlen63 : Z.of_nat (List.length data) < 2 ^ 63) by lia.
  unfold a, part_002.basicAnalysis.
  replace (Go.len data =? 0) with false
    by (symmetry; apply Z.eqb_neq; unfold Go.len; lia).
  set (byteCounts := part_002.count_bytes data).
  destruct (fold_left _ (seq 0 256) (nth 0 byteCounts 0, nth 0 byteCounts 0))
    as [m M] eqn:Efold.
  cbn [part_002.Analysis.MinFreq part_002.Analysis.MaxFreq].
  apply minmax_fold in Efold.
  destruct Efold as (_ & _ & Hall & Hmin & Hmax).
  assert (Hattained : forall v,
             (v = nth 0 byteCounts 0
              \/ exists i, In i (seq 0 256) /\ nth i byteCounts 0 = v) ->
             exists b, occurrences b = v).
  { intros v [-> | (i & Hi & <-)].
    - exists (Go.byte_of_Z (Z.of_nat 0)). symmetry.
      apply part_002_count_at_index; [exact Hlen63 | lia].
    - exists (Go.byte_of_Z (Z.of_nat i)). symmetry.
      apply part_002_count_at_index; [exact Hlen63 |].
      apply in_seq in Hi. lia. }
  split; [| split; [apply Hattained, Hmin | apply Hattained, Hmax]].
  intros b. unfold occurrences.
  rewrite <- (proj2 (part_002_count_bytes data Hlen63) b).
  apply Hall, in_seq. pose proof (byte_index_bound b). lia.
Qed.

Lemma basicAnalysis_FreqRange {F : Type} {ops : Float64 F}
    (data : list byte) :
  Go.len data <> 0 ->
  part_002.Analysis.Length (part_002.basicAnalysis data) = Go.len data
  /\ part_002.Analysis.FreqRange (part_002.basicAnalysis data)
     = Go.wrap_int64
         (part_002.Analysis.MaxFreq (part_002.basicAnalysis data)
          - part_002.Analysis.MinFreq (part_002.basicAnalysis data)).
Proof.
  intros Hlen. unfold part_002.basicAnalysis.
  replace (Go.len data =? 0) with false by (symmetry; now apply Z.eqb_neq).
  destruct (fold_left _ (seq 0 256) _) as [m M]. split; reflexivity.
Qed.

(** X12: unnamed part 2, [basicAnalysis]: on a buffer that is not empty,
    [Length] is its length, [MinFreq] and [MaxFreq] are the smallest and
    the largest number of occurrences of a byte value in it, both counted
    over all 256 values, and [FreqRange] is their difference. *)
Theorem frequency_extremes {F : Type} {ops : Float64 F}
    (data : list byte) :
  0 < Go.len data < 2 ^ 63 ->
  let a := part_002.basicAnalysis data in
  let occurrences b := Z.of_nat (count_occ Byte.byte_eq_dec data b) in
  part_002.Analysis.Length a = Go.len data
  /\ (forall b, part_002.Analysis.MinFreq a <= occurrences b
                <= part_002.Analysis.MaxFreq a)
  /\ (exists b, occurrences b = part_002.Analysis.MinFreq a)
  /\ (exists b, occurrences b = part_002.Analysis.MaxFreq a)
  /\ part_002.Analysis.FreqRange a
     = part_002.Analysis.MaxFreq a - part_002.Analysis.MinFreq a.
Proof.
  intros Hlen a occurrences.
  destruct (basicAnalysis_extremes data Hlen) as (Hbound & Hmin & Hmax).
  destruct (basicAnalysis_FreqRange data) as [Hlength Hrange]; [lia |].
  fold a in Hbound, Hmin, Hmax, Hlength, Hrange.
  split; [exact Hlength |]. split; [exact Hbound |].
  split; [exact Hmin |]. split; [exact Hmax |].
  rewrite Hrange. apply wrap_int64_small.
  destruct Hmin as (bm & Hbm). destruct Hmax as (bM & HbM).
  pose proof (count_occ_le_length data bm) as Hm.
  pose proof (count_occ_le_length data bM) as HM.
  unfold Go.len in Hlen. lia.
Qed.

Lemma frequency_extremes_witness :
  0 < Go.len (Go.bytes_of_string "abracadabra") < 2 ^ 63
  /\ forall Log Erfc : float -> float,
       let ops := binary64.ops Log Erfc in
       let data := Go.bytes_of_string "abracadabra" in
       let a := part_002.basicAnalysis data in
       let occurrences b := Z.of_nat (count_occ Byte.byte_eq_dec data b) in
       part_002.Analysis.Length a = Go.len data
       /\ (forall b, part_002.Analysis.MinFreq a <= occurrences b
                     <= part_002.Analysis.MaxFreq a)
       /\ (exists b, occurrences b = part_002.Analysis.MinFreq a)
       /\ (exists b, occurrences b = part_002.Analysis.MaxFreq a)
       /\ part_002.Analysis.FreqRange a
          = part_002.Analysis.MaxFreq a - part_002.Analysis.MinFreq a.
Proof.
  split; [vm_compute; split; reflexivity |].
  intros Log Erfc ops.
  apply (frequency_extremes (Go.bytes_of_string "abracadabra")).
  vm_compute. split; reflexivity.
Defined.

Lemma fold_left_map_list {A B C} (f : A -> C -> A) (h : B -> C)
    (l : list B) (a : A) :
  fold_left f (map h l) a = fold_left (fun acc x => f acc (h x)) l a.
Proof.
  revert a. induction l as [| x l IH]; intros a; [reflexivity |].
  simpl. apply IH.
Qed.

(** The array of unnamed part 2 lists what the map of main.go holds. *)
Lemma count_bytes_agree (data : list byte) :
  Z.of_nat (List.length data) < 2 ^ 63 ->
  part_002.count_bytes data
  = map (fun i => main_go.at_key (main_go.count_bytes data)
                                 (Go.byte_of_Z i))
        (map Z.of_nat (seq 0 256)).
Proof.
  intros Hlen.
  destruct (part_002_count_bytes data Hlen) as [Hl _].
  apply nth_ext with (d := 0) (d' := 0).
  - rewrite Hl, !List.length_map, List.length_seq. reflexivity.
  - intros i Hi. rewrite Hl in Hi.
    rewrite part_002_count_at_index by assumption.
    rewrite map_map.
    set (f := fun x : nat =>
                main_go.at_key (main_go.count_bytes data)
                               (Go.byte_of_Z (Z.of_nat x))).
    rewrite (nth_indep _ 0 (f 0%nat))
      by (rewrite List.length_map, List.length_seq; exact Hi).
    rewrite map_nth, seq_nth by exact Hi. unfold f. simpl Nat.add.
    destruct (main_go_count_bytes data Hlen (Go.byte_of_Z (Z.of_nat i)))
      as [-> _].
    reflexivity.
Qed.

(** X13: main.go, [calculateChiSquare], and unnamed part 2, [basicAnalysis]:
    the two tools compute the same chi-square statistic for every buffer,
    the same float64 operations on the same counts in the same order. *)
Theorem chi_square_agrees {F : Type} {ops : Float64 F}
    (data : list byte) :
  Go.len data < 2 ^ 63 ->
  main_go.calculateChiSquare data
  = part_002.Analysis.ChiSquare (part_002.basicAnalysis data).
Proof.
  intros Hlen. unfold Go.len in Hlen.
  unfold main_go.calculateChiSquare, part_002.basicAnalysis.
  destruct (Go.len data =? 0) eqn:E0; [reflexivity |].
  destruct (fold_left _ (seq 0 256) _) as [m M].
  cbn [part_002.Analysis.ChiSquare].
  rewrite (count_bytes_agree data Hlen).
  rewrite fold_left_map_list. reflexivity.
Qed.

Lemma chi_square_agrees_witness :
  Go.len (Go.bytes_of_string "abracadabra") < 2 ^ 63
  /\ forall Log Erfc : float -> float,
       let ops := binary64.ops Log Erfc in
       main_go.calculateChiSquare (Go.bytes_of_string "abracadabra")
       = part_002.Analysis.ChiSquare
           (part_002.basicAnalysis (Go.bytes_of_string "abracadabra")).
Proof.
  split; [vm_compute; reflexivity |].
  intros Log Erfc ops.
  apply (chi_square_agrees (Go.bytes_of_string "abracadabra")).
  vm_compute. reflexivity.
Defined.

(** The two fields of [basicAnalysis] that the lemmas below look at. *)
Lemma basicAnalysis_Autocorrelation {F : Type} {ops : Float64 F}
    (data : list byte) :
  Go.len data <> 0 ->
  part_002.Analysis.Autocorrelation (part_002.basicAnalysis data)
  = let sampleSize :=
      if 50000 <? Go.len data then 50000 else Go.len data in
    fdiv (float64 (part_002.count_matches data sampleSize))
         (float64 (Go.wrap_int64 (sampleSize - 1))).
Proof.
  intros Hlen. unfold part_002.basicAnalysis.
  replace (Go.len data =? 0) with false by (symmetry; now apply Z.eqb_neq).
  destruct (fold_left _ (seq 0 256) _) as [m M]. reflexivity.
Qed.

Lemma basicAnalysis_ShannonEntropy {F : Type} {ops : Float64 F}
    (data : list byte) :
  Go.len data <> 0 ->
  part_002.Analysis.ShannonEntropy (part_002.basicAnalysis data)
  = fold_left
      (fun shannon count =>
         if 0 <? count then
           let prob := fdiv (float64 count) (float64 (Go.len data)) in
           fsub shannon (fmul prob (Log2 prob))
         else shannon)
      (part_002.count_bytes data) (float64 0).
Proof.
  intros Hlen. unfold part_002.basicAnalysis.
  replace (Go.len data =? 0) with false by (symmetry; now apply Z.eqb_neq).
  destruct (fold_left _ (seq 0 256) _) as [m M]. reflexivity.
Qed.

(** The loop that counts equal neighbours, over the indices [l]. *)
Lemma matches_fold_bound (data : list byte) (l : list nat) :
  forall m0,
    0 <= m0 ->
    m0 + Z.of_nat (List.length l) < 2 ^ 63 ->
    m0 <= fold_left
            (fun matches i =>
               if Byte.eqb (nth i data x00) (nth (i - 1) data x00)
               then Go.wrap_int64 (matches + 1)
               else matches)
            l m0
       <= m0 + Z.of_nat (List.length l).
Proof.
  induction l as [| i l IH]; intros m0 H0 Hfit; simpl; [lia |].
  simpl List.length in Hfit.
  destruct (Byte.eqb (nth i data x00) (nth (i - 1) data x00)).
  - rewrite wrap_int64_small by lia.
    specialize (IH (m0 + 1)). lia.
  - specialize (IH m0). lia.
Qed.

Lemma matches_fold_all (data : list byte) (l : list nat) :
  forall m0,
    0 <= m0 ->
    m0 + Z.of_nat (List.length l) < 2 ^ 63 ->
    (forall i, In i l -> nth i data x00 = nth (i - 1) data x00) ->
    fold_left
      (fun matches i =>
         if Byte.eqb (nth i data x00) (nth (i - 1) data x00)
         then Go.wrap_int64 (matches + 1)
         else matches)
      l m0
    = m0 + Z.of_nat (List.length l).
Proof.
  induction l as [| i l IH]; intros m0 H0 Hfit Heq; simpl; [lia |].
  simpl List.length in Hfit.
  rewrite (Heq i) by (left; reflexivity).
  rewrite (Byte.byte_dec_lb eq_refl).
  rewrite wrap_int64_small by lia.
  rewrite IH; [lia | lia | lia |].
  intros j Hj. apply Heq. right. exact Hj.
Qed.

(** X14: unnamed part 2, [basicAnalysis]: the autocorrelation is taken over
    the first 50,000 bytes only; what follows them in the buffer does not
    change it. *)
Theorem autocorrelation_reads_first_50000 {F : Type} {ops : Float64 F}
    (data tail : list byte) :
  50000 <= Go.len data ->
  part_002.Analysis.Autocorrelation
    (part_002.basicAnalysis (data ++ tail))
  = part_002.Analysis.Autocorrelation (part_002.basicAnalysis data).
Proof.
  intros Hlen.
  assert (Hlen' : Go.len (data ++ tail) = Go.len data + Go.len tail).
  { unfold Go.len. rewrite List.length_app. lia. }
  assert (Htail : 0 <= Go.len tail) by (unfold Go.len; lia).
  rewrite !basicAnalysis_Autocorrelation by lia. cbv zeta.
  replace (if 50000 <? Go.len (data ++ tail) then 50000
           else Go.len (data ++ tail)) with 50000
    by (destruct (50000 <? Go.len (data ++ tail)) eqn:E;
        [reflexivity | apply Z.ltb_ge in E; lia]).
  replace (if 50000 <? Go.len data then 50000 else Go.len data) with 50000
    by (destruct (50000 <? Go.len data) eqn:E;
        [reflexivity | apply Z.ltb_ge in E; lia]).
  f_equal. f_equal. unfold part_002.count_matches.
  apply fold_left_ext_in. intros m i Hi.
  apply in_seq in Hi. unfold Go.len in Hlen.
  rewrite !app_nth1 by lia. reflexivity.
Qed.

Lemma autocorrelation_reads_first_50000_witness :
  50000 <= Go.len (repeat x2a (Z.to_nat 50000))
  /\ forall Log Erfc : float -> float,
       let ops := binary64.ops Log Erfc in
       part_002.Analysis.Autocorrelation
         (part_002.basicAnalysis (repeat x2a (Z.to_nat 50000) ++ [x00; x01; x02]))
       = part_002.Analysis.Autocorrelation
           (part_002.basicAnalysis (repeat x2a (Z.to_nat 50000))).
Proof.
  split; [vm_compute; discriminate |].
  intros Log Erfc ops.
  apply (autocorrelation_reads_first_50000 (repeat x2a (Z.to_nat 50000))
                                           [x00; x01; x02]).
  vm_compute. discriminate.
Defined.

(** X15: unnamed part 2, [basicAnalysis]: on a buffer of two bytes or more the
    autocorrelation, read as a real number, lies between 0 and 1. *)
Theorem autocorrelation_in_unit_interval (erfc : R -> R)
    (data : list byte) :
  2 <= Go.len data ->
  let ops := exact.ops erfc in
  (0 <= part_002.Analysis.Autocorrelation (part_002.basicAnalysis data)
   <= 1)%R.
Proof.
  intros Hlen ops.
  rewrite basicAnalysis_Autocorrelation by lia. cbv zeta.
  set (s := if 50000 <? Go.len data then 50000 else Go.len data).
  assert (Hs : 2 <= s <= 50000)
    by (unfold s; destruct (50000 <? Go.len data) eqn:E; lia).
  rewrite wrap_int64_small by lia.
  pose proof (matches_fold_bound data (seq 1 (Z.to_nat s - 1)) 0) as Hm.
  rewrite List.length_seq in Hm. fold (part_002.count_matches data s) in Hm.
  destruct Hm as [Hm0 Hm1]; [lia | lia |].
  set (m := part_002.count_matches data s) in *.
  change (0 <= IZR m / IZR (s - 1) <= 1)%R.
  assert (Hd : (0 < IZR (s - 1))%R) by (apply IZR_lt; lia).
  assert (H0 : (0 <= IZR m)%R) by (apply IZR_le; lia).
  assert (H1 : (IZR m <= IZR (s - 1))%R) by (apply IZR_le; lia).
  split.
  - apply Rmult_le_reg_r with (IZR (s - 1)); [exact Hd |].
    unfold Rdiv. rewrite Rmult_assoc, Rinv_l by lra. lra.
  - apply Rmult_le_reg_r with (IZR (s - 1)); [exact Hd |].
    unfold Rdiv. rewrite Rmult_assoc, Rinv_l by lra. lra.
Qed.

Lemma autocorrelation_in_unit_interval_witness :
  2 <= Go.len (Go.bytes_of_string "abracadabra")
  /\ forall erfc : R -> R,
       let ops := exact.ops erfc in
       (0 <= part_002.Analysis.Autocorrelation
               (part_002.basicAnalysis (Go.bytes_of_string "abracadabra"))
        <= 1)%R.
Proof.
  split; [vm_compute; discriminate |].
  intros erfc.
  apply (autocorrelation_in_unit_interval
           erfc (Go.bytes_of_string "abracadabra")).
  vm_compute. discriminate.
Defined.

(** X16: unnamed part 2, [basicAnalysis]: a buffer that repeats one byte value
    [n >= 2] times has, in exact arithmetic, autocorrelation 1 and Shannon
    entropy 0; its least frequent value occurs 0 times, its most frequent
    one [n] times. *)
Theorem constant_buffer_statistics (erfc : R -> R) (b : byte) (n : Z) :
  2 <= n < 2 ^ 63 ->
  let ops := exact.ops erfc in
  let a := part_002.basicAnalysis (repeat b (Z.to_nat n)) in
  part_002.Analysis.Autocorrelation a = 1%R
  /\ part_002.Analysis.ShannonEntropy a = 0%R
  /\ part_002.Analysis.MinFreq a = 0
  /\ part_002.Analysis.MaxFreq a = n
  /\ part_002.Analysis.FreqRange a = n.
Proof.
  intros Hn ops a.
  set (data := repeat b (Z.to_nat n)) in *.
  assert (Hlen : Go.len data = n).
  { unfold Go.len, data. rewrite repeat_length. lia. }
  assert (Hocc : forall b',
             Z.of_nat (count_occ Byte.byte_eq_dec data b')
             = if Byte.eqb b' b then n else 0).
  { intros b'. unfold data. destruct (Byte.eqb b' b) eqn:E.
    - apply Byte.byte_dec_bl in E.
      rewrite count_occ_repeat_eq by exact E. lia.
    - apply Byte.eqb_false in E.
      rewrite count_occ_repeat_neq by exact E. reflexivity. }
  split; [| split].
  - unfold a. rewrite basicAnalysis_Autocorrelation by lia. cbv zeta.
    rewrite Hlen.
    set (s := if 50000 <? n then 50000 else n).
    assert (Hs : 2 <= s <= n) by (unfold s; destruct (50000 <? n) eqn:E; lia).
    rewrite wrap_int64_small by lia.
    unfold part_002.count_matches.
    rewrite matches_fold_all.
    + rewrite List.length_seq.
      replace (0 + Z.of_nat (Z.to_nat s - 1)) with (s - 1) by lia.
      apply Rdiv_diag. apply not_0_IZR. lia.
    + lia.
    + rewrite List.length_seq. lia.
    + intros i Hi. apply in_seq in Hi. unfold data.
      rewrite !nth_repeat_lt by lia. reflexivity.
  - unfold a. rewrite basicAnalysis_ShannonEntropy by lia.
    rewrite (fold_left_ext_in _ (fun shannon _ => shannon)).
    + rewrite (fold_left_const (fun shannon : R => shannon)).
      induction (List.length (part_002.count_bytes data));
        [reflexivity | assumption].
    + intros shannon count Hin.
      destruct (part_002_count_bytes data) as [Hl Hat]; [rewrite <- Hlen in Hn; unfold Go.len in Hn; lia |].
      apply (In_nth _ _ 0) in Hin. destruct Hin as (i & Hi & <-).
      rewrite Hl in Hi.
      rewrite part_002_count_at_index
        by (try exact Hi; rewrite <- Hlen in Hn; unfold Go.len in Hn; lia).
      rewrite Hocc. destruct (Byte.eqb _ b); [| reflexivity].
      replace (0 <? n) with true by (symmetry; apply Z.ltb_lt; lia).
      rewrite Hlen. cbv zeta.
      change (shannon - IZR n / IZR n * (ln (IZR n / IZR n) / ln 2)
              = shannon)%R.
      rewrite Rdiv_diag by (apply not_0_IZR; lia).
      rewrite ln_1. lra.
  - destruct (basicAnalysis_extremes data) as (Hb & Hmin & Hmax); [lia |].
    destruct (basicAnalysis_FreqRange data) as [_ Hr]; [lia |].
    fold a in Hb, Hmin, Hmax, Hr.
    destruct Hmin as (bm & Hbm). destruct Hmax as (bM & HbM).
    rewrite Hocc in Hbm, HbM.
    assert (Hother : exists b', Byte.eqb b' b = false).
    { destruct (Byte.eqb x00 b) eqn:E0; [| exists x00; exact E0].
      exists x01. apply Byte.byte_dec_bl in E0. subst b. reflexivity. }
    destruct Hother as (b' & Hb').
    pose proof (Hb b') as Hlow. rewrite Hocc, Hb' in Hlow.
    pose proof (Hb b) as Hhigh. rewrite Hocc in Hhigh.
    rewrite (Byte.byte_dec_lb eq_refl) in Hhigh.
    assert (Hm0 : part_002.Analysis.MinFreq a = 0)
      by (destruct (Byte.eqb bm b); lia).
    assert (HMn : part_002.Analysis.MaxFreq a = n)
      by (destruct (Byte.eqb bM b); lia).
    rewrite Hr, Hm0, HMn, Z.sub_0_r, wrap_int64_small by lia.
    repeat split; lia.
Qed.

Lemma constant_buffer_statistics_witness :
  2 <= 4 < 2 ^ 63
  /\ forall erfc : R -> R,
       let ops := exact.ops erfc in
       let a := part_002.basicAnalysis (repeat x2a (Z.to_nat 4)) in
       part_002.Analysis.Autocorrelation a = 1%R
       /\ part_002.Analysis.ShannonEntropy a = 0%R
       /\ part_002.Analysis.MinFreq a = 0
       /\ part_002.Analysis.MaxFreq a = 4
       /\ part_002.Analysis.FreqRange a = 4.
Proof.
  split; [lia |].
  intros erfc.
  apply (constant_buffer_statistics erfc x2a 4). lia.
Defined.

(** ** The sequential benchmark of main.go *)

(** The loop, for a generator whose calls all return: the number of
    samples counted as passing grows by at most one per iteration. *)
Lemma benchmark_loop_returns {F : Type} {ops : Float64 F} {G : Type}
    {gen : Generator G} (dataSize : Z) (observe : nat -> Z * list byte) :
  (forall g, exists data err g',
        gen_GenerateBytes g dataSize = (Return data err, g')) ->
  forall (todo i : nat) (g : G) (t : main_go.totals F),
    main_go.passedNIST t + Z.of_nat todo < 2 ^ 63 ->
    0 <= main_go.passedNIST t ->
    exists t' g',
      main_go.benchmark_loop todo i dataSize observe g t = Some (t', g')
      /\ main_go.passedNIST t <= main_go.passedNIST t'
         <= main_go.passedNIST t + Z.of_nat todo.
Proof.
  intros Hret. induction todo as [| todo IH]; intros i g t Hfit Hpos.
  - exists t, g. split; [reflexivity | lia].
  - destruct (Hret g) as (data & err & g' & Hcall).
    rewrite (benchmark_loop_step g g' data err todo i dataSize observe t
               Hcall).
    destruct err as [e |].
    + destruct (IH (S i) g' t) as (t' & g'' & Hrun & Hb); [lia | lia |].
      exists t', g''. split; [exact Hrun | lia].
    + set (t1 := main_go.record_sample (fst (observe i)) (snd (observe i))
                                        data t).
      assert (H1 : main_go.passedNIST t <= main_go.passedNIST t1
                   <= main_go.passedNIST t + 1).
      { unfold t1, main_go.record_sample. cbn [main_go.passedNIST].
        destruct (fge _ _); [rewrite wrap_int64_small by lia |]; lia. }
      destruct (IH (S i) g' t1) as (t' & g'' & Hrun & Hb); [lia | lia |].
      exists t', g''. split; [exact Hrun | lia].
Qed.

(** X18: main.go, [runBenchmark]: for a generator whose calls of the given
    size always return, with or without an error, the benchmark delivers
    its result; it reports [iterations] as the number of iterations,
    whatever the number of calls that failed, and between 0 and
    [iterations] samples as passing the monobit test. *)
Theorem benchmark_pass_count_is_bounded {F : Type} {ops : Float64 F}
    {G : Type} {gen : Generator G} (g : G) (iterations dataSize : Z)
    (observe : nat -> Z * list byte) :
  (forall g, exists data err g',
        gen_GenerateBytes g dataSize = (Return data err, g')) ->
  0 <= iterations < 2 ^ 63 ->
  exists r g',
    main_go.runBenchmark g iterations dataSize observe = Some (r, g')
    /\ main_go.TestResult.Name r = gen_Name g
    /\ main_go.TestResult.TotalIterations r = iterations
    /\ 0 <= main_go.TestResult.PassedNISTMonobit r <= iterations.
Proof.
  intros Hret Hit. unfold main_go.runBenchmark.
  destruct (benchmark_loop_returns dataSize observe Hret
              (Z.to_nat iterations) 0 g
              (main_go.mkTotals F 0 (float64 0) (float64 0) (float64 0) 0))
    as (t' & g' & Hrun & Hb).
  - cbn [main_go.passedNIST]. lia.
  - cbn [main_go.passedNIST]. lia.
  - rewrite Hrun. eexists _, _. split; [reflexivity |].
    cbn [main_go.TestResult.Name main_go.TestResult.TotalIterations
         main_go.TestResult.PassedNISTMonobit].
    cbn [main_go.passedNIST] in Hb.
    split; [reflexivity |]. split; [reflexivity |]. lia.
Qed.

Lemma rand_read_always_returns (dataSize : Z) :
  0 <= dataSize ->
  forall g : crypto_csprng.CryptoCSPRNG, exists data err g',
    gen_GenerateBytes g dataSize = (Return data err, g').
Proof.
  intros Hn g. cbn [gen_GenerateBytes CryptoCSPRNG_Generator].
  unfold crypto_csprng.CryptoCSPRNG_GenerateBytes.
  replace (dataSize <? 0) with false by (symmetry; apply Z.ltb_ge; lia).
  destruct (crypto_csprng.reads g (crypto_csprng.calls g)); eauto.
Qed.

Lemma benchmark_pass_count_is_bounded_witness :
  ((forall g : crypto_csprng.CryptoCSPRNG, exists data err g',
       gen_GenerateBytes g 1024 = (Return data err, g'))
   /\ 0 <= 3 < 2 ^ 63)
  /\ forall Log Erfc : float -> float,
       let ops := binary64.ops Log Erfc in
       exists r g',
         main_go.runBenchmark sample.rand_down 3 1024 (fun _ => (0, []))
         = Some (r, g')
         /\ main_go.TestResult.Name r = gen_Name sample.rand_down
         /\ main_go.TestResult.TotalIterations r = 3
         /\ 0 <= main_go.TestResult.PassedNISTMonobit r <= 3.
Proof.
  split.
  - split; [apply rand_read_always_returns; lia | lia].
  - intros Log Erfc ops.
    apply (benchmark_pass_count_is_bounded
             sample.rand_down 3 1024 (fun _ => (0, []))).
    + apply rand_read_always_returns. lia.
    + lia.
Defined.

(** X19: main.go, [runBenchmark], with the WeatherCSPRNG of crypto_csprng.go:
    the benchmark does not recover a panic, so with a data size below 32
    bytes and at least one iteration the first call ends it and no
    result is delivered. *)
Theorem benchmark_ends_on_short_requests {F : Type} {ops : Float64 F}
    (w : crypto_csprng.WeatherCSPRNG) (iterations dataSize : Z)
    (observe : nat -> Z * list byte) :
  0 <= dataSize < 32 ->
  0 < iterations ->
  main_go.runBenchmark w iterations dataSize observe = None.
Proof.
  intros Hsize Hit. unfold main_go.runBenchmark.
  destruct (Z.to_nat iterations) as [| todo] eqn:E; [lia |].
  cbn [main_go.benchmark_loop gen_GenerateBytes WeatherCSPRNG_Generator].
  rewrite crypto_csprng_GenerateBytes_short by exact Hsize.
  reflexivity.
Qed.

Lemma benchmark_ends_on_short_requests_witness :
  (0 <= 16 < 32 /\ 0 < 1000)
  /\ forall Log Erfc : float -> float,
       let ops := binary64.ops Log Erfc in
       main_go.runBenchmark sample.draft_fixed 1000 16 (fun _ => (0, []))
       = None.
Proof.
  split; [lia |].
  intros Log Erfc ops.
  apply (benchmark_ends_on_short_requests
           sample.draft_fixed 1000 16 (fun _ => (0, []))); lia.
Defined.

(** ** One trial of the orchestrator, for every generator *)

(** [runSingleTest] in full, for a generator whose calls end: the calls
    and sleeps of the retry loop and the sample written, then the one
    result sent and the tracker incremented. *)
Lemma runSingleTest_spec {F : Type} {ops : Float64 F} {G : Type}
    {gen : Generator G} (g : G) (testSize testRun : Z)
    (elapsed : nat -> Z) (now : Z) (tracker : part_002.ProgressTracker.t) :
  (forall g n, fst (gen_GenerateBytes g n) <> NoResult) ->
  exists calls result g',
    part_002.runSingleTest g testSize testRun elapsed now tracker
    = Some (calls ++ part_002.Send result
                  :: snd (part_002.increment (F := F) now tracker),
            fst (part_002.increment (F := F) now tracker), g')
    /\ List.filter is_Send calls = []
    /\ (1 <= List.length (List.filter is_Generate calls) <= 3)%nat
    /\ part_002.TestResult.Name result = gen_Name g'
    /\ part_002.TestResult.TestRun result = testRun
    /\ match part_002.TestResult.Error result with
       | None =>
           exists d g0,
             gen_GenerateBytes g0 testSize = (Return d None, g')
             /\ part_002.TestResult.Analysis result
                = part_002.basicAnalysis d
             /\ part_002.Microsecond <= part_002.TestResult.Duration result
             /\ List.filter is_SaveSample calls
                = (if testRun <=? 10
                   then [part_002.saveSample
                           d (part_002.sample_filename (gen_Name g') testRun)
                           10000]
                   else [])
       | Some _ =>
           part_002.TestResult.Duration result = 0
           /\ part_002.TestResult.Throughput result = float64 0
           /\ part_002.TestResult.Analysis result = part_002.zero_Analysis
           /\ List.filter is_SaveSample calls = []
       end.
Proof.
  intros Hret.
  assert (Hfloor : forall e,
             part_002.Microsecond
             <= (if e <? part_002.Microsecond then part_002.Microsecond
                 else e)).
  { intros e. destruct (e <? part_002.Microsecond) eqn:E; lia. }
  unfold part_002.runSingleTest.
  change (S (Z.to_nat part_002.maxRetries)) with 3%nat.
  cbn [part_002.retry_loop].
  change (0 <=? part_002.maxRetries) with true. cbv iota.
  change (0 <? part_002.maxRetries) with true. cbv iota.
  change (Go.wrap_int64 (0 + 1)) with 1.
  change (1 <=? part_002.maxRetries) with true. cbv iota.
  change (1 <? part_002.maxRetries) with true. cbv iota.
  change (Go.wrap_int64 (1 + 1)) with 2.
  change (2 <=? part_002.maxRetries) with true. cbv iota.
  change (2 <? part_002.maxRetries) with false. cbv iota.
  change (Go.wrap_int64 (2 + 1)) with 3.
  change (3 <=? part_002.maxRetries) with false. cbv iota.
  unfold part_002.performanceTest, part_002.deferred.
  destruct (part_002.increment now tracker) as [tracker' printed].
  cbn [fst snd].
  destruct (gen_GenerateBytes g testSize) as [[d1 [e1 |] | msg1 |] g1] eqn:E1;
    [| | | exfalso; apply (Hret g testSize); now rewrite E1].
  - destruct (gen_GenerateBytes g1 testSize)
      as [[d2 [e2 |] | msg2 |] g2] eqn:E2;
      [| | | exfalso; apply (Hret g1 testSize); now rewrite E2].
    + destruct (gen_GenerateBytes g2 testSize)
        as [[d3 [e3 |] | msg3 |] g3] eqn:E3;
        [| | | exfalso; apply (Hret g2 testSize); now rewrite E3].
      * cbn [part_002.err part_002.data part_002.duration
             part_002.throughput].
        eexists _, _, _. split; [reflexivity |].
        cbn. repeat split; lia.
      * cbn [part_002.err part_002.data part_002.duration
             part_002.throughput default].
        destruct (testRun <=? 10); eexists _, _, _;
          (split; [reflexivity |]); unfold part_002.saveSample; cbn;
          (split; [reflexivity |]); (split; [lia |]);
          (split; [reflexivity |]); (split; [reflexivity |]);
          exists d3, g2; repeat split; auto.
      * cbn [part_002.err part_002.data part_002.duration
             part_002.throughput].
        eexists _, _, _. split; [reflexivity |].
        cbn. repeat split; lia.
    + cbn [part_002.err part_002.data part_002.duration
           part_002.throughput default].
      destruct (testRun <=? 10); eexists _, _, _;
        (split; [reflexivity |]); unfold part_002.saveSample; cbn;
        (split; [reflexivity |]); (split; [lia |]);
        (split; [reflexivity |]); (split; [reflexivity |]);
        exists d2, g1; repeat split; auto.
    + cbn [part_002.err part_002.data part_002.duration
           part_002.throughput].
      eexists _, _, _. split; [reflexivity |].
      cbn. repeat split; lia.
  - cbn [part_002.err part_002.data part_002.duration
         part_002.throughput default].
    destruct (testRun <=? 10); eexists _, _, _;
      (split; [reflexivity |]); unfold part_002.saveSample; cbn;
      (split; [reflexivity |]); (split; [lia |]);
      (split; [reflexivity |]); (split; [reflexivity |]);
      exists d1, g; repeat split; auto.
  - cbn [part_002.err part_002.data part_002.duration
         part_002.throughput].
    eexists _, _, _. split; [reflexivity |].
    cbn. repeat split; lia.
Qed.

(** ** Aggregation, for every list of results *)

(** A key of the first loop's map is the name of a result. *)
Lemma tally_keys {F : Type} {ops : Float64 F}
    (results : list (part_002.TestResult.t F)) (name : string) :
  is_Some (fold_left part_002.tally results ∅ !! name) ->
  named name results <> [].
Proof.
  induction results as [| x results IH] using rev_ind.
  - simpl. rewrite lookup_empty. intros [a Ha]. discriminate.
  - rewrite fold_left_app. cbn [fold_left].
    unfold named. rewrite List.filter_app. cbn [List.filter].
    destruct (String.eqb (part_002.TestResult.Name x) name) eqn:E.
    + intros _ Hnil. apply app_eq_nil in Hnil as [_ Hnil]. discriminate.
    + intros Hsome. apply String.eqb_neq in E.
      unfold part_002.tally in Hsome.
      rewrite lookup_insert_ne in Hsome by exact E.
      rewrite app_nil_r. apply IH, Hsome.
Qed.

(** The second loop leaves the name and the counts of an entry alone. *)
Lemma average_counts {F : Type} {ops : Float64 F}
    (results : list (part_002.TestResult.t F)) (name : string)
    (agg : part_002.AggregatedResult.t F) :
  let agg' := part_002.average results name agg in
  part_002.AggregatedResult.Name agg' = part_002.AggregatedResult.Name agg
  /\ part_002.AggregatedResult.TotalTests agg'
     = part_002.AggregatedResult.TotalTests agg
  /\ part_002.AggregatedResult.SuccessfulTests agg'
     = part_002.AggregatedResult.SuccessfulTests agg
  /\ part_002.AggregatedResult.FailedTests agg'
     = part_002.AggregatedResult.FailedTests agg
  /\ part_002.AggregatedResult.MinDuration agg'
     = part_002.AggregatedResult.MinDuration agg
  /\ part_002.AggregatedResult.MaxDuration agg'
     = part_002.AggregatedResult.MaxDuration agg.
Proof.
  unfold part_002.average.
  destruct (0 <? part_002.AggregatedResult.SuccessfulTests agg);
    [| repeat split].
  destruct (0 <? part_002.successCount _); repeat split.
Qed.

Lemma aggregateResults_lookup {F : Type} {ops : Float64 F}
    (results : list (part_002.TestResult.t F)) (name : string) :
  part_002.aggregateResults results !! name
  = match fold_left part_002.tally results ∅ !! name with
    | Some agg => Some (part_002.average results name agg)
    | None => None
    end.
Proof.
  unfold part_002.aggregateResults. rewrite map_lookup_imap.
  destruct (fold_left part_002.tally results ∅ !! name); reflexivity.
Qed.

Lemma filter_split_length {A} (f : A -> bool) (l : list A) :
  List.length l
  = (List.length (List.filter f l)
     + List.length (List.filter (fun x => negb (f x)) l))%nat.
Proof.
  induction l as [| x l IH]; [reflexivity |].
  cbn [List.filter]. destruct (f x); simpl; lia.
Qed.

Lemma aggregateResults_counts {F : Type} {ops : Float64 F}
    (results : list (part_002.TestResult.t F)) (name : string) :
  Z.of_nat (List.length results) < 2 ^ 63 ->
  (part_002.aggregateResults results !! name = None
   <-> named name results = [])
  /\ forall agg,
       part_002.aggregateResults results !! name = Some agg ->
       part_002.AggregatedResult.Name agg = name
       /\ part_002.AggregatedResult.TotalTests agg
          = Z.of_nat (List.length (named name results))
       /\ part_002.AggregatedResult.SuccessfulTests agg
          = Z.of_nat (List.length (successes name results))
       /\ part_002.AggregatedResult.TotalTests agg
          = part_002.AggregatedResult.SuccessfulTests agg
            + part_002.AggregatedResult.FailedTests agg
       /\ 0 < part_002.AggregatedResult.TotalTests agg.
Proof.
  intros Hlen.
  pose proof (tally_counts results Hlen name) as Hcounts.
  pose proof (tally_keys results name) as Hkeys.
  cbv zeta in Hcounts. rewrite aggregateResults_lookup.
  destruct (fold_left part_002.tally results ∅ !! name) as [agg0 |] eqn:E.
  - cbn [default from_option] in Hcounts. unfold Datatypes.id in Hcounts.
    destruct Hcounts as (Hn & Ht & Hs & Hf & _).
    assert (Hne : named name results <> []) by (apply Hkeys; eauto).
    split; [split; [discriminate | intros Hnil; contradiction] |].
    intros agg Hagg. inversion Hagg; subst agg.
    destruct (average_counts results name agg0)
      as (-> & -> & -> & -> & _).
    rewrite Hn, Ht, Hs, Hf. unfold successes.
    split; [reflexivity |]. split; [reflexivity |]. split; [reflexivity |].
    split.
    + rewrite (filter_split_length succeeded (named name results)) at 1.
      lia.
    + destruct (named name results); [congruence | simpl; lia].
  - split; [| discriminate].
    split; [| reflexivity]. intros _.
    destruct (named name results) eqn:En; [reflexivity |].
    destruct Hcounts as (_ & _ & _ & _ & Hsome).
    destruct Hsome as [a Ha]; [discriminate | discriminate].
Qed.

Lemma successes_snoc {F : Type} (name : string)
    (results : list (part_002.TestResult.t F))
    (x : part_002.TestResult.t F) :
  successes name (results ++ [x])
  = successes name results
    ++ (if String.eqb (part_002.TestResult.Name x) name
        then if succeeded x then [x] else []
        else []).
Proof.
  unfold successes, named. rewrite !List.filter_app. cbn [List.filter].
  destruct (String.eqb (part_002.TestResult.Name x) name); reflexivity.
Qed.

(** After the first loop, the extremes of an entry bracket the durations
    of the successful results of its name, starting from one hour and
    from zero. *)
Lemma tally_durations {F : Type} {ops : Float64 F}
    (results : list (part_002.TestResult.t F)) :
  forall name,
    let a := default (part_002.fresh name)
                     (fold_left part_002.tally results ∅ !! name) in
    part_002.AggregatedResult.MinDuration a <= part_002.Hour
    /\ 0 <= part_002.AggregatedResult.MaxDuration a
    /\ forall r, In r (successes name results) ->
                 part_002.AggregatedResult.MinDuration a
                 <= part_002.TestResult.Duration r
                 <= part_002.AggregatedResult.MaxDuration a.
Proof.
  induction results as [| x results IH] using rev_ind; intros name a.
  - subst a. simpl. rewrite lookup_empty. simpl.
    split; [lia |]. split; [lia |]. intros r [].
  - subst a. rewrite fold_left_app. cbn [fold_left].
    rewrite successes_snoc.
    set (m := fold_left part_002.tally results ∅) in *.
    unfold part_002.tally.
    destruct (String.eqb (part_002.TestResult.Name x) name) eqn:Ename.
    + apply String.eqb_eq in Ename. subst name.
      specialize (IH (part_002.TestResult.Name x)). cbv zeta in IH.
      set (agg0 := default (part_002.fresh (part_002.TestResult.Name x))
                           (m !! part_002.TestResult.Name x)) in *.
      rewrite lookup_insert_eq. cbn [default from_option].
      unfold Datatypes.id.
      destruct IH as (Hmin & Hmax & Hall).
      unfold succeeded.
      destruct (part_002.TestResult.Error x) as [e |].
      * cbn [part_002.AggregatedResult.MinDuration
             part_002.AggregatedResult.MaxDuration].
        rewrite app_nil_r. auto.
      * cbn [part_002.AggregatedResult.MinDuration
             part_002.AggregatedResult.MaxDuration].
        set (d := part_002.TestResult.Duration x).
        set (lo := part_002.AggregatedResult.MinDuration agg0) in *.
        set (hi := part_002.AggregatedResult.MaxDuration agg0) in *.
        assert (Hlo : (if d <? lo then d else lo) <= lo
                      /\ (if d <? lo then d else lo) <= d)
          by (destruct (d <? lo) eqn:E; lia).
        assert (Hhi : hi <= (if hi <? d then d else hi)
                      /\ d <= (if hi <? d then d else hi))
          by (destruct (hi <? d) eqn:E; lia).
        split; [lia |]. split; [lia |].
        intros r Hr. apply in_app_or in Hr as [Hr | [<- | []]].
        -- specialize (Hall r Hr). lia.
        -- fold d. lia.
    + apply String.eqb_neq in Ename.
      rewrite lookup_insert_ne by exact Ename.
      rewrite app_nil_r. apply IH.
Qed.

Lemma total_duration_nonneg {F : Type}
    (results : list (part_002.TestResult.t F)) :
  (forall r, In r results -> 0 <= part_002.TestResult.Duration r) ->
  0 <= total_duration results.
Proof.
  induction results as [| x results IH]; intros Hpos; simpl; [lia |].
  assert (0 <= part_002.TestResult.Duration x) by (apply Hpos; now left).
  assert (0 <= total_duration results)
    by (apply IH; intros r Hr; apply Hpos; now right).
  lia.
Qed.

Lemma successes_cons {F : Type} (name : string)
    (x : part_002.TestResult.t F)
    (results : list (part_002.TestResult.t F)) :
  successes name (x :: results)
  = (if String.eqb (part_002.TestResult.Name x) name
     then if succeeded x then [x] else []
     else [])
    ++ successes name results.
Proof.
  unfold successes, named. cbn [List.filter].
  destruct (String.eqb (part_002.TestResult.Name x) name);
    [| reflexivity].
  cbn [List.filter]. destruct (succeeded x); reflexivity.
Qed.

(** The sums of the second loop, when they fit the 64-bit integers. *)
Lemma add_success_fold {F : Type} {ops : Float64 F} (name : string)
    (results : list (part_002.TestResult.t F)) :
  forall s0,
    0 <= part_002.successCount s0 ->
    0 <= part_002.totalDuration s0 ->
    part_002.successCount s0 + Z.of_nat (List.length results) < 2 ^ 63 ->
    (forall r, In r (successes name results) ->
               0 <= part_002.TestResult.Duration r) ->
    part_002.totalDuration s0 + total_duration (successes name results)
    < 2 ^ 63 ->
    let s := fold_left (part_002.add_success name) results s0 in
    part_002.successCount s
    = part_002.successCount s0
      + Z.of_nat (List.length (successes name results))
    /\ part_002.totalDuration s
       = part_002.totalDuration s0
         + total_duration (successes name results).
Proof.
  induction results as [| x results IH]; intros s0 Hc Hd Hfit Hpos Hsum s.
  - subst s. simpl. split; lia.
  - subst s. cbn [fold_left]. rewrite successes_cons in *.
    simpl List.length in Hfit.
    set (s1 := part_002.add_success name s0 x).
    assert (Hsame : (if String.eqb (part_002.TestResult.Name x) name
                     then succeeded x else false) = false ->
                    s1 = s0).
    { unfold s1, part_002.add_success, succeeded.
      destruct (part_002.TestResult.Error x); [reflexivity |].
      destruct (String.eqb (part_002.TestResult.Name x) name);
        [discriminate | reflexivity]. }
    assert (Hnew : (if String.eqb (part_002.TestResult.Name x) name
                    then succeeded x else false) = true ->
                   part_002.successCount s1
                   = Go.wrap_int64 (part_002.successCount s0 + 1)
                   /\ part_002.totalDuration s1
                      = Go.wrap_int64 (part_002.totalDuration s0
                                       + part_002.TestResult.Duration x)).
    { unfold s1, part_002.add_success, succeeded.
      destruct (part_002.TestResult.Error x);
        destruct (String.eqb (part_002.TestResult.Name x) name);
        try discriminate.
      intros _. split; reflexivity. }
    clearbody s1.
    destruct (String.eqb (part_002.TestResult.Name x) name);
      [destruct (succeeded x) |].
    + cbn [app] in *.
      destruct (Hnew eq_refl) as [Hc1 Hd1].
      assert (Hx : 0 <= part_002.TestResult.Duration x)
        by (apply Hpos; now left).
      assert (Hrest : 0 <= total_duration (successes name results)).
      { apply total_duration_nonneg. intros r Hr. apply Hpos. now right. }
      cbn [total_duration fold_right] in Hsum.
      fold (total_duration (successes name results)) in Hsum.
      rewrite wrap_int64_small in Hc1, Hd1 by lia.
      destruct (IH s1) as [Hcount Htotal].
      * lia.
      * lia.
      * lia.
      * intros r Hr. apply Hpos. now right.
      * lia.
      * rewrite Hcount, Htotal, Hc1, Hd1.
        cbn [total_duration fold_right List.length].
        fold (total_duration (successes name results)).
        split; lia.
    + cbn [app] in *. rewrite (Hsame eq_refl). apply IH; auto; lia.
    + cbn [app] in *. rewrite (Hsame eq_refl). apply IH; auto; lia.
Qed.

(** Every result has an entry under its name after the first loop. *)
Lemma tally_has_key {F : Type} {ops : Float64 F}
    (results : list (part_002.TestResult.t F))
    (r : part_002.TestResult.t F) :
  In r results ->
  is_Some (fold_left part_002.tally results ∅ !! part_002.TestResult.Name r).
Proof.
  induction results as [| x results IH] using rev_ind; [intros [] |].
  intros Hin. rewrite fold_left_app. cbn [fold_left].
  unfold part_002.tally at 1.
  destruct (String.eqb (part_002.TestResult.Name x)
                       (part_002.TestResult.Name r)) eqn:E.
  - apply String.eqb_eq in E. rewrite E, lookup_insert_eq. eauto.
  - apply String.eqb_neq in E. rewrite lookup_insert_ne by exact E.
    apply in_app_or in Hin as [Hin | [-> | []]]; [apply IH, Hin |].
    congruence.
Qed.

Lemma successes_In {F : Type} (name : string)
    (results : list (part_002.TestResult.t F))
    (r : part_002.TestResult.t F) :
  In r (successes name results) ->
  In r results /\ part_002.TestResult.Name r = name
  /\ part_002.TestResult.Error r = None.
Proof.
  unfold successes, named. intros Hin.
  apply filter_In in Hin as [Hin Hok].
  apply filter_In in Hin as [Hin Hname].
  apply String.eqb_eq in Hname. unfold succeeded in Hok.
  destruct (part_002.TestResult.Error r); [discriminate | auto].
Qed.

Lemma rand_read_never_hangs (g : crypto_csprng.CryptoCSPRNG) (n : Z) :
  fst (gen_GenerateBytes g n) <> NoResult.
Proof.
  cbn [gen_GenerateBytes CryptoCSPRNG_Generator].
  unfold crypto_csprng.CryptoCSPRNG_GenerateBytes.
  destruct (n <? 0); [discriminate |].
  destruct (crypto_csprng.reads g (crypto_csprng.calls g)); discriminate.
Qed.

(** ** The orchestrator, for every generator and every list of results *)

(** X20: unnamed part 2, [runSingleTest]: whatever the generator does, as long
    as its calls end (return, fail or panic), a trial calls it at least
    once and at most three times, sends exactly one result, after the last
    call, and increments the tracker by one. *)
Theorem trial_reports_exactly_once {F : Type} {ops : Float64 F}
    {G : Type} {gen : Generator G} (g : G) (testSize testRun : Z)
    (elapsed : nat -> Z) (now : Z) (tracker : part_002.ProgressTracker.t) :
  (forall g n, fst (gen_GenerateBytes g n) <> NoResult) ->
  exists calls result g' tracker' printed,
    part_002.runSingleTest g testSize testRun elapsed now tracker
    = Some (calls ++ part_002.Send result :: printed, tracker', g')
    /\ List.filter is_Send calls = []
    /\ List.filter is_Send printed = []
    /\ List.filter is_Generate printed = []
    /\ (1 <= List.length (List.filter is_Generate calls) <= 3)%nat
    /\ part_002.TestResult.Name result = gen_Name g'
    /\ part_002.TestResult.TestRun result = testRun
    /\ part_002.ProgressTracker.completed tracker'
       = Go.wrap_int64 (part_002.ProgressTracker.completed tracker + 1).
Proof.
  intros Hret.
  destruct (runSingleTest_spec g testSize testRun elapsed now tracker Hret)
    as (calls & result & g' & Hrun & Hsend & Hcalls & Hname & Hrun' & _).
  exists calls, result, g', (fst (part_002.increment (F := F) now tracker)),
    (snd (part_002.increment (F := F) now tracker)).
  split; [exact Hrun |]. split; [exact Hsend |].
  assert (Hprinted :
            List.filter is_Send
                        (snd (part_002.increment (F := F) now tracker)) = []
            /\ List.filter is_Generate
                           (snd (part_002.increment (F := F) now tracker))
               = []).
  { unfold part_002.increment.
    destruct (5 * part_002.Second
              <? time_Sub now (part_002.ProgressTracker.lastPrint tracker));
      split; reflexivity. }
  destruct Hprinted as [Hp1 Hp2].
  repeat (split; [assumption |]).
  apply increment_completed.
Qed.

Lemma trial_reports_exactly_once_witness :
  (forall (g : crypto_csprng.CryptoCSPRNG) n,
      fst (gen_GenerateBytes g n) <> NoResult)
  /\ forall Log Erfc : float -> float,
       let ops := binary64.ops Log Erfc in
       exists calls result g' tracker' printed,
         part_002.runSingleTest sample.rand_down 1024 1 (fun _ => 0) 0
                                (part_002.ProgressTracker.mk 0 5 0)
         = Some (calls ++ part_002.Send result :: printed, tracker', g')
         /\ List.filter is_Send calls = []
         /\ List.filter is_Send printed = []
         /\ List.filter is_Generate printed = []
         /\ (1 <= List.length (List.filter is_Generate calls) <= 3)%nat
         /\ part_002.TestResult.Name result = gen_Name g'
         /\ part_002.TestResult.TestRun result = 1
         /\ part_002.ProgressTracker.completed tracker'
            = Go.wrap_int64
                (part_002.ProgressTracker.completed
                   (part_002.ProgressTracker.mk 0 5 0) + 1).
Proof.
  split; [exact rand_read_never_hangs |].
  intros Log Erfc ops.
  apply (trial_reports_exactly_once
           sample.rand_down 1024 1 (fun _ => 0) 0
           (part_002.ProgressTracker.mk 0 5 0)).
  exact rand_read_never_hangs.
Defined.

(** X21: unnamed part 2, [runSingleTest]: the result of a trial that failed
    carries an error and no measurement (duration 0, throughput 0, the
    zero analysis) and no sample is written; the result of a trial that
    succeeded carries the analysis of the bytes of its last call and a
    duration of at least one microsecond, and the first 10,000 of these
    bytes, or all of them if there are fewer, are written as a sample
    when the run number is at most 10, and not otherwise. *)
Theorem trial_record_matches_outcome {F : Type} {ops : Float64 F}
    {G : Type} {gen : Generator G} (g : G) (testSize testRun : Z)
    (elapsed : nat -> Z) (now : Z) (tracker : part_002.ProgressTracker.t) :
  (forall g n, fst (gen_GenerateBytes g n) <> NoResult) ->
  exists calls result g' tracker' printed,
    part_002.runSingleTest g testSize testRun elapsed now tracker
    = Some (calls ++ part_002.Send result :: printed, tracker', g')
    /\ match part_002.TestResult.Error result with
       | None =>
           exists d g0,
             gen_GenerateBytes g0 testSize = (Return d None, g')
             /\ part_002.TestResult.Analysis result
                = part_002.basicAnalysis d
             /\ part_002.Microsecond <= part_002.TestResult.Duration result
             /\ List.filter is_SaveSample calls
                = (if testRun <=? 10
                   then [part_002.SaveSample
                           (part_002.sample_filename (gen_Name g') testRun)
                           (firstn (Z.to_nat (Z.min 10000 (Go.len d))) d)]
                   else [])
       | Some _ =>
           part_002.TestResult.Duration result = 0
           /\ part_002.TestResult.Throughput result = float64 0
           /\ part_002.TestResult.Analysis result = part_002.zero_Analysis
           /\ List.filter is_SaveSample calls = []
       end.
Proof.
  intros Hret.
  destruct (runSingleTest_spec g testSize testRun elapsed now tracker Hret)
    as (calls & result & g' & Hrun & _ & _ & _ & _ & Hcase).
  exists calls, result, g', (fst (part_002.increment (F := F) now tracker)),
    (snd (part_002.increment (F := F) now tracker)).
  split; [exact Hrun |].
  destruct (part_002.TestResult.Error result); [exact Hcase |].
  destruct Hcase as (d & g0 & Hcall & Han & Hdur & Hsave).
  exists d, g0. repeat (split; [assumption |]).
  rewrite Hsave. unfold part_002.saveSample.
  replace (if Go.len d <? 10000 then Go.len d else 10000)
    with (Z.min 10000 (Go.len d))
    by (destruct (Go.len d <? 10000) eqn:E; lia).
  reflexivity.
Qed.

Lemma trial_record_matches_outcome_witness :
  (forall (g : crypto_csprng.CryptoCSPRNG) n,
      fst (gen_GenerateBytes g n) <> NoResult)
  /\ forall Log Erfc : float -> float,
       let ops := binary64.ops Log Erfc in
       exists calls result g' tracker' printed,
         part_002.runSingleTest sample.rand_down 1024 1 (fun _ => 0) 0
                                (part_002.ProgressTracker.mk 0 5 0)
         = Some (calls ++ part_002.Send result :: printed, tracker', g')
         /\ match part_002.TestResult.Error result with
            | None =>
                exists d g0,
                  gen_GenerateBytes g0 1024 = (Return d None, g')
                  /\ part_002.TestResult.Analysis result
                     = part_002.basicAnalysis d
                  /\ part_002.Microsecond
                     <= part_002.TestResult.Duration result
                  /\ List.filter is_SaveSample calls
                     = (if 1 <=? 10
                        then [part_002.SaveSample
                                (part_002.sample_filename (gen_Name g') 1)
                                (firstn (Z.to_nat (Z.min 10000 (Go.len d)))
                                        d)]
                        else [])
            | Some _ =>
                part_002.TestResult.Duration result = 0
                /\ part_002.TestResult.Throughput result = float64 0
                /\ part_002.TestResult.Analysis result
                   = part_002.zero_Analysis
                /\ List.filter is_SaveSample calls = []
            end.
Proof.
  split; [exact rand_read_never_hangs |].
  intros Log Erfc ops.
  apply (trial_record_matches_outcome
           sample.rand_down 1024 1 (fun _ => 0) 0
           (part_002.ProgressTracker.mk 0 5 0)).
  exact rand_read_never_hangs.
Defined.

(** X22: unnamed part 2, [aggregateResults]: a generator has an entry exactly
    when it has a result; the entry carries its name, the number of its
    results as [TotalTests], the number of those without error as
    [SuccessfulTests], and the rest as [FailedTests]. *)
Theorem aggregate_counts_add_up {F : Type} {ops : Float64 F}
    (results : list (part_002.TestResult.t F)) (name : string) :
  Z.of_nat (List.length results) < 2 ^ 63 ->
  match part_002.aggregateResults results !! name with
  | None => named name results = []
  | Some agg =>
      named name results <> []
      /\ part_002.AggregatedResult.Name agg = name
      /\ part_002.AggregatedResult.TotalTests agg
         = Z.of_nat (List.length (named name results))
      /\ part_002.AggregatedResult.SuccessfulTests agg
         = Z.of_nat (List.length (successes name results))
      /\ part_002.AggregatedResult.FailedTests agg
         = part_002.AggregatedResult.TotalTests agg
           - part_002.AggregatedResult.SuccessfulTests agg
  end.
Proof.
  intros Hlen.
  destruct (aggregateResults_counts results name Hlen) as [Hnone Hsome].
  destruct (part_002.aggregateResults results !! name) as [agg |] eqn:E.
  - destruct (Hsome agg eq_refl) as (Hn & Ht & Hs & Hsum & Hpos).
    split.
    + intros Hnil. apply Hnone in Hnil. discriminate.
    + repeat (split; [assumption |]). lia.
  - apply Hnone. reflexivity.
Qed.

Lemma aggregate_counts_add_up_witness :
  Z.of_nat (List.length sample_results.results) < 2 ^ 63
  /\ forall Log Erfc : float -> float,
       let ops := binary64.ops Log Erfc in
       match part_002.aggregateResults sample_results.results
             !! "Crypto CSPRNG"%string with
       | None => named "Crypto CSPRNG" sample_results.results = []
       | Some agg =>
           named "Crypto CSPRNG" sample_results.results <> []
           /\ part_002.AggregatedResult.Name agg = "Crypto CSPRNG"%string
           /\ part_002.AggregatedResult.TotalTests agg
              = Z.of_nat (List.length (named "Crypto CSPRNG"
                                             sample_results.results))
           /\ part_002.AggregatedResult.SuccessfulTests agg
              = Z.of_nat (List.length (successes "Crypto CSPRNG"
                                                 sample_results.results))
           /\ part_002.AggregatedResult.FailedTests agg
              = part_002.AggregatedResult.TotalTests agg
                - part_002.AggregatedResult.SuccessfulTests agg
       end.
Proof.
  split; [simpl; lia |].
  intros Log Erfc ops.
  apply (aggregate_counts_add_up sample_results.results "Crypto CSPRNG").
  simpl. lia.
Defined.

(** X23: unnamed part 2, [aggregateResults]: every successful result lies
    between the [MinDuration] and the [MaxDuration] of the entry of its
    generator; the minimum starts from one hour and the maximum from
    zero, so the entry never reports a minimum above one hour. *)
Theorem aggregate_duration_bounds {F : Type} {ops : Float64 F}
    (results : list (part_002.TestResult.t F)) (name : string)
    (r : part_002.TestResult.t F) :
  In r (successes name results) ->
  exists agg,
    part_002.aggregateResults results !! name = Some agg
    /\ part_002.AggregatedResult.MinDuration agg
       <= part_002.TestResult.Duration r
       <= part_002.AggregatedResult.MaxDuration agg
    /\ part_002.AggregatedResult.MinDuration agg <= part_002.Hour
    /\ 0 <= part_002.AggregatedResult.MaxDuration agg.
Proof.
  intros Hin.
  destruct (successes_In name results r Hin) as (Hr & Hname & _).
  pose proof (tally_has_key results r Hr) as [agg0 Hagg0].
  rewrite Hname in Hagg0.
  pose proof (tally_durations results name) as Hd. cbv zeta in Hd.
  rewrite Hagg0 in Hd. cbn [default from_option] in Hd.
  unfold Datatypes.id in Hd. destruct Hd as (Hmin & Hmax & Hall).
  exists (part_002.average results name agg0).
  rewrite aggregateResults_lookup, Hagg0.
  split; [reflexivity |].
  destruct (average_counts results name agg0)
    as (_ & _ & _ & _ & -> & ->).
  split; [apply Hall, Hin |]. split; assumption.
Qed.

Lemma aggregate_duration_bounds_witness :
  In sample_results.good_run
     (successes "Hybrid PRNG" sample_results.results)
  /\ forall Log Erfc : float -> float,
       let ops := binary64.ops Log Erfc in
       exists agg,
         part_002.aggregateResults sample_results.results
           !! "Hybrid PRNG"%string = Some agg
         /\ part_002.AggregatedResult.MinDuration agg
            <= part_002.TestResult.Duration sample_results.good_run
            <= part_002.AggregatedResult.MaxDuration agg
         /\ part_002.AggregatedResult.MinDuration agg <= part_002.Hour
         /\ 0 <= part_002.AggregatedResult.MaxDuration agg.
Proof.
  split; [left; reflexivity |].
  intros Log Erfc ops.
  apply (aggregate_duration_bounds sample_results.results "Hybrid PRNG"
                                   sample_results.good_run).
  left. reflexivity.
Defined.

(** X24: unnamed part 2, [aggregateResults]: for a generator with at least one
    successful result, [AvgDuration] is the sum of the durations of its
    successful results divided by their number, rounded towards zero,
    provided the durations are not negative and their sum fits a 64-bit
    integer; the averaged analysis leaves [Length] at 0. *)
Theorem aggregate_average_duration {F : Type} {ops : Float64 F}
    (results : list (part_002.TestResult.t F)) (name : string) :
  Z.of_nat (List.length results) < 2 ^ 63 ->
  (forall r, In r (successes name results) ->
             0 <= part_002.TestResult.Duration r) ->
  total_duration (successes name results) < 2 ^ 63 ->
  successes name results <> [] ->
  exists agg,
    part_002.aggregateResults results !! name = Some agg
    /\ part_002.AggregatedResult.AvgDuration agg
       = Z.quot (total_duration (successes name results))
                (Z.of_nat (List.length (successes name results)))
    /\ part_002.Analysis.Length (part_002.AggregatedResult.AvgAnalysis agg)
       = 0.
Proof.
  intros Hlen Hpos Hsum Hne.
  destruct (successes name results) as [| r0 rest] eqn:Es; [congruence |].
  assert (Hin : In r0 (successes name results))
    by (rewrite Es; left; reflexivity).
  destruct (successes_In name results r0 Hin) as (Hr & Hname & _).
  pose proof (tally_has_key results r0 Hr) as [agg0 Hagg0].
  rewrite Hname in Hagg0.
  pose proof (tally_counts results Hlen name) as Hc. cbv zeta in Hc.
  rewrite Hagg0 in Hc. cbn [default from_option] in Hc.
  unfold Datatypes.id in Hc. destruct Hc as (_ & _ & Hok & _).
  fold (successes name results) in Hok. rewrite <- Es in *.
  assert (Hk : 0 < Z.of_nat (List.length (successes name results)))
    by (rewrite Es; simpl; lia).
  pose proof (filter_length_le succeeded (named name results)) as Hle1.
  pose proof (filter_length_le
                (fun r => String.eqb (part_002.TestResult.Name r) name)
                results) as Hle2.
  fold (named name results) in Hle2. fold (successes name results) in Hle1.
  destruct (add_success_fold name results
              (part_002.mkSums 0 (float64 0) part_002.zero_Analysis 0))
    as [Hcount Htotal]; cbn [part_002.successCount part_002.totalDuration];
    try lia; try assumption.
  cbn [part_002.successCount part_002.totalDuration] in Hcount, Htotal.
  exists (part_002.average results name agg0).
  rewrite aggregateResults_lookup, Hagg0. split; [reflexivity |].
  unfold part_002.average. rewrite Hok.
  replace (0 <? Z.of_nat (List.length (successes name results))) with true
    by (symmetry; apply Z.ltb_lt; lia).
  rewrite Hcount, Z.add_0_l.
  replace (0 <? Z.of_nat (List.length (successes name results))) with true
    by (symmetry; apply Z.ltb_lt; lia).
  cbn [part_002.AggregatedResult.AvgDuration
       part_002.AggregatedResult.AvgAnalysis part_002.Analysis.Length].
  rewrite Htotal, Z.add_0_l. split; reflexivity.
Qed.

Lemma aggregate_average_duration_witness :
  (Z.of_nat (List.length sample_results.results) < 2 ^ 63
   /\ (forall r, In r (successes "Hybrid PRNG" sample_results.results) ->
                 0 <= part_002.TestResult.Duration r)
   /\ total_duration (successes "Hybrid PRNG" sample_results.results)
      < 2 ^ 63
   /\ successes "Hybrid PRNG" sample_results.results <> [])
  /\ forall Log Erfc : float -> float,
       let ops := binary64.ops Log Erfc in
       exists agg,
         part_002.aggregateResults sample_results.results
           !! "Hybrid PRNG"%string = Some agg
         /\ part_002.AggregatedResult.AvgDuration agg
            = Z.quot (total_duration
                        (successes "Hybrid PRNG" sample_results.results))
                     (Z.of_nat
                        (List.length
                           (successes "Hybrid PRNG"
                                      sample_results.results)))
         /\ part_002.Analysis.Length
              (part_002.AggregatedResult.AvgAnalysis agg) = 0.
Proof.
  assert (H1 : Z.of_nat (List.length sample_results.results) < 2 ^ 63)
    by (simpl; lia).
  assert (H2 : forall r,
             In r (successes "Hybrid PRNG" sample_results.results) ->
             0 <= part_002.TestResult.Duration r).
  { intros r [<- | []]. simpl. lia. }
  assert (H3 : total_duration
                 (successes "Hybrid PRNG" sample_results.results) < 2 ^ 63)
    by reflexivity.
  assert (H4 : successes "Hybrid PRNG" sample_results.results <> [])
    by discriminate.
  split; [auto |].
  intros Log Erfc ops.
  apply (aggregate_average_duration sample_results.results "Hybrid PRNG"
                                    H1 H2 H3 H4).
Defined.

(** ** The reseeding drafts *)

(** X9: weather_prng.go and the two reseeding drafts of unnamed part 3,
    [GenerateBytes]: while no reseed is due, the three generators are the
    same machine; from the same key, counter, byte count and time of last
    reseed they return the same bytes and move to the same state,
    whatever their entropy sources would have answered. *)
Theorem reseeding_generators_agree (clock : Z)
    (io1 : weather_prng.reseed_io) (io2 : part_003_hybrid.reseed_io)
    (io3 : part_003_multEntropy.reseed_io)
    (st : list byte) (ctr generatedBytes last n : Z) :
  time_Sub clock last <= RESEED_INTERVAL ->
  generatedBytes <= RESEED_BYTE_INTERVAL ->
  0 <= n ->
  exists out st' ctr' generatedBytes' tr,
    weather_prng.GenerateBytes
      clock io1 (weather_prng.mkWeather st ctr generatedBytes last) n
    = (Return out None,
       weather_prng.mkWeather st' ctr' generatedBytes' last, tr)
    /\ part_003_hybrid.GenerateBytes
         clock io2 (part_003_hybrid.mkHybrid st ctr generatedBytes last) n
       = (Return out None,
          part_003_hybrid.mkHybrid st' ctr' generatedBytes' last, tr)
    /\ part_003_multEntropy.GenerateBytes
         clock io3 (part_003_multEntropy.mkMult st ctr generatedBytes last)
         n
       = (Return out None,
          part_003_multEntropy.mkMult st' ctr' generatedBytes' last, tr)
    /\ Go.len out = n
    /\ generatedBytes' = Go.wrap_int64 (generatedBytes + n)
    /\ Forall (fun e => e <> EvReseed) tr.
Proof.
  intros Htime Hbytes Hn.
  assert (Hquiet : (RESEED_INTERVAL <? time_Sub clock last)
                   || (RESEED_BYTE_INTERVAL <? generatedBytes) = false).
  { apply orb_false_iff. split; apply Z.ltb_ge; assumption. }
  assert (Hneg : (n <? 0) = false) by (apply Z.ltb_ge; lia).
  eexists _, _, _, _, _. split; [| split; [| split]].
  - unfold weather_prng.GenerateBytes, weather_prng.needs_reseed.
    cbn [weather_prng.lastReseed weather_prng.bytesGenerated
         weather_prng.state weather_prng.counter].
    rewrite Hquiet, Hneg.
    cbn [weather_prng.lastReseed weather_prng.bytesGenerated
         weather_prng.state weather_prng.counter].
    rewrite rekey_run_content by lia. reflexivity.
  - unfold part_003_hybrid.GenerateBytes, part_003_hybrid.needs_reseed.
    cbn [part_003_hybrid.lastReseed part_003_hybrid.bytesGenerated
         part_003_hybrid.state part_003_hybrid.counter].
    rewrite Hquiet, Hneg.
    cbn [part_003_hybrid.lastReseed part_003_hybrid.bytesGenerated
         part_003_hybrid.state part_003_hybrid.counter].
    rewrite part_003_hybrid_loop_eq, rekey_run_content by lia. reflexivity.
  - unfold part_003_multEntropy.GenerateBytes,
      part_003_multEntropy.needs_reseed.
    cbn [part_003_multEntropy.lastReseed
         part_003_multEntropy.bytesGenerated
         part_003_multEntropy.state part_003_multEntropy.counter].
    rewrite Hquiet, Hneg.
    cbn [part_003_multEntropy.lastReseed
         part_003_multEntropy.bytesGenerated
         part_003_multEntropy.state part_003_multEntropy.counter].
    rewrite part_003_multEntropy_loop_eq, rekey_run_content by lia.
    reflexivity.
  - split; [apply firstn_stream_len_rekey; lia |].
    split; [reflexivity |]. apply block_events_no_reseed.
Qed.

Lemma reseeding_generators_agree_witness :
  (time_Sub 0 0 <= RESEED_INTERVAL /\ 0 <= RESEED_BYTE_INTERVAL /\ 0 <= 70)
  /\ forall (io1 : weather_prng.reseed_io)
            (io2 : part_003_hybrid.reseed_io)
            (io3 : part_003_multEntropy.reseed_io),
       exists out st' ctr' generatedBytes' tr,
         weather_prng.GenerateBytes
           0 io1 (weather_prng.mkWeather sample.seed 0 0 0) 70
         = (Return out None,
            weather_prng.mkWeather st' ctr' generatedBytes' 0, tr)
         /\ part_003_hybrid.GenerateBytes
              0 io2 (part_003_hybrid.mkHybrid sample.seed 0 0 0) 70
            = (Return out None,
               part_003_hybrid.mkHybrid st' ctr' generatedBytes' 0, tr)
         /\ part_003_multEntropy.GenerateBytes
              0 io3 (part_003_multEntropy.mkMult sample.seed 0 0 0) 70
            = (Return out None,
               part_003_multEntropy.mkMult st' ctr' generatedBytes' 0, tr)
         /\ Go.len out = 70
         /\ generatedBytes' = Go.wrap_int64 (0 + 70)
         /\ Forall (fun e => e <> EvReseed) tr.
Proof.
  split.
  - repeat split; vm_compute; discriminate.
  - intros io1 io2 io3.
    apply (reseeding_generators_agree 0 io1 io2 io3 sample.seed 0 0 0 70).
    + vm_compute. discriminate.
    + vm_compute. discriminate.
    + lia.
Defined.

(** A number printed in decimal starts with a digit or a minus sign. *)
Lemma FormatInt_head (v : Z) :
  exists b rest,
    Go.FormatInt v = b :: rest /\ b <> "n"%byte.
Proof.
  unfold Go.FormatInt, Go.bytes_of_string.
  destruct (Z.to_int v) as [d | d]; destruct d;
    cbn; eexists _, _; (split; [reflexivity | discriminate]).
Qed.

Lemma Join_head (p : list byte) (rest : list (list byte)) (b : byte)
    (tail : list byte) :
  p = b :: tail ->
  exists tail', part_003_multEntropy.Join (p :: rest) = b :: tail'.
Proof.
  intros ->. destruct rest as [| q rest]; cbn [part_003_multEntropy.Join].
  - eauto.
  - eexists. reflexivity.
Qed.

(** X10: unnamed part 3, [getNetworkJitter]: the text is the marker
    "network_error_all" exactly when every probe failed; otherwise it is
    the latencies of the probes that succeeded, in the order in which
    they finished, joined by commas. *)
Theorem jitter_marker_iff_all_failed (probes : list (option Z)) :
  (part_003_multEntropy.getNetworkJitter probes
   = Go.bytes_of_string "network_error_all"
   <-> forall p, In p probes -> p = None)
  /\ ((exists d, In (Some d) probes) ->
      part_003_multEntropy.getNetworkJitter probes
      = part_003_multEntropy.Join
          (map Go.FormatInt
               (flat_map (fun p => match p with
                                   | Some d => [d]
                                   | None => []
                                   end) probes))).
Proof.
  unfold part_003_multEntropy.getNetworkJitter.
  set (latencies := flat_map _ probes).
  assert (Hmap : latencies
                 = map Go.FormatInt
                       (flat_map (fun p => match p with
                                           | Some d => [d]
                                           | None => []
                                           end) probes)).
  { unfold latencies. induction probes as [| [d |] probes IH];
      cbn [flat_map map app]; [reflexivity | | exact IH].
    f_equal. exact IH. }
  assert (Hnil : latencies = [] <-> forall p, In p probes -> p = None).
  { unfold latencies. clear Hmap. induction probes as [| [d |] probes IH].
    - split; [intros _ p [] | reflexivity].
    - split; [discriminate |].
      intros Hall. specialize (Hall (Some d) (or_introl eq_refl)).
      discriminate.
    - cbn [flat_map app]. rewrite IH. split.
      + intros Hall p [<- | Hp]; [reflexivity | apply Hall, Hp].
      + intros Hall p Hp. apply Hall. right. exact Hp. }
  split.
  - destruct latencies as [| p rest] eqn:El.
    + cbn. split; [intros _; apply Hnil; reflexivity | reflexivity].
    + replace (Go.len (p :: rest) =? 0) with false
        by (symmetry; apply Z.eqb_neq; unfold Go.len; simpl; lia).
      split.
      * intros Hjoin. exfalso.
        assert (Hp : In p (map Go.FormatInt
                               (flat_map (fun p => match p with
                                                   | Some d => [d]
                                                   | None => []
                                                   end) probes)))
          by (rewrite <- Hmap; left; reflexivity).
        apply in_map_iff in Hp as (d & <- & _).
        destruct (FormatInt_head d) as (b & tail & Hfmt & Hb).
        destruct (Join_head (Go.FormatInt d) rest b tail Hfmt)
          as (tail' & Hj).
        rewrite Hj in Hjoin. inversion Hjoin. contradiction.
      * intros Hall. apply Hnil in Hall. discriminate.
  - intros (d & Hd). rewrite <- Hmap.
    destruct latencies as [| p rest] eqn:El.
    + exfalso. assert (Hall : forall p, In p probes -> p = None)
        by (apply Hnil; reflexivity).
      specialize (Hall (Some d) Hd). discriminate.
    + replace (Go.len (p :: rest) =? 0) with false
        by (symmetry; apply Z.eqb_neq; unfold Go.len; simpl; lia).
      reflexivity.
Qed.

Lemma jitter_marker_iff_all_failed_witness :
  (part_003_multEntropy.getNetworkJitter [None; None; None; None]
   = Go.bytes_of_string "network_error_all"
   <-> forall p, In p [None; None; None; None] -> p = None (A := Z))
  /\ ((exists d, In (Some d) [None; Some 7000000; None; Some 5000000]) ->
      part_003_multEntropy.getNetworkJitter
        [None; Some 7000000; None; Some 5000000]
      = Go.bytes_of_string "7000000,5000000").
Proof.
  split.
  - apply (jitter_marker_iff_all_failed [None; None; None; None]).
  - intros Hd.
    destruct (jitter_marker_iff_all_failed
                [None; Some 7000000; None; Some 5000000]) as [_ Hjoin].
    rewrite (Hjoin Hd). vm_compute. reflexivity.
Defined.

(** ** The order of the map in main.go *)

Lemma fold_left_permutation {A B} (f : A -> B -> A) :
  (forall a x y, f (f a x) y = f (f a y) x) ->
  forall l l', Permutation l l' ->
               forall a, fold_left f l a = fold_left f l' a.
Proof.
  intros Hcomm l l' Hperm.
  induction Hperm as [| x l l' _ IH | x y l | l l' l'' _ IH1 _ IH2];
    intros a; cbn [fold_left].
  - reflexivity.
  - apply IH.
  - rewrite Hcomm. reflexivity.
  - rewrite IH1. apply IH2.
Qed.

Lemma range_order_permutation (counts : gmap byte Z)
    (order1 order2 : list byte) :
  main_go.range_order counts order1 ->
  main_go.range_order counts order2 ->
  Permutation order1 order2.
Proof.
  intros [Hnd1 Hk1] [Hnd2 Hk2].
  apply Stdlib.Sorting.Permutation.NoDup_Permutation; [assumption.. |].
  intros b. rewrite Hk1, Hk2. reflexivity.
Qed.

(** X17: main.go, [calculateShannonEntropy]: the loop walks a map, whose order
    the language leaves open; in exact arithmetic the entropy is the same
    for every order in which the map may be walked. *)
Theorem entropy_is_order_independent (erfc : R -> R)
    (data order1 order2 : list byte) :
  main_go.range_order (main_go.count_bytes data) order1 ->
  main_go.range_order (main_go.count_bytes data) order2 ->
  let ops := exact.ops erfc in
  main_go.calculateShannonEntropy order1 data
  = main_go.calculateShannonEntropy order2 data.
Proof.
  intros H1 H2 ops. unfold main_go.calculateShannonEntropy.
  destruct (Go.len data =? 0); [reflexivity |].
  apply fold_left_permutation.
  - intros e x y. cbv zeta.
    destruct (0 <? main_go.at_key (main_go.count_bytes data) x);
      destruct (0 <? main_go.at_key (main_go.count_bytes data) y);
      try reflexivity.
    cbn [fsub fmul ops exact.ops]. ring.
  - apply (range_order_permutation (main_go.count_bytes data)); assumption.
Qed.

Lemma two_bytes_range_order (order : list byte) :
  Permutation [x00; x01] order ->
  main_go.range_order (main_go.count_bytes [x00; x01]) order.
Proof.
  intros Hperm. split.
  - apply (Stdlib.Sorting.Permutation.Permutation_NoDup Hperm).
    repeat constructor; simpl; intuition discriminate.
  - intros b.
    destruct (main_go_count_bytes [x00; x01]) with (b := b) as [_ Hkey];
      [simpl; lia |].
    rewrite Hkey. split; apply Permutation_in;
      [symmetry; exact Hperm | exact Hperm].
Qed.

Lemma entropy_is_order_independent_witness :
  (main_go.range_order (main_go.count_bytes [x00; x01]) [x00; x01]
   /\ main_go.range_order (main_go.count_bytes [x00; x01]) [x01; x00])
  /\ forall erfc : R -> R,
       let ops := exact.ops erfc in
       main_go.calculateShannonEntropy [x00; x01] [x00; x01]
       = main_go.calculateShannonEntropy [x01; x00] [x00; x01].
Proof.
  assert (H1 : main_go.range_order (main_go.count_bytes [x00; x01])
                                   [x00; x01])
    by (apply two_bytes_range_order; reflexivity).
  assert (H2 : main_go.range_order (main_go.count_bytes [x00; x01])
                                   [x01; x00])
    by (apply two_bytes_range_order; apply perm_swap).
  split; [auto |].
  intros erfc.
  apply (entropy_is_order_independent erfc [x00; x01] [x00; x01]
                                      [x01; x00] H1 H2).
Defined.

(** ** The throughput of a call *)

(** [d.Seconds()] in exact arithmetic: the nanoseconds divided by 10^9. *)
Lemma Seconds_exact (erfc : R -> R) (d : Z) :
  let ops := exact.ops erfc in
  Seconds d = (IZR d / 1000000000)%R.
Proof.
  intros ops. unfold Seconds. cbn [fadd fdiv float64 ops exact.ops].
  pose proof (Z.quot_rem' d 1000000000) as Hqr.
  rewrite Hqr at 3. rewrite plus_IZR, mult_IZR. field.
Qed.

(** X25: unnamed part 2, [performanceTest]: for a call that returns without
    error, the duration reported is the measured time, raised to one
    microsecond when it is shorter, so the division is never by zero; in
    exact arithmetic the throughput is the number of bytes asked for,
    per second of that duration, in units of 2^20 bytes. *)
Theorem throughput_is_mebibytes_per_second (erfc : R -> R) {G : Type}
    {gen : Generator G} (g g' : G) (data : list byte)
    (testSize elapsed : Z) :
  gen_GenerateBytes g testSize = (Return data None, g') ->
  let ops := exact.ops erfc in
  exists duration throughput,
    part_002.performanceTest g testSize elapsed
    = (part_002.PerfReturn (Some data) duration throughput None, g')
    /\ duration = Z.max elapsed part_002.Microsecond
    /\ (throughput * (IZR duration / 1000000000) * 1048576
        = IZR testSize)%R.
Proof.
  intros Hcall ops. unfold part_002.performanceTest. rewrite Hcall.
  eexists _, _. split; [reflexivity |].
  set (duration := if elapsed <? part_002.Microsecond
                   then part_002.Microsecond else elapsed).
  assert (Hd : duration = Z.max elapsed part_002.Microsecond).
  { unfold duration.
    destruct (elapsed <? part_002.Microsecond) eqn:E; lia. }
  split; [exact Hd |].
  assert (Hpos : (0 < IZR duration)%R).
  { apply IZR_lt. rewrite Hd. unfold part_002.Microsecond. lia. }
  pose proof (Seconds_exact erfc duration) as Hs. cbv zeta in Hs.
  unfold ops. rewrite Hs.
  cbn [fdiv float64 exact.ops].
  change (1024 * 1024) with 1048576. field. lra.
Qed.

Lemma throughput_is_mebibytes_per_second_witness :
  gen_GenerateBytes
    (crypto_csprng.mkCrypto (fun _ => crypto_csprng.Filled [x01; x02]) 0) 2
  = (Return [x01; x02] None,
     crypto_csprng.mkCrypto (fun _ => crypto_csprng.Filled [x01; x02]) 1)
  /\ forall erfc : R -> R,
       let ops := exact.ops erfc in
       exists duration throughput,
         part_002.performanceTest
           (crypto_csprng.mkCrypto
              (fun _ => crypto_csprng.Filled [x01; x02]) 0)
           2 500
         = (part_002.PerfReturn (Some [x01; x02]) duration throughput None,
            crypto_csprng.mkCrypto
              (fun _ => crypto_csprng.Filled [x01; x02]) 1)
         /\ duration = Z.max 500 part_002.Microsecond
         /\ (throughput * (IZR duration / 1000000000) * 1048576
             = IZR 2)%R.
Proof.
  split; [reflexivity |].
  intros erfc.
  apply (throughput_is_mebibytes_per_second
           erfc
           (crypto_csprng.mkCrypto
              (fun _ => crypto_csprng.Filled [x01; x02]) 0)
           (crypto_csprng.mkCrypto
              (fun _ => crypto_csprng.Filled [x01; x02]) 1)
           [x01; x02] 2 500).
  reflexivity.
Defined.

(** ** The benchmark of main.go on the generators of the repository *)

Lemma insecure_prng_GenerateBytes_returns (p : insecure_prng.InsecurePRNG)
    (n : Z) :
  0 <= n <= Go.max_int64 - 4 ->
  exists out p',
    insecure_prng.GenerateBytes p n = (Return out None, p')
    /\ Go.len out = n.
Proof.
  intros Hn. unfold insecure_prng.GenerateBytes.
  replace (n <? 0) with false by (symmetry; apply Z.ltb_ge; lia).
  destruct (fill_loop_spec (insecure_prng.rng p) (insecure_prng.drawn p) n
              (Z.to_nat n) (Go.make_bytes n) 0)
    as (out & Hrun & Hlen & _);
    [exact Hn | lia | unfold Go.len; rewrite make_bytes_length; lia | lia
     | intros j Hj; lia |].
  rewrite Nat.add_0_r in Hrun. change (4 * Z.of_nat 0) with 0 in Hrun.
  rewrite Hrun. eauto.
Qed.

(** X26: main.go, [runBenchmark] and [main]: for every generator type of
    the repository that implements the interface without further input
    (CryptoCSPRNG, InsecurePRNG, the WeatherCSPRNG of crypto_csprng.go,
    multEntropyCSPRNG, HybridCSPRNG), in every state, a benchmark with a
    data size of at least 32 bytes runs all its iterations and delivers
    its result, as it does for the 16384 bytes that [main] asks for. *)
Theorem benchmark_completes_from_32_bytes {F : Type} {ops : Float64 F}
    (iterations dataSize : Z) (observe : nat -> Z * list byte) :
  32 <= dataSize <= Go.max_int64 - 4 ->
  0 <= iterations < 2 ^ 63 ->
  let completes (G : Type) (gen : Generator G) (g : G) :=
    exists r g',
      main_go.runBenchmark g iterations dataSize observe = Some (r, g')
      /\ main_go.TestResult.Name r = gen_Name g
      /\ main_go.TestResult.TotalIterations r = iterations in
  (forall g : crypto_csprng.CryptoCSPRNG, completes _ _ g)
  /\ (forall g : insecure_prng.InsecurePRNG, completes _ _ g)
  /\ (forall g : crypto_csprng.WeatherCSPRNG, completes _ _ g)
  /\ (forall g : multEntropy_prng.multEntropyCSPRNG, completes _ _ g)
  /\ (forall g : hybrid_prng.HybridCSPRNG, completes _ _ g).
Proof.
  intros Hsize Hit completes.
  assert (Hrun : forall (G : Type) (gen : Generator G),
             (forall g : G, exists data err g',
                   gen_GenerateBytes g dataSize = (Return data err, g')) ->
             forall g : G, completes G gen g).
  { intros G gen Hret g. unfold completes, main_go.runBenchmark.
    destruct (benchmark_loop_returns dataSize observe Hret
                (Z.to_nat iterations) 0 g
                (main_go.mkTotals F 0 (float64 0) (float64 0) (float64 0) 0))
      as (t' & g' & Hloop & _); cbn [main_go.passedNIST]; [lia | lia |].
    rewrite Hloop. eexists _, _. repeat split. }
  split; [| split; [| split; [| split]]]; apply Hrun; intros g.
  - apply rand_read_always_returns. lia.
  - destruct (insecure_prng_GenerateBytes_returns g dataSize)
      as (out & p' & Hcall & _); [lia |].
    exists out, None, p'. exact Hcall.
  - destruct (crypto_csprng_GenerateBytes_long g dataSize)
      as (out & Hcall & _); [lia |].
    eexists out, None, _. exact Hcall.
  - destruct (multEntropy_prng_GenerateBytes_long g dataSize)
      as (out & c' & Hcall & _); [lia |].
    exists out, None, c'. exact Hcall.
  - destruct (hybrid_prng_GenerateBytes_total g dataSize)
      as (out & h' & Hcall & _); [lia |].
    exists out, None, h'. exact Hcall.
Qed.

Lemma benchmark_completes_from_32_bytes_witness :
  (32 <= 16384 <= Go.max_int64 - 4 /\ 0 <= 10000 < 2 ^ 63)
  /\ forall Log Erfc : float -> float,
       let ops := binary64.ops Log Erfc in
       let completes (G : Type) (gen : Generator G) (g : G) :=
         exists r g',
           main_go.runBenchmark g 10000 16384 (fun _ => (0, []))
           = Some (r, g')
           /\ main_go.TestResult.Name r = gen_Name g
           /\ main_go.TestResult.TotalIterations r = 10000 in
       (forall g : crypto_csprng.CryptoCSPRNG, completes _ _ g)
       /\ (forall g : insecure_prng.InsecurePRNG, completes _ _ g)
       /\ (forall g : crypto_csprng.WeatherCSPRNG, completes _ _ g)
       /\ (forall g : multEntropy_prng.multEntropyCSPRNG, completes _ _ g)
       /\ (forall g : hybrid_prng.HybridCSPRNG, completes _ _ g).
Proof.
  split; [vm_compute; repeat split; discriminate |].
  intros Log Erfc ops.
  apply (benchmark_completes_from_32_bytes 10000 16384 (fun _ => (0, []))).
  - vm_compute. split; discriminate.
  - lia.
Defined.
